(** * Exam-attempt lifecycle of the LMS backend

    A shallow embedding of the attempt-tracking core of the backend:

    - [app/models/models.py]: the tables the lifecycle touches;
    - [app/crud/exam_attempt.py]: the attempt ledger;
    - [app/crud/student_exam.py]: session creation, start, answer
      submission, completion and scoring;
    - [app/routes/student_exams.py]: the endpoints that wrap them;
    - [app/crud/subscription.py]: the expiry sweeper, the lazy expiry of the
      subscription listing and cancellation;
    - [app/crud/exam.py]: the functions that maintain the exam-question rows
      a completion reads.

    The relational store is a record of tables, every table a list of rows in
    insertion order.  [query.filter(...).all()] is [filter] over the table,
    [.first()] is the first row of that list, and an ORM object is a row
    together with its position in the table, where it is updated in place.
    A function of the backend takes the committed store and returns the store
    the request leaves committed together with its result or the exception it
    raised.  What a request reads from outside the store is an argument: the
    readings of [datetime.now()], and whether a commit that the code guards
    with [try] goes through. *)

From Stdlib Require Import ZArith QArith Qround Lia.
From Stdlib Require Import Floats.SpecFloat.
From stdpp Require Import base option list sorting gmap.

Local Open Scope Z_scope.

(** ** Python numbers

    The [Float] columns and the arithmetic of the scoring code.  The interface
    lists the operations [complete_student_exam] applies to them; [of_int] is
    the implicit conversion of an [int] operand, and [round2_zero] says that
    [round(0, 2)] is [0].  The backend is embedded over any such arithmetic.
    Two are given: [Binary64], the floats CPython computes with, on which the
    worked sessions are evaluated, and [RatFloat], exact rationals, on which
    the bounds that need the order of the numbers are proved. *)

Class PyFloat (F : Type) := {
  of_int : Z → F;
  fadd : F → F → F;          (* x + y *)
  fmul : F → F → F;          (* x * y *)
  fdiv : F → F → F;          (* x / y, y nonzero *)
  round2 : F → F;            (* round(x, 2) *)
  fltb : F → F → bool;       (* x < y *)
  fleb : F → F → bool;       (* x <= y *)
  round2_zero : round2 (of_int 0) = of_int 0;
}.

(** Exact rational arithmetic, every value kept in lowest terms so that equal
    numbers are equal terms. *)
Module RatFloat.

(** Round to the nearest integer, ties to even. *)
Definition round_half_even (q : Q) : Z :=
  let f := Qfloor q in
  let r := (q - inject_Z f)%Q in
  match (r ?= 1 # 2)%Q with
  | Lt => f
  | Gt => f + 1
  | Eq => if Z.even f then f else f + 1
  end.

Definition round_hundredths (q : Q) : Q :=
  Qred (inject_Z (round_half_even (q * 100)) / 100).

#[global] Instance pyfloat : PyFloat Q := {|
  of_int := inject_Z;
  fadd x y := Qred (x + y);
  fmul x y := Qred (x * y);
  fdiv x y := Qred (x / y);
  round2 := round_hundredths;
  fltb x y := negb (Qle_bool y x);
  fleb := Qle_bool;
  round2_zero := eq_refl;
|}.

End RatFloat.

(** IEEE binary64, the arithmetic CPython runs: the specification-level
    floats of the standard library, every operation rounded to nearest even. *)
Module Binary64.

Definition prec : Z := 53.
Definition emax : Z := 1024.

Definition of_Z (z : Z) : spec_float := binary_normalize prec emax z 0 false.

(** [m * 2^e] to the nearest integer, ties to even. *)
Definition round_half_even (m e : Z) : Z :=
  if 0 <=? e then m * 2 ^ e
  else
    let d := 2 ^ (- e) in
    let q := m / d in
    let r := m mod d in
    match 2 * r ?= d with
    | Lt => q
    | Gt => q + 1
    | Eq => if Z.even q then q else q + 1
    end.

(** [round(x, 2)]: the decimal closest to [x] with two digits after the
    point (ties to even), read back as the closest float. *)
Definition round_hundredths (x : spec_float) : spec_float :=
  match x with
  | S754_finite s m e =>
    match round_half_even (Z.pos m * 100) e with
    | Z.pos n =>
      SFdiv prec emax (S754_finite s n 0) (S754_finite false 100 0)
    | _ => S754_zero s
    end
  | _ => x
  end.

#[global] Instance pyfloat : PyFloat spec_float := {|
  of_int := of_Z;
  fadd := SFadd prec emax;
  fmul := SFmul prec emax;
  fdiv := SFdiv prec emax;
  round2 := round_hundredths;
  fltb := SFltb;
  fleb := SFleb;
  round2_zero := eq_refl;
|}.

End Binary64.

(** ** Data model ([app/models/models.py]) *)

Inductive ExamStatus := not_started | in_progress | completed.
Inductive SubscriptionStatus := active | expired | cancelled.

#[global] Instance ExamStatus_eq_dec : EqDecision ExamStatus.
Proof. solve_decision. Defined.
#[global] Instance SubscriptionStatus_eq_dec : EqDecision SubscriptionStatus.
Proof. solve_decision. Defined.

(** Datetimes are instants on the integer time line. *)
Record Exam := {
  exam_id : Z;
  start_datetime : option Z;
  end_datetime : option Z;
  max_questions : option Z;
}.

Record StudentExam := {
  se_id : Z;
  se_student_id : Z;
  se_exam_id : Z;
  se_status : ExamStatus;
}.

Record Answer := {
  ans_id : Z;
  ans_is_correct : bool;
}.

Record StudentAnswer := {
  sa_student_exam_id : Z;
  sa_question_id : Z;
  sa_answer_id : option Z;
  sa_is_correct : option bool;
}.

Record Subscription := {
  max_exams : option Z;
}.

Record SubscriptionPlanPackage := {
  subscription : option Subscription;
}.

Record UserSubscription := {
  us_id : Z;
  us_user_id : Z;
  subscription_plan_package : option SubscriptionPlanPackage;
  us_end_date : Z;
  us_status : SubscriptionStatus;
}.

Record ExamAttempt := {
  ea_user_subscription_id : Z;
  ea_exam_id : Z;
  remaining_attempts : Z;
}.

Section Backend.

Context {F : Type} `{PyFloat F}.

Record ExamQuestion := {
  eq_exam_id : Z;
  eq_question_id : Z;
  eq_marks : F;
}.

Record ExamResult := {
  er_student_exam_id : Z;
  attempt_number : Z;
  total_questions : Z;
  correct_answers : Z;
  score_percentage : F;
  obtained_marks : F;
  max_marks : F;
  passed_status : bool;
}.

Record DB := {
  exams : list Exam;
  exam_questions : list ExamQuestion;
  answers : list Answer;
  student_exams : list StudentExam;
  student_answers : list StudentAnswer;
  exam_results : list ExamResult;
  user_subscriptions : list UserSubscription;
  exam_attempts : list ExamAttempt;
}.

(** ** Scoring ([complete_student_exam], lines 255-309) *)

(** [{eq.question_id: eq.marks for eq in exam_questions}]: a later row of the
    same question overwrites an earlier one. *)
Definition question_marks_of (rows : list ExamQuestion) : gmap Z F :=
  foldl (λ d eq, <[eq_question_id eq := eq_marks eq]> d) ∅ rows.

(** [{answer.question_id: answer for answer in student_answers}]. *)
Definition answered_questions_of (sas : list StudentAnswer) : gmap Z StudentAnswer :=
  foldl (λ d a, <[sa_question_id a := a]> d) ∅ sas.

(** [sum(eq.marks for eq in exam_questions)], left to right from [0]. *)
Definition total_possible_marks_of (rows : list ExamQuestion) : F :=
  foldl (λ acc eq, fadd acc (eq_marks eq)) (of_int 0) rows.

(** Truth value of a nullable boolean column. *)
Definition truthy (b : option bool) : bool := default false b.

(** The loop over the exam questions; the state is
    [(correct_answers, obtained_marks)]. *)
Definition score_step (question_marks : gmap Z F)
    (answered_questions : gmap Z StudentAnswer)
    (acc : Z * F) (exam_question : ExamQuestion) : Z * F :=
  let question_id := eq_question_id exam_question in
  match question_marks !! question_id with
  | None => acc (* unreachable: every row's question is a key *)
  | Some question_mark =>
    match answered_questions !! question_id with
    | Some answer =>
      if truthy (sa_is_correct answer)
      then (fst acc + 1, fadd (snd acc) question_mark)
      else acc
    | None => acc
    end
  end.

Record Score := {
  sc_total_questions : Z;
  sc_correct_answers : Z;
  sc_obtained_marks : F;
  sc_max_marks : F;
  sc_score_percentage : F;
  sc_passed_status : bool;
}.

Definition compute_score (total_questions : Z) (rows : list ExamQuestion)
    (sas : list StudentAnswer) : Score :=
  let question_marks := question_marks_of rows in
  let answered_questions := answered_questions_of sas in
  let total_possible_marks := total_possible_marks_of rows in
  let avg_mark_per_question :=
    match rows with
    | [] => of_int 0
    | _ => fdiv total_possible_marks (of_int (Z.of_nat (length rows)))
    end in
  let max_marks := fmul avg_mark_per_question (of_int total_questions) in
  let '(correct_answers, obtained_marks) :=
    foldl (score_step question_marks answered_questions) (0, of_int 0) rows in
  let score_percentage :=
    if fltb (of_int 0) max_marks
    then fmul (fdiv obtained_marks max_marks) (of_int 100)
    else of_int 0 in
  let score_percentage := round2 score_percentage in
  let passing_percentage := of_int 40 in
  let passed_status := fleb passing_percentage score_percentage in
  {| sc_total_questions := total_questions;
     sc_correct_answers := correct_answers;
     sc_obtained_marks := obtained_marks;
     sc_max_marks := max_marks;
     sc_score_percentage := score_percentage;
     sc_passed_status := passed_status |}.

(** ** Exceptions and request outcomes *)

(** The message of an exception, by what it reports. *)
Inductive Detail :=
| StudentExamNotFound
| AssociatedExamNotFound
| ExamNotFound
| ExamNotStartedYet
| ExamHasEnded
| NoActiveSubscription
| InvalidSubscriptionConfiguration
| NoRemainingAttempts
| FailedToSaveExamStart
| FailedToStartExam
| FailedToCompleteExam (cause : Detail)
| NoneOperand
| OnlyForYourself
| NotEnoughPermissions
| PathBodyMismatch
| UnexpectedError
| ErrorCheckingRemainingAttempts.

Inductive Exception :=
| ValueError (detail : Detail)
| TypeError
| AttributeError
| HTTPException (status_code : Z) (detail : Detail).

(** The store a request leaves committed, and what it returned or raised. *)
Definition Outcome (A : Type) : Type := DB * (Exception + A).

Definition raise {A} (db : DB) (e : Exception) : Outcome A := (db, inl e).
Definition ret {A} (db : DB) (a : A) : Outcome A := (db, inr a).

(** ** Table updates *)

Definition with_student_exams (db : DB) (t : list StudentExam) : DB :=
  {| exams := exams db; exam_questions := exam_questions db;
     answers := answers db; student_exams := t;
     student_answers := student_answers db; exam_results := exam_results db;
     user_subscriptions := user_subscriptions db;
     exam_attempts := exam_attempts db |}.

Definition with_student_answers (db : DB) (t : list StudentAnswer) : DB :=
  {| exams := exams db; exam_questions := exam_questions db;
     answers := answers db; student_exams := student_exams db;
     student_answers := t; exam_results := exam_results db;
     user_subscriptions := user_subscriptions db;
     exam_attempts := exam_attempts db |}.

Definition with_exam_results (db : DB) (t : list ExamResult) : DB :=
  {| exams := exams db; exam_questions := exam_questions db;
     answers := answers db; student_exams := student_exams db;
     student_answers := student_answers db; exam_results := t;
     user_subscriptions := user_subscriptions db;
     exam_attempts := exam_attempts db |}.

Definition with_user_subscriptions (db : DB) (t : list UserSubscription) : DB :=
  {| exams := exams db; exam_questions := exam_questions db;
     answers := answers db; student_exams := student_exams db;
     student_answers := student_answers db; exam_results := exam_results db;
     user_subscriptions := t;
     exam_attempts := exam_attempts db |}.

Definition with_exam_attempts (db : DB) (t : list ExamAttempt) : DB :=
  {| exams := exams db; exam_questions := exam_questions db;
     answers := answers db; student_exams := student_exams db;
     student_answers := student_answers db; exam_results := exam_results db;
     user_subscriptions := user_subscriptions db;
     exam_attempts := t |}.

Definition set_status (s : ExamStatus) (se : StudentExam) : StudentExam :=
  {| se_id := se_id se; se_student_id := se_student_id se;
     se_exam_id := se_exam_id se; se_status := s |}.

Definition set_remaining (n : Z) (ea : ExamAttempt) : ExamAttempt :=
  {| ea_user_subscription_id := ea_user_subscription_id ea;
     ea_exam_id := ea_exam_id ea; remaining_attempts := n |}.

Definition set_subscription_status (s : SubscriptionStatus)
    (us : UserSubscription) : UserSubscription :=
  {| us_id := us_id us; us_user_id := us_user_id us;
     subscription_plan_package := subscription_plan_package us;
     us_end_date := us_end_date us; us_status := s |}.

(** The next value of an autoincrement primary key. *)
Definition next_id (ids : list Z) : Z := 1 + foldr Z.max 0 ids.

(** ** Queries shared by the CRUD layer and the endpoints *)

(** [db.query(StudentExam).filter(StudentExam.id == student_exam_id).first()],
    with the position of the row: the identity of the ORM object. *)
Definition get_student_exam (db : DB) (student_exam_id : Z)
    : option (nat * StudentExam) :=
  list_find (λ se, se_id se = student_exam_id) (student_exams db).

Definition get_exam (db : DB) (id : Z) : option (nat * Exam) :=
  list_find (λ e, exam_id e = id) (exams db).

(** The entitlement resolver: the first subscription of the user with
    [status == active] and [end_date >= now]. *)
Definition active_subscription_of (db : DB) (user_id now : Z)
    : option (nat * UserSubscription) :=
  list_find (λ us, us_user_id us = user_id ∧ us_status us = active
                   ∧ now ≤ us_end_date us)
            (user_subscriptions db).

(** [subscription.max_exams or 1] *)
Definition max_exams_or_1 (sub : Subscription) : Z :=
  match max_exams sub with
  | None => 1
  | Some n => if decide (n = 0) then 1 else n
  end.

(** ** The attempt ledger ([app/crud/exam_attempt.py]) *)

Definition get_exam_attempt (db : DB) (user_subscription_id exam_id : Z)
    : option (nat * ExamAttempt) :=
  list_find (λ ea, ea_user_subscription_id ea = user_subscription_id
                   ∧ ea_exam_id ea = exam_id)
            (exam_attempts db).

Definition get_remaining_attempts (db : DB) (user_subscription_id exam_id : Z) : Z :=
  match get_exam_attempt db user_subscription_id exam_id with
  | Some (_, attempt) => remaining_attempts attempt
  | None => 0
  end.

Definition create_or_update_exam_attempt (db : DB)
    (user_subscription_id exam_id max_attempts : Z) : DB * ExamAttempt :=
  match get_exam_attempt db user_subscription_id exam_id with
  | Some (i, exam_attempt) =>
    if decide (remaining_attempts exam_attempt < max_attempts)
    then
      let exam_attempt := set_remaining max_attempts exam_attempt in
      (with_exam_attempts db (<[i := exam_attempt]> (exam_attempts db)),
       exam_attempt)
    else (db, exam_attempt)
  | None =>
    let exam_attempt :=
      {| ea_user_subscription_id := user_subscription_id;
         ea_exam_id := exam_id;
         remaining_attempts := max_attempts |} in
    (with_exam_attempts db (exam_attempts db ++ [exam_attempt]), exam_attempt)
  end.

(** ** Sessions ([app/crud/student_exam.py]) *)

Record StudentExamCreate := {
  sec_student_id : Z;
  sec_exam_id : Z;
  sec_status : ExamStatus;
}.

Record StudentAnswerCreate := {
  sac_student_exam_id : Z;
  sac_question_id : Z;
  sac_answer_id : option Z;
  sac_is_correct : option bool;
}.

(** [create_student_exam]: the session row is added and committed first, the
    subscription is looked up afterwards. *)
Definition create_student_exam (now : Z) (student_exam : StudentExamCreate)
    (db : DB) : Outcome StudentExam :=
  let db_student_exam :=
    {| se_id := next_id (se_id <$> student_exams db);
       se_student_id := sec_student_id student_exam;
       se_exam_id := sec_exam_id student_exam;
       se_status := sec_status student_exam |} in
  let db := with_student_exams db (student_exams db ++ [db_student_exam]) in
  match active_subscription_of db (sec_student_id student_exam) now with
  | None => raise db (ValueError NoActiveSubscription)
  | Some (_, active_subscription) =>
    match subscription_plan_package active_subscription with
    | None => raise db AttributeError
    | Some package =>
      match subscription package with
      | None => raise db (ValueError InvalidSubscriptionConfiguration)
      | Some subscription =>
        let max_attempts := max_exams_or_1 subscription in
        let initial_remaining := max_attempts - 1 in
        let exam_attempt :=
          {| ea_user_subscription_id := us_id active_subscription;
             ea_exam_id := sec_exam_id student_exam;
             remaining_attempts := initial_remaining |} in
        ret (with_exam_attempts db (exam_attempts db ++ [exam_attempt]))
            db_student_exam
      end
    end
  end.

(** [exam_start and current_time < exam_start] *)
Definition before_start (now : Z) (exam : Exam) : bool :=
  match start_datetime exam with
  | Some exam_start => bool_decide (now < exam_start)
  | None => false
  end.

(** [exam_end and current_time > exam_end] *)
Definition after_end (now : Z) (exam : Exam) : bool :=
  match end_datetime exam with
  | Some exam_end => bool_decide (exam_end < now)
  | None => false
  end.

(** [db.query(StudentAnswer).filter(StudentAnswer.student_exam_id ==
    student_exam_id).delete()] *)
Definition delete_answers_of (student_exam_id : Z) (t : list StudentAnswer)
    : list StudentAnswer :=
  filter (λ a, sa_student_exam_id a ≠ student_exam_id) t.

(** [start_student_exam].  Nothing is written before the final commit;
    [commit_ok] tells whether that commit goes through. *)
Definition start_student_exam (commit_ok : bool) (now : Z)
    (student_exam_id : Z) (db : DB) : Outcome StudentExam :=
  match get_student_exam db student_exam_id with
  | None => raise db (ValueError StudentExamNotFound)
  | Some (i, db_student_exam) =>
    match get_exam db (se_exam_id db_student_exam) with
    | None => raise db (ValueError AssociatedExamNotFound)
    | Some (_, exam) =>
      if before_start now exam then raise db (ValueError ExamNotStartedYet)
      else if after_end now exam then raise db (ValueError ExamHasEnded)
      else
        match active_subscription_of db (se_student_id db_student_exam) now with
        | None => raise db (ValueError NoActiveSubscription)
        | Some (_, active_subscription) =>
          match subscription_plan_package active_subscription with
          | None => raise db (ValueError FailedToStartExam)
          | Some package =>
            match subscription package with
            | None => raise db (ValueError InvalidSubscriptionConfiguration)
            | Some subscription =>
              let found :=
                list_find (λ ea, ea_exam_id ea = se_exam_id db_student_exam
                                 ∧ ea_user_subscription_id ea
                                   = us_id active_subscription)
                          (exam_attempts db) in
              let checked : option (nat * ExamAttempt * list ExamAttempt) :=
                match found with
                | None =>
                  let exam_attempt :=
                    {| ea_user_subscription_id := us_id active_subscription;
                       ea_exam_id := se_exam_id db_student_exam;
                       remaining_attempts := max_exams_or_1 subscription |} in
                  Some (length (exam_attempts db), exam_attempt,
                        exam_attempts db ++ [exam_attempt])
                | Some (j, exam_attempt) =>
                  if decide (remaining_attempts exam_attempt ≤ 0) then None
                  else Some (j, exam_attempt, exam_attempts db)
                end in
              match checked with
              | None => raise db (ValueError NoRemainingAttempts)
              | Some (j, exam_attempt, attempts) =>
                let kept_answers :=
                  if decide (se_status db_student_exam ≠ not_started)
                  then delete_answers_of student_exam_id (student_answers db)
                  else student_answers db in
                let db_student_exam := set_status in_progress db_student_exam in
                let exam_attempt :=
                  set_remaining (remaining_attempts exam_attempt - 1)
                                exam_attempt in
                let db' :=
                  with_exam_attempts
                    (with_student_exams
                       (with_student_answers db kept_answers)
                       (<[i := db_student_exam]> (student_exams db)))
                    (<[j := exam_attempt]> attempts) in
                if commit_ok then ret db' db_student_exam
                else raise db (ValueError FailedToSaveExamStart)
              end
            end
          end
        end
    end
  end.

(** [get_student_answers] *)
Definition get_student_answers (db : DB) (student_exam_id : Z)
    : list StudentAnswer :=
  filter (λ a, sa_student_exam_id a = student_exam_id) (student_answers db).

(** [create_student_answer]: correctness comes from the [Answer] row, never
    from the request. *)
Definition create_student_answer (student_answer : StudentAnswerCreate)
    (db : DB) : Outcome StudentAnswer :=
  let is_correct :=
    match sac_answer_id student_answer with
    | None => false
    | Some answer_id =>
      if decide (answer_id = 0) then false
      else match list_find (λ a, ans_id a = answer_id) (answers db) with
           | Some (_, db_answer) => ans_is_correct db_answer
           | None => false
           end
    end in
  let db_student_answer :=
    {| sa_student_exam_id := sac_student_exam_id student_answer;
       sa_question_id := sac_question_id student_answer;
       sa_answer_id := sac_answer_id student_answer;
       sa_is_correct := Some is_correct |} in
  ret (with_student_answers db (student_answers db ++ [db_student_answer]))
      db_student_answer.

(** [create_exam_result] rounds the three float columns and commits the row. *)
Definition create_exam_result (exam_result : ExamResult) (db : DB)
    : DB * ExamResult :=
  let db_exam_result :=
    {| er_student_exam_id := er_student_exam_id exam_result;
       attempt_number := attempt_number exam_result;
       total_questions := total_questions exam_result;
       correct_answers := correct_answers exam_result;
       score_percentage := round2 (score_percentage exam_result);
       obtained_marks := round2 (obtained_marks exam_result);
       max_marks := round2 (max_marks exam_result);
       passed_status := passed_status exam_result |} in
  (with_exam_results db (exam_results db ++ [db_exam_result]), db_exam_result).

(** The attempt numbers already recorded for a session. *)
Definition attempt_numbers_of (db : DB) (student_exam_id : Z) : list Z :=
  attempt_number <$>
    filter (λ r, er_student_exam_id r = student_exam_id) (exam_results db).

(** [....order_by(ExamResult.attempt_number.desc()).first()]: the greatest
    attempt number of the session, if it has a result. *)
Definition latest_attempt_number (db : DB) (student_exam_id : Z) : option Z :=
  match attempt_numbers_of db student_exam_id with
  | [] => None
  | n :: ns => Some (foldr Z.max n ns)
  end.

(** [complete_student_exam].  Every exception is re-raised as a
    [ValueError]; none can occur once the result row is written. *)
Definition complete_student_exam (student_exam_id : Z) (db : DB)
    : Outcome StudentExam :=
  match get_student_exam db student_exam_id with
  | None => raise db (ValueError (FailedToCompleteExam StudentExamNotFound))
  | Some (i, db_student_exam) =>
    let student_answers := get_student_answers db student_exam_id in
    match get_exam db (se_exam_id db_student_exam) with
    | None => raise db (ValueError (FailedToCompleteExam AssociatedExamNotFound))
    | Some (_, exam) =>
      let exam_questions :=
        filter (λ q, eq_exam_id q = exam_id exam) (exam_questions db) in
      match max_questions exam with
      | None => raise db (ValueError (FailedToCompleteExam NoneOperand))
      | Some total_questions =>
        let sc := compute_score total_questions exam_questions student_answers in
        let attempt_number :=
          match latest_attempt_number db student_exam_id with
          | Some n => n + 1
          | None => 1
          end in
        let result_data :=
          {| er_student_exam_id := student_exam_id;
             attempt_number := attempt_number;
             total_questions := total_questions;
             correct_answers := sc_correct_answers sc;
             score_percentage := sc_score_percentage sc;
             obtained_marks := round2 (sc_obtained_marks sc);
             max_marks := round2 (sc_max_marks sc);
             passed_status := sc_passed_status sc |} in
        let db := fst (create_exam_result result_data db) in
        let db_student_exam := set_status completed db_student_exam in
        ret (with_student_exams db (<[i := db_student_exam]> (student_exams db)))
            db_student_exam
      end
    end
  end.

(** ** Endpoints ([app/routes/student_exams.py]) *)

(** [POST /]: [now_route] is the clock the endpoint reads for its own
    subscription check, [now_crud] the clock [create_student_exam] reads
    afterwards. *)
Definition route_create_student_exam (now_route now_crud : Z)
    (current_user : Z) (student_exam : StudentExamCreate) (db : DB)
    : Outcome StudentExam :=
  if decide (sec_student_id student_exam ≠ current_user)
  then raise db (HTTPException 403 OnlyForYourself)
  else
    match get_exam db (sec_exam_id student_exam) with
    | None => raise db (HTTPException 404 ExamNotFound)
    | Some _ =>
      match list_find (λ se, se_student_id se = sec_student_id student_exam
                             ∧ se_exam_id se = sec_exam_id student_exam)
                      (student_exams db) with
      | Some (_, existing_exam) => ret db existing_exam
      | None =>
        match active_subscription_of db current_user now_route with
        | None => raise db (HTTPException 403 NoActiveSubscription)
        | Some (_, active_subscription) =>
          match subscription_plan_package active_subscription with
          | None => raise db (HTTPException 500 UnexpectedError)
          | Some package =>
            match subscription package with
            | None =>
              raise db (HTTPException 403 InvalidSubscriptionConfiguration)
            | Some subscription =>
              match create_student_exam now_crud student_exam db with
              | (db, inl (ValueError ve)) => raise db (HTTPException 400 ve)
              | (db, inl (HTTPException c d)) => raise db (HTTPException c d)
              | (db, inl _) => raise db (HTTPException 500 UnexpectedError)
              | (db, inr result) =>
                let db :=
                  fst (create_or_update_exam_attempt db
                         (us_id active_subscription)
                         (sec_exam_id student_exam)
                         (max_exams_or_1 subscription)) in
                ret db result
              end
            end
          end
        end
      end
    end.

(** [PUT /{student_exam_id}/start] *)
Definition route_start_student_exam (commit_ok : bool) (now : Z)
    (current_user : Z) (student_exam_id : Z) (db : DB) : Outcome StudentExam :=
  match get_student_exam db student_exam_id with
  | None => raise db (HTTPException 404 StudentExamNotFound)
  | Some (_, db_student_exam) =>
    if decide (se_student_id db_student_exam ≠ current_user)
    then raise db (HTTPException 403 NotEnoughPermissions)
    else
      match start_student_exam commit_ok now student_exam_id db with
      | (db, inl (ValueError e)) => raise db (HTTPException 400 e)
      | (db, inl (HTTPException c d)) => raise db (HTTPException c d)
      | (db, inl _) => raise db (HTTPException 500 UnexpectedError)
      | (db, inr started_exam) => ret db started_exam
      end
  end.

(** [PUT /{student_exam_id}/complete] *)
Definition route_complete_student_exam (current_user : Z)
    (student_exam_id : Z) (db : DB) : Outcome StudentExam :=
  match get_student_exam db student_exam_id with
  | None => raise db (HTTPException 404 StudentExamNotFound)
  | Some (_, db_student_exam) =>
    if decide (se_student_id db_student_exam ≠ current_user)
    then raise db (HTTPException 403 NotEnoughPermissions)
    else complete_student_exam student_exam_id db
  end.

(** [POST /{student_exam_id}/answers] *)
Definition route_create_student_answer (current_user : Z)
    (student_exam_id : Z) (student_answer : StudentAnswerCreate) (db : DB)
    : Outcome StudentAnswer :=
  match get_student_exam db student_exam_id with
  | None => raise db (HTTPException 404 StudentExamNotFound)
  | Some (_, db_student_exam) =>
    if decide (se_student_id db_student_exam ≠ current_user)
    then raise db (HTTPException 403 NotEnoughPermissions)
    else if decide (student_exam_id ≠ sac_student_exam_id student_answer)
    then raise db (HTTPException 400 PathBodyMismatch)
    else create_student_answer student_answer db
  end.

Record RemainingAttemptsResponse := {
  rar_remaining_attempts : Z;
  rar_max_attempts : Z;
  rar_exam_id : Z;
  rar_student_id : Z;
}.

(** [GET /{exam_id}/attempts].  The handler's [except Exception] also catches
    the 403s raised inside it, so every failure leaves as a 500. *)
Definition route_get_remaining_attempts (now : Z) (current_user : Z)
    (exam_id : Z) (db : DB) : Exception + RemainingAttemptsResponse :=
  match active_subscription_of db current_user now with
  | None => inl (HTTPException 500 ErrorCheckingRemainingAttempts)
  | Some (_, active_subscription) =>
    match subscription_plan_package active_subscription with
    | None => inl (HTTPException 500 ErrorCheckingRemainingAttempts)
    | Some package =>
      match subscription package with
      | None => inl (HTTPException 500 ErrorCheckingRemainingAttempts)
      | Some subscription =>
        match list_find (λ ea, ea_exam_id ea = exam_id
                               ∧ ea_user_subscription_id ea
                                 = us_id active_subscription)
                        (exam_attempts db) with
        | None =>
          inr {| rar_remaining_attempts := max_exams_or_1 subscription;
                 rar_max_attempts := max_exams_or_1 subscription;
                 rar_exam_id := exam_id;
                 rar_student_id := current_user |}
        | Some (_, exam_attempt) =>
          inr {| rar_remaining_attempts := remaining_attempts exam_attempt;
                 rar_max_attempts := max_exams_or_1 subscription;
                 rar_exam_id := exam_id;
                 rar_student_id := current_user |}
        end
      end
    end
  end.

(** ** The expiry sweeper ([update_expired_subscriptions]) *)

Definition batch_size : nat := 100.

(** [range(0, len(l), batch_size)] and [l[i:i + batch_size]] *)
Definition batches {A} (l : list A) : list (list A) :=
  (λ k, take batch_size (drop (k * batch_size) l))
    <$> seq 0 (Nat.div (length l + batch_size - 1) batch_size).

(** The rows the sweeper's query returns, each with its position in the
    table. *)
Definition expired_subscriptions_of (now : Z) (t : list UserSubscription)
    : list (nat * UserSubscription) :=
  filter (λ p, us_status p.2 = active ∧ us_end_date p.2 < now)
         (imap (λ i us, (i, us)) t).

(** The inner loop: every subscription of the batch is marked in the
    session. *)
Definition mark_batch (batch : list (nat * UserSubscription))
    (t : list UserSubscription) : list UserSubscription :=
  foldl (λ t p, alter (set_subscription_status expired) p.1 t) t batch.

(** The loop over the batches, [k] the number of the batch at hand and
    [count] the rows counted so far.  [commit_fails k] tells whether the
    commit of batch [k] raises; a failed batch is rolled back and the loop goes
    on with the next one.  Returns the committed table and [count]. *)
Fixpoint sweep_batches (commit_fails : nat → bool) (k : nat)
    (bs : list (list (nat * UserSubscription)))
    (t : list UserSubscription) (count : Z) : list UserSubscription * Z :=
  match bs with
  | [] => (t, count)
  | batch :: bs =>
    let session := mark_batch batch t in
    let count := count + Z.of_nat (length batch) in
    if commit_fails k
    then sweep_batches commit_fails (S k) bs t count
    else sweep_batches commit_fails (S k) bs session count
  end.

Definition update_expired_subscriptions (commit_fails : nat → bool) (now : Z)
    (db : DB) : DB * Z :=
  let expired_subscriptions :=
    expired_subscriptions_of now (user_subscriptions db) in
  match expired_subscriptions with
  | [] => (db, 0)
  | _ =>
    let '(t, count) :=
      sweep_batches commit_fails 0 (batches expired_subscriptions)
                    (user_subscriptions db) 0 in
    (with_user_subscriptions db t, count)
  end.

End Backend.

Arguments ExamQuestion : clear implicits.
Arguments ExamResult : clear implicits.
Arguments DB : clear implicits.
Arguments Score : clear implicits.
Arguments Outcome : clear implicits.

(** * The scoring formula of the specification

    The formula as the specification words it, next to [compute_score]. *)
Section FormulaDefinitions.

Context {F : Type} `{PyFloat F}.

Implicit Types (rows : list (ExamQuestion F)) (sas : list StudentAnswer).

(** Step 1: the sum of all exam-question marks over the count of
    exam-question rows, zero if there is no row. *)
Definition spec_average_mark_per_question rows : F :=
  if decide (rows = []) then of_int 0
  else fdiv (foldl (λ acc q, fadd acc (eq_marks q)) (of_int 0) rows)
            (of_int (Z.of_nat (length rows))).

(** Step 2. *)
Definition spec_max_marks_for_attempt rows (max_questions : Z) : F :=
  fmul (spec_average_mark_per_question rows) (of_int max_questions).

(** The submitted answer of a question: the last row submitted for it. *)
Definition spec_submitted_answer sas (question_id : Z) : option StudentAnswer :=
  last (filter (λ a, sa_question_id a = question_id) sas).

(** An exam-question whose submitted answer has [is_correct] true. *)
Definition spec_credited sas (q : ExamQuestion F) : bool :=
  match spec_submitted_answer sas (eq_question_id q) with
  | Some a => truthy (sa_is_correct a)
  | None => false
  end.

(** Step 3: the marks of the credited exam-questions, accumulated in row
    order, and their number. *)
Definition spec_obtained_marks rows sas : F :=
  foldl (λ acc q, if spec_credited sas q then fadd acc (eq_marks q) else acc)
        (of_int 0) rows.

Definition spec_correct_answers rows sas : Z :=
  Z.of_nat (length (filter (λ q, spec_credited sas q = true) rows)).

(** Step 4. *)
Definition spec_score_percentage rows sas (max_questions : Z) : F :=
  let max_marks_for_attempt := spec_max_marks_for_attempt rows max_questions in
  if fltb (of_int 0) max_marks_for_attempt
  then round2 (fmul (fdiv (spec_obtained_marks rows sas) max_marks_for_attempt)
                    (of_int 100))
  else of_int 0.

(** Step 5. *)
Definition spec_passed rows sas (max_questions : Z) : bool :=
  fleb (of_int 40) (spec_score_percentage rows sas max_questions).

(** ** Vocabulary of the statements *)

(** The marks the loop adds for a row: those the dictionary holds for its
    question. *)
Definition effective_marks rows (q : ExamQuestion F) : F :=
  default (eq_marks q) (question_marks_of rows !! eq_question_id q).

Implicit Types (db : DB F).

(** The exam-question rows [complete_student_exam] loads for an exam. *)
Definition exam_questions_of db (exam : Exam) : list (ExamQuestion F) :=
  filter (λ q, eq_exam_id q = exam_id exam) (exam_questions db).

(** The attempt number the next completion of a session gets. *)
Definition next_attempt_number db (student_exam_id : Z) : Z :=
  match latest_attempt_number db student_exam_id with
  | Some n => n + 1
  | None => 1
  end.

(** The row a completion writes, from the score it computed. *)
Definition result_row db (student_exam_id total_questions : Z) (sc : Score F)
    : ExamResult F :=
  {| er_student_exam_id := student_exam_id;
     attempt_number := next_attempt_number db student_exam_id;
     total_questions := total_questions;
     correct_answers := sc_correct_answers sc;
     score_percentage := round2 (sc_score_percentage sc);
     obtained_marks := round2 (round2 (sc_obtained_marks sc));
     max_marks := round2 (round2 (sc_max_marks sc));
     passed_status := sc_passed_status sc |}.

(** The answers a start keeps: all of them on a first start, none of the
    session's on a retake. *)
Definition kept_answers db (student_exam_id : Z) (se : StudentExam)
    : list StudentAnswer :=
  if decide (se_status se ≠ not_started)
  then delete_answers_of student_exam_id (student_answers db)
  else student_answers db.

(** A clock reading at which a start of [user] on [exam] passes the time
    window and finds [us] as the active subscription. *)
Definition can_start_at db (user : Z) (us : UserSubscription) (exam : Exam)
    (now : Z) : Prop :=
  before_start now exam = false
  ∧ after_end now exam = false
  ∧ ∃ k, active_subscription_of db user now = Some (k, us).

(** Start requests on one session, one per clock reading, each on the store
    the previous one left; returns the last store and the outcomes in
    order. *)
Fixpoint start_repeatedly (nows : list Z) (user student_exam_id : Z) db
    : DB F * list (Exception + StudentExam) :=
  match nows with
  | [] => (db, [])
  | now :: nows =>
    let '(db, r) := route_start_student_exam true now user student_exam_id db in
    let '(db, rs) := start_repeatedly nows user student_exam_id db in
    (db, r :: rs)
  end.


End FormulaDefinitions.

(** * Further operations

    The rest of the ledger functions, the retake and result endpoints, the
    subscription functions next to the sweeper, and the functions that
    maintain the exam-question rows a completion reads. *)
Inductive UserRole := superadmin | admin | teacher | student.

(** The messages of [check_exam_access]. *)
Inductive AccessMessage :=
| NoActiveSubscriptionFound
| InvalidSubscriptionConfigurationFound
| StudentExamNotFoundForAccess
| NoRemainingAttemptsForThisExam
| AccessGranted.

Section Operations.

Context {F : Type} `{PyFloat F}.

Implicit Types (db : DB F).

Definition with_exam_questions db (t : list (ExamQuestion F)) : DB F :=
  {| exams := exams db; exam_questions := t;
     answers := answers db; student_exams := student_exams db;
     student_answers := student_answers db; exam_results := exam_results db;
     user_subscriptions := user_subscriptions db;
     exam_attempts := exam_attempts db |}.

(** ** The attempt ledger, continued ([app/crud/exam_attempt.py]) *)

(** What the commit of a value that the integer column of the store does not
    take raises (PostgreSQL takes 32-bit values, the SQLite fallback of
    [app/core/database.py] 64-bit ones). *)
Inductive DataError := IntegerOutOfRange.

(** [update_remaining_attempts]: the row of the pair is rewritten if there is
    one; none is created.  The value is written as it comes, and the function
    has no caller that bounds it: [column_takes] tells which values the
    integer column of the store takes.  The commit of another value raises,
    the function does not catch it, and the store keeps what it held. *)
Definition update_remaining_attempts (column_takes : Z → bool) db
    (user_subscription_id exam_id remaining : Z)
    : DB F * (DataError + option ExamAttempt) :=
  match get_exam_attempt db user_subscription_id exam_id with
  | Some (i, exam_attempt) =>
    let exam_attempt := set_remaining remaining exam_attempt in
    if column_takes remaining
    then (with_exam_attempts db (<[i := exam_attempt]> (exam_attempts db)),
          inr (Some exam_attempt))
    else (db, inl IntegerOutOfRange)
  | None => (db, inr None)
  end.

(** [check_exam_access]: the session is looked up by
    [StudentExam.id == exam_id]. *)
Definition check_exam_access (now : Z) db (user_id exam_id : Z)
    : Exception + (bool * AccessMessage * option UserSubscription) :=
  match active_subscription_of db user_id now with
  | None => inr (false, NoActiveSubscriptionFound, None)
  | Some (_, active_subscription) =>
    match subscription_plan_package active_subscription with
    | None => inl AttributeError
    | Some package =>
      match subscription package with
      | None => inr (false, InvalidSubscriptionConfigurationFound, None)
      | Some subscription =>
        match get_student_exam db exam_id with
        | None => inr (false, StudentExamNotFoundForAccess, None)
        | Some _ =>
          match get_exam_attempt db (us_id active_subscription) exam_id with
          | Some (_, attempt) =>
            if decide (remaining_attempts attempt ≤ 0)
            then inr (false, NoRemainingAttemptsForThisExam, None)
            else inr (true, AccessGranted, Some active_subscription)
          | None => inr (true, AccessGranted, Some active_subscription)
          end
        end
      end
    end
  end.

(** ** The retake endpoint ([POST /{exam_id}/retake]) *)

(** The position of the row [create_or_update_exam_attempt] has returned:
    the first row of the pair. *)
Definition position_of_exam_attempt db (user_subscription_id exam_id : Z)
    : nat :=
  match get_exam_attempt db user_subscription_id exam_id with
  | Some (j, _) => j
  | None => length (exam_attempts db)
  end.

(** [retake_exam]: a missing ledger row is created (and committed) at the
    plan's maximum before the check; the decrement is committed after it. *)
Definition retake_exam (now : Z) (current_user exam_id : Z) db
    : Outcome F RemainingAttemptsResponse :=
  match active_subscription_of db current_user now with
  | None => raise db (HTTPException 403 NoActiveSubscription)
  | Some (_, active_subscription) =>
    match subscription_plan_package active_subscription with
    | None => raise db AttributeError
    | Some package =>
      match subscription package with
      | None => raise db (HTTPException 403 InvalidSubscriptionConfiguration)
      | Some subscription =>
        let found :=
          list_find (λ ea, ea_exam_id ea = exam_id
                           ∧ ea_user_subscription_id ea
                             = us_id active_subscription)
                    (exam_attempts db) in
        let located : DB F * nat * ExamAttempt :=
          match found with
          | Some (j, latest_attempt) => (db, j, latest_attempt)
          | None =>
            let created :=
              create_or_update_exam_attempt db (us_id active_subscription)
                exam_id (max_exams_or_1 subscription) in
            (created.1,
             position_of_exam_attempt created.1 (us_id active_subscription)
               exam_id,
             created.2)
          end in
        match located with
        | (db, j, latest_attempt) =>
          if decide (remaining_attempts latest_attempt ≤ 0)
          then raise db (HTTPException 403 NoRemainingAttempts)
          else
            let latest_attempt :=
              set_remaining (remaining_attempts latest_attempt - 1)
                            latest_attempt in
            ret (with_exam_attempts db
                   (<[j := latest_attempt]> (exam_attempts db)))
                {| rar_remaining_attempts := remaining_attempts latest_attempt;
                   rar_max_attempts := max_exams_or_1 subscription;
                   rar_exam_id := exam_id;
                   rar_student_id := current_user |}
        end
      end
    end
  end.

(** ** Results ([get_exam_result_by_student_exam], [GET /{id}/result]) *)

(** [db.query(ExamResult).filter(ExamResult.student_exam_id ==
    student_exam_id).first()]: no ordering is asked for, the first row of the
    session in the table is the one returned. *)
Definition get_exam_result_by_student_exam db (student_exam_id : Z)
    : option (nat * ExamResult F) :=
  list_find (λ r, er_student_exam_id r = student_exam_id) (exam_results db).

(** What [read_exam_result] can raise: an exception of the layers below,
    which it does not catch, or one of its own two 404s. *)
Inductive ResultError :=
| Raised (e : Exception)
| ExamResultNotFound
| ExamMustBeCompletedFirst.

(** [current_user.role in ["teacher", "admin", "superadmin"]] *)
Definition is_staff (role : UserRole) : bool :=
  match role with
  | student => false
  | _ => true
  end.

(** [read_exam_result].  The test [recalculate or exam_result is None] is
    taken apart over the two cases of [exam_result]; an exception of
    [complete_student_exam] is not caught. *)
Definition read_exam_result (current_user : Z) (role : UserRole)
    (student_exam_id : Z) (recalculate : bool) db
    : DB F * (ResultError + ExamResult F) :=
  match get_student_exam db student_exam_id with
  | None => (db, inl (Raised (HTTPException 404 StudentExamNotFound)))
  | Some (_, db_student_exam) =>
    if bool_decide (se_student_id db_student_exam ≠ current_user)
       && negb (is_staff role)
    then (db, inl (Raised (HTTPException 403 NotEnoughPermissions)))
    else
      match get_exam_result_by_student_exam db student_exam_id with
      | Some (_, exam_result) =>
        if recalculate
        then
          match complete_student_exam student_exam_id db with
          | (db, inl e) => (db, inl (Raised e))
          | (db, inr _) =>
            match get_exam_result_by_student_exam db student_exam_id with
            | None => (db, inl ExamResultNotFound)
            | Some (_, exam_result) => (db, inr exam_result)
            end
          end
        else (db, inr exam_result)
      | None =>
        if bool_decide (se_status db_student_exam = completed) || recalculate
        then
          match complete_student_exam student_exam_id db with
          | (db, inl e) => (db, inl (Raised e))
          | (db, inr _) =>
            match get_exam_result_by_student_exam db student_exam_id with
            | None => (db, inl ExamResultNotFound)
            | Some (_, exam_result) => (db, inr exam_result)
            end
          end
        else (db, inl ExamMustBeCompletedFirst)
      end
  end.

(** ** All attempts of an exam ([GET /{exam_id}/all-attempts]) *)

(** [list.sort(key=lambda x: x.attempt_number)]: a stable sort; an insertion
    sort that puts a row before the first row with a key not smaller returns
    the same list. *)
Fixpoint insert_by_attempt_number (r : ExamResult F) (l : list (ExamResult F))
    : list (ExamResult F) :=
  match l with
  | [] => [r]
  | x :: l' =>
    if decide (attempt_number r ≤ attempt_number x)
    then r :: l
    else x :: insert_by_attempt_number r l'
  end.

Definition sort_by_attempt_number (l : list (ExamResult F))
    : list (ExamResult F) :=
  foldr insert_by_attempt_number [] l.

(** [get_all_exam_attempts]: the results of every session of the caller on
    the exam, each session's in attempt order, then sorted as a whole. *)
Definition get_all_exam_attempts (current_user exam_id : Z) db
    : Exception + list (ExamResult F) :=
  match get_exam db exam_id with
  | None => inl (HTTPException 404 ExamNotFound)
  | Some _ =>
    let student_exams :=
      filter (λ se, se_exam_id se = exam_id ∧ se_student_id se = current_user)
             (student_exams db) in
    match student_exams with
    | [] => inr []
    | _ =>
      let results :=
        student_exams ≫= (λ student_exam,
          sort_by_attempt_number
            (filter (λ r, er_student_exam_id r = se_id student_exam)
                    (exam_results db))) in
      match results with
      | [] => inr []
      | _ => inr (sort_by_attempt_number results)
      end
    end
  end.

(** ** Subscriptions ([app/crud/subscription.py]) *)

Definition get_user_subscription db (user_subscription_id : Z)
    : option (nat * UserSubscription) :=
  list_find (λ us, us_id us = user_subscription_id) (user_subscriptions db).

(** [check_subscription_status]: the row as the call leaves it, and what the
    call returns. *)
Definition check_subscription_status (now : Z) (subscription : UserSubscription)
    : UserSubscription * bool :=
  if decide (us_status subscription = active ∧ us_end_date subscription < now)
  then (set_subscription_status expired subscription, false)
  else (subscription, bool_decide (us_status subscription = active)).

(** The loop of [get_user_subscriptions] over the rows of the user, each with
    its position; the state is the session's table and [status_updated].
    [now i] is the clock reading taken when row [i] is checked. *)
Definition check_user_subscriptions (now : nat → Z)
    (subscriptions : list (nat * UserSubscription))
    (t : list UserSubscription) : list UserSubscription * bool :=
  foldl (λ (st : list UserSubscription * bool) p,
           if decide (us_status p.2 = active)
           then
             let checked := check_subscription_status (now p.1) p.2 in
             (<[p.1 := checked.1]> st.1, st.2 || negb checked.2)
           else st)
        (t, false) subscriptions.

(** [get_user_subscriptions]: a failed commit is rolled back and the rows
    are returned as the table has them. *)
Definition get_user_subscriptions (commit_ok : bool) (now : nat → Z)
    (user_id : Z) db : DB F * list UserSubscription :=
  let subscriptions :=
    filter (λ p, us_user_id p.2 = user_id)
           (imap (λ i us, (i, us)) (user_subscriptions db)) in
  let checked :=
    check_user_subscriptions now subscriptions (user_subscriptions db) in
  let db :=
    if checked.2 && commit_ok then with_user_subscriptions db checked.1
    else db in
  (db, filter (λ us, us_user_id us = user_id) (user_subscriptions db)).

(** [cancel_user_subscription] *)
Definition cancel_user_subscription (user_subscription_id : Z) db
    : DB F * option UserSubscription :=
  match get_user_subscription db user_subscription_id with
  | None => (db, None)
  | Some (i, db_user_subscription) =>
    let db_user_subscription :=
      set_subscription_status cancelled db_user_subscription in
    (with_user_subscriptions db
       (<[i := db_user_subscription]> (user_subscriptions db)),
     Some db_user_subscription)
  end.

(** ** Exam questions ([app/crud/exam.py]) *)

Record ExamQuestionCreate := {
  eqc_exam_id : Z;
  eqc_question_id : Z;
  eqc_marks : F;
}.

Record BulkExamQuestionCreate := {
  bulk_exam_id : Z;
  bulk_question_ids : list Z;
  bulk_marks : F;
}.

Definition set_marks (marks : F) (q : ExamQuestion F) : ExamQuestion F :=
  {| eq_exam_id := eq_exam_id q; eq_question_id := eq_question_id q;
     eq_marks := marks |}.

(** The query of the three single-row functions. *)
Definition get_exam_question db (exam_id question_id : Z)
    : option (nat * ExamQuestion F) :=
  list_find (λ q, eq_exam_id q = exam_id ∧ eq_question_id q = question_id)
            (exam_questions db).

(** [add_question_to_exam]: a question already in the exam is returned as it
    is, marks included. *)
Definition add_question_to_exam (exam_question : ExamQuestionCreate) db
    : DB F * ExamQuestion F :=
  match get_exam_question db (eqc_exam_id exam_question)
          (eqc_question_id exam_question) with
  | Some (_, existing) => (db, existing)
  | None =>
    let db_exam_question :=
      {| eq_exam_id := eqc_exam_id exam_question;
         eq_question_id := eqc_question_id exam_question;
         eq_marks := eqc_marks exam_question |} in
    (with_exam_questions db (exam_questions db ++ [db_exam_question]),
     db_exam_question)
  end.

(** [bulk_add_questions_to_exam]: the dictionary of the questions already in
    the exam is built once, before the loop; the loop adds a row for every
    id of the request the dictionary does not hold, and collects in [results]
    the rows it met or made.  A row is known by its place in the table, which
    stands for its [id].  What is returned is not [results]: the rows whose
    id is in it are queried again, so each comes once, in the order of the
    table. *)
Definition bulk_add_questions_to_exam (bulk_create : BulkExamQuestionCreate) db
    : DB F * list (ExamQuestion F) :=
  let existing_questions : gmap Z (nat * ExamQuestion F) :=
    foldl (λ d eq, <[eq_question_id eq.2 := eq]> d) ∅
          (filter (λ eq, eq_exam_id eq.2 = bulk_exam_id bulk_create)
                  (imap pair (exam_questions db))) in
  let looped :=
    foldl (λ (st : list (ExamQuestion F) * list nat) question_id,
             match existing_questions !! question_id with
             | Some existing => (st.1, st.2 ++ [existing.1])
             | None =>
               let db_exam_question :=
                 {| eq_exam_id := bulk_exam_id bulk_create;
                    eq_question_id := question_id;
                    eq_marks := bulk_marks bulk_create |} in
               (st.1 ++ [db_exam_question], st.2 ++ [length st.1])
             end)
          (exam_questions db, []) (bulk_question_ids bulk_create) in
  let question_ids := looped.2 in
  (with_exam_questions db looped.1,
   (filter (λ eq, eq.1 ∈ question_ids) (imap pair looped.1)).*2).

(** [remove_question_from_exam] *)
Definition remove_question_from_exam (exam_id question_id : Z) db
    : DB F * option (ExamQuestion F) :=
  match get_exam_question db exam_id question_id with
  | Some (i, db_exam_question) =>
    (with_exam_questions db (delete i (exam_questions db)),
     Some db_exam_question)
  | None => (db, None)
  end.

(** [update_exam_question_marks] *)
Definition update_exam_question_marks (exam_id question_id : Z) (marks : F) db
    : DB F * option (ExamQuestion F) :=
  match get_exam_question db exam_id question_id with
  | Some (i, db_exam_question) =>
    let db_exam_question := set_marks marks db_exam_question in
    (with_exam_questions db (<[i := db_exam_question]> (exam_questions db)),
     Some db_exam_question)
  | None => (db, None)
  end.

(** ** The answers of all attempts ([get_student_answers_all_attempts]) *)

(** A value of the dictionary the function returns: the answers at hand, or
    the figures of a past result, which come with an empty answer list. *)
Inductive AttemptEntry :=
| CurrentAnswers (current_answers : list StudentAnswer)
| PastAttempt (result : ExamResult F).

(** [get_student_answers_all_attempts]: [None] without the session, the
    empty dictionary without results.  The results are read in attempt
    order; the one numbered as the current attempt is skipped in the loop,
    whether or not the current answers were entered under that number. *)
Definition get_student_answers_all_attempts db (student_exam_id : Z)
    : option (gmap Z AttemptEntry) :=
  match get_student_exam db student_exam_id with
  | None => None
  | Some (_, db_student_exam) =>
    let exam_results :=
      sort_by_attempt_number
        (filter (λ r, er_student_exam_id r = student_exam_id)
                (exam_results db)) in
    match exam_results with
    | [] => Some ∅
    | result :: results =>
      let current_answers := get_student_answers db student_exam_id in
      let max_attempt :=
        foldr Z.max (attempt_number result) (attempt_number <$> results) in
      let current_attempt :=
        if decide (se_status db_student_exam = in_progress)
        then max_attempt + 1 else max_attempt in
      let attempts_answers : gmap Z AttemptEntry :=
        match current_answers with
        | [] => ∅
        | _ => {[ current_attempt := CurrentAnswers current_answers ]}
        end in
      Some (foldl (λ d result,
                     if decide (attempt_number result = current_attempt)
                     then d
                     else <[attempt_number result := PastAttempt result]> d)
                  attempts_answers exam_results)
    end
  end.

(** ** Requests

    The operations modelled, each with the clock readings and commit outcomes
    it meets, and the store it leaves.  For the sessions these are the
    requests to the endpoints; for the sweeper, the subscriptions and the
    exam questions they are the calls of the CRUD functions, which the
    endpoints make once their own checks have passed
    ([get_user_subscriptions] has no endpoint of its own). *)
Inductive Request :=
| CreateSession (now_route now_crud current_user : Z)
    (student_exam : StudentExamCreate)
| StartSession (commit_ok : bool) (now current_user student_exam_id : Z)
| SubmitAnswer (current_user student_exam_id : Z)
    (student_answer : StudentAnswerCreate)
| CompleteSession (current_user student_exam_id : Z)
| RetakeExam (now current_user exam_id : Z)
| ReadResult (current_user : Z) (role : UserRole) (student_exam_id : Z)
    (recalculate : bool)
| SweepExpired (commit_fails : nat → bool) (now : Z)
| ListSubscriptions (commit_ok : bool) (now : nat → Z) (user_id : Z)
| CancelSubscription (user_subscription_id : Z)
| AddQuestion (exam_question : ExamQuestionCreate)
| BulkAddQuestions (bulk_create : BulkExamQuestionCreate)
| RemoveQuestion (exam_id question_id : Z)
| UpdateQuestionMarks (exam_id question_id : Z) (marks : F).

Definition handle (request : Request) db : DB F :=
  match request with
  | CreateSession now_route now_crud current_user student_exam =>
    (route_create_student_exam now_route now_crud current_user student_exam
       db).1
  | StartSession commit_ok now current_user student_exam_id =>
    (route_start_student_exam commit_ok now current_user student_exam_id db).1
  | SubmitAnswer current_user student_exam_id student_answer =>
    (route_create_student_answer current_user student_exam_id student_answer
       db).1
  | CompleteSession current_user student_exam_id =>
    (route_complete_student_exam current_user student_exam_id db).1
  | RetakeExam now current_user exam_id =>
    (retake_exam now current_user exam_id db).1
  | ReadResult current_user role student_exam_id recalculate =>
    (read_exam_result current_user role student_exam_id recalculate db).1
  | SweepExpired commit_fails now =>
    (update_expired_subscriptions commit_fails now db).1
  | ListSubscriptions commit_ok now user_id =>
    (get_user_subscriptions commit_ok now user_id db).1
  | CancelSubscription user_subscription_id =>
    (cancel_user_subscription user_subscription_id db).1
  | AddQuestion exam_question => (add_question_to_exam exam_question db).1
  | BulkAddQuestions bulk_create =>
    (bulk_add_questions_to_exam bulk_create db).1
  | RemoveQuestion exam_id question_id =>
    (remove_question_from_exam exam_id question_id db).1
  | UpdateQuestionMarks exam_id question_id marks =>
    (update_exam_question_marks exam_id question_id marks db).1
  end.

(** The store after a sequence of requests. *)
Definition run (requests : list Request) db : DB F :=
  foldl (λ db request, handle request db) db requests.

(** ** Vocabulary of the statements about requests *)

(** Every exam holds a question in at most one row. *)
Definition one_row_per_question db : Prop :=
  NoDup ((λ q, (eq_exam_id q, eq_question_id q)) <$> exam_questions db).

(** A bulk request names no question twice. *)
Definition names_no_question_twice (request : Request) : Prop :=
  match request with
  | BulkAddQuestions bulk_create => NoDup (bulk_question_ids bulk_create)
  | _ => True
  end.

(** The requests that write answers of a session: a start, which may clear
    them, and a submission. *)
Definition writes_answers_of (student_exam_id : Z) (request : Request)
    : Prop :=
  match request with
  | StartSession _ _ _ id | SubmitAnswer _ id _ => id = student_exam_id
  | _ => False
  end.

(** A student has at most one session for an exam, and session ids are
    unique. *)
Definition one_session_per_pair db : Prop :=
  NoDup ((λ se, (se_student_id se, se_exam_id se)) <$> student_exams db)
  ∧ NoDup (se_id <$> student_exams db).

(** No plan behind a subscription has a negative [max_exams]. *)
Definition no_negative_plan db : Prop :=
  ∀ us pkg sub n,
    us ∈ user_subscriptions db →
    subscription_plan_package us = Some pkg →
    subscription pkg = Some sub →
    max_exams sub = Some n →
    0 ≤ n.

Definition ledger_non_negative db : Prop :=
  Forall (λ ea, 0 ≤ remaining_attempts ea) (exam_attempts db).

(** A ledger row holds no more than the plan of its subscription allows. *)
Definition within_plan db (ea : ExamAttempt) : Prop :=
  ∀ us pkg sub,
    us ∈ user_subscriptions db →
    us_id us = ea_user_subscription_id ea →
    subscription_plan_package us = Some pkg →
    subscription pkg = Some sub →
    remaining_attempts ea ≤ max_exams_or_1 sub.

Definition ledger_within_plans db : Prop :=
  Forall (within_plan db) (exam_attempts db).

Definition unique_subscription_ids db : Prop :=
  NoDup (us_id <$> user_subscriptions db).

(** The attempt numbers of every session are 1, 2, ... in the order of the
    result table. *)
Definition attempts_numbered_from_one db : Prop :=
  ∀ id, attempt_numbers_of db id
        = seqZ 1 (Z.of_nat (length (attempt_numbers_of db id))).

(** What identifies a session row. *)
Definition session_key (se : StudentExam) : Z * Z * Z :=
  (se_id se, se_student_id se, se_exam_id se).

End Operations.

Arguments ExamQuestionCreate : clear implicits.
Arguments BulkExamQuestionCreate : clear implicits.
Arguments Request : clear implicits.
Arguments AttemptEntry : clear implicits.

(** * Worked sessions

    One student (user 7) holding subscription 1, whose plan allows two
    attempts and runs until instant 500; exam 1 is open from 0 to 1000. *)
Module Scenario.
Section Data.

Context {F : Type} `{PyFloat F}.

Definition plan : Subscription := {| max_exams := Some 2 |}.

Definition subscriptions : list UserSubscription :=
  [ {| us_id := 1; us_user_id := 7;
       subscription_plan_package := Some {| subscription := Some plan |};
       us_end_date := 500; us_status := active |} ].

Definition exam (max_questions : Z) : Exam :=
  {| exam_id := 1; start_datetime := Some 0; end_datetime := Some 1000;
     max_questions := Some max_questions |}.

Definition question (question_id marks : Z) : ExamQuestion F :=
  {| eq_exam_id := 1; eq_question_id := question_id;
     eq_marks := of_int marks |}.

Definition session (status : ExamStatus) : StudentExam :=
  {| se_id := 1; se_student_id := 7; se_exam_id := 1; se_status := status |}.

Definition correct_answer (question_id : Z) : StudentAnswer :=
  {| sa_student_exam_id := 1; sa_question_id := question_id;
     sa_answer_id := Some 2; sa_is_correct := Some true |}.

Definition store (max_questions : Z) (questions : list (ExamQuestion F))
    (sessions : list StudentExam) (submitted : list StudentAnswer) : DB F :=
  {| exams := [exam max_questions];
     exam_questions := questions;
     answers := [ {| ans_id := 1; ans_is_correct := false |};
                  {| ans_id := 2; ans_is_correct := true |} ];
     student_exams := sessions;
     student_answers := submitted;
     exam_results := [];
     user_subscriptions := subscriptions;
     exam_attempts := [] |}.

(** Two questions worth 50 marks each, no session yet. *)
Definition db0 : DB F := store 2 [question 1 50; question 2 50] [] [].

Definition new_session : StudentExamCreate :=
  {| sec_student_id := 7; sec_exam_id := 1; sec_status := not_started |}.

Definition answer_to (question_id : Z) : StudentAnswerCreate :=
  {| sac_student_exam_id := 1; sac_question_id := question_id;
     sac_answer_id := Some 2; sac_is_correct := None |}.

(** The student creates the session, starts it, answers both questions
    correctly and completes it. *)
Definition created : DB F :=
  (route_create_student_exam 10 10 7 new_session db0).1.
Definition started : DB F := (route_start_student_exam true 11 7 1 created).1.
Definition answered : DB F :=
  (route_create_student_answer 7 1 (answer_to 2)
     (route_create_student_answer 7 1 (answer_to 1) started).1).1.
Definition finished : DB F := (route_complete_student_exam 7 1 answered).1.

(** Further start calls on the same session. *)
Definition second_start : Outcome F StudentExam :=
  route_start_student_exam true 20 7 1 finished.
Definition third_start : Outcome F StudentExam :=
  route_start_student_exam true 21 7 1 second_start.1.

(** [max_questions = 4] with two rows worth 10 marks each, both answered
    correctly. *)
Definition db_normalised : DB F :=
  store 4 [question 1 10; question 2 10] [session in_progress]
        [correct_answer 1; correct_answer 2].



(** Question 5 twice in the exam, worth 20 in one row and 10 in the other. *)
Definition db_twice : DB F :=
  store 2 [question 5 20; question 5 10] [session in_progress]
        [correct_answer 5].
Definition db_twice_rev : DB F :=
  store 2 [question 5 10; question 5 20] [session in_progress]
        [correct_answer 5].

(** 150 subscriptions whose end date has passed, all still [active]. *)
Definition stale (id : Z) : UserSubscription :=
  {| us_id := id; us_user_id := id;
     subscription_plan_package := Some {| subscription := Some plan |};
     us_end_date := 100; us_status := active |}.

Definition db_stale : DB F :=
  {| exams := []; exam_questions := []; answers := []; student_exams := [];
     student_answers := []; exam_results := [];
     user_subscriptions := stale <$> seqZ 1 150;
     exam_attempts := [] |}.

(** The commit of the second batch raises. *)
Definition second_batch_fails (k : nat) : bool := bool_decide (k = 1%nat).

End Data.
End Scenario.

(** * Worked request sequences

    The worked session as a sequence of requests, and an exam whose
    questions are being edited. *)
Module Walkthrough.
Section Data.

Context {F : Type} `{PyFloat F}.

Import Scenario.

(** The student creates the session, starts it, answers, completes it,
    reads the result with a recalculation, asks for a retake, starts and
    completes again; the sweeper runs after the subscription has ended and
    a last start is tried. *)
Definition lifecycle : list (Request F) :=
  [ CreateSession 10 10 7 new_session;
    StartSession true 11 7 1;
    SubmitAnswer 7 1 (answer_to 1);
    SubmitAnswer 7 1 (answer_to 2);
    CompleteSession 7 1;
    ReadResult 7 student 1 true;
    RetakeExam 19 7 1;
    StartSession true 20 7 1;
    CompleteSession 7 1;
    SweepExpired (λ _, false) 600;
    StartSession true 601 7 1 ].

(** Question 3 is added, questions 3 and 4 are added in bulk, the marks of
    question 4 are changed and question 1 is removed. *)
Definition editing : list (Request F) :=
  [ AddQuestion {| eqc_exam_id := 1; eqc_question_id := 3;
                   eqc_marks := of_int 10 |};
    BulkAddQuestions {| bulk_exam_id := 1; bulk_question_ids := [3; 4];
                        bulk_marks := of_int 5 |};
    UpdateQuestionMarks 1 4 (of_int 20);
    RemoveQuestion 1 1 ].

(** The subscription of the worked session. *)
Definition held : UserSubscription :=
  {| us_id := 1; us_user_id := 7;
     subscription_plan_package := Some {| subscription := Some plan |};
     us_end_date := 500; us_status := active |}.

(** The result row of the first completion of the worked session. *)
Definition first_result : ExamResult F :=
  result_row answered 1 2
    (compute_score 2 (exam_questions_of answered (exam 2))
       (get_student_answers answered 1)).

End Data.
End Walkthrough.


(** * Scoring against the formula *)
Section ScoringFormula.

Context {F : Type} `{PyFloat F}.

Implicit Types (rows : list (ExamQuestion F)) (sas : list StudentAnswer).

(** *** The two dictionaries *)

(** A dictionary comprehension keeps, for every key, the value of the last
    element carrying it. *)
Lemma dict_comprehension_lookup {A V} (key : A → Z) (val : A → V)
    (l : list A) (d : gmap Z V) (k : Z) :
  foldl (λ d x, <[key x := val x]> d) d l !! k
  = match last (filter (λ x, key x = k) l) with
    | Some x => Some (val x)
    | None => d !! k
    end.
Proof.
  revert d. induction l as [|x l IH]; intros d; [done|].
  cbn [foldl]. rewrite IH, filter_cons.
  destruct (decide (key x = k)) as [->|Hne].
  - destruct (filter _ l) as [|x' l'] eqn:E.
    + cbn. by rewrite lookup_insert_eq.
    + rewrite last_cons_cons.
      destruct (last (x' :: l')) eqn:E2; [done|].
      by apply last_None in E2.
  - destruct (last (filter _ l)); [done|].
    by rewrite lookup_insert_ne.
Qed.

Lemma question_marks_lookup rows (k : Z) :
  question_marks_of rows !! k
  = eq_marks <$> last (filter (λ q, eq_question_id q = k) rows).
Proof.
  unfold question_marks_of.
  rewrite (dict_comprehension_lookup eq_question_id eq_marks).
  by destruct (last _).
Qed.

Lemma answered_questions_lookup sas (k : Z) :
  answered_questions_of sas !! k = spec_submitted_answer sas k.
Proof.
  unfold answered_questions_of, spec_submitted_answer.
  rewrite (dict_comprehension_lookup sa_question_id id).
  by destruct (last _).
Qed.

Lemma filter_none {A} (P : A → Prop) `{∀ x, Decision (P x)} (l : list A) :
  (∀ x, x ∈ l → ¬ P x) → filter P l = [].
Proof.
  induction l as [|x l IH]; intros Hl; [done|].
  rewrite filter_cons_False by (apply Hl; left).
  apply IH. intros y Hy. apply Hl. by right.
Qed.

(** With one row per question the dictionary returns each row's own marks. *)
Lemma question_marks_own rows (q : ExamQuestion F) :
  NoDup (eq_question_id <$> rows) → q ∈ rows →
  question_marks_of rows !! eq_question_id q = Some (eq_marks q).
Proof.
  intros Hnd Hq. rewrite question_marks_lookup.
  cut (filter (λ q', eq_question_id q' = eq_question_id q) rows = [q]).
  { by intros ->. }
  induction rows as [|q0 rows IH]; [by apply elem_of_nil in Hq|].
  rewrite fmap_cons in Hnd. apply NoDup_cons in Hnd as [Hfresh Hnd].
  rewrite filter_cons. apply elem_of_cons in Hq as [->|Hq].
  - rewrite decide_True by done. f_equal.
    apply filter_none. intros q' Hq' Heq.
    apply Hfresh. rewrite <- Heq. by apply list_elem_of_fmap_2.
  - rewrite decide_False; [by apply IH|].
    intros Heq. apply Hfresh. rewrite Heq. by apply list_elem_of_fmap_2.
Qed.

(** Every row's question is a key of the dictionary. *)
Lemma question_marks_is_Some rows (q : ExamQuestion F) :
  q ∈ rows → is_Some (question_marks_of rows !! eq_question_id q).
Proof.
  intros Hq. rewrite question_marks_lookup, fmap_is_Some.
  destruct (last _) eqn:E; [done|]. apply last_None in E.
  by apply (filter_nil_not_elem_of _ _ q) in E.
Qed.

(** *** The loop *)

Lemma score_loop rows sas (l : list (ExamQuestion F)) (acc : Z * F) :
  (∀ q, q ∈ l → q ∈ rows) →
  foldl (score_step (question_marks_of rows) (answered_questions_of sas)) acc l
  = (acc.1 + Z.of_nat (length (filter (λ q, spec_credited sas q = true) l)),
     foldl (λ a q, if spec_credited sas q
                   then fadd a (effective_marks rows q) else a)
           acc.2 l).
Proof.
  revert acc. induction l as [|q l IH]; intros [c o] Hin.
  - cbn. f_equal. lia.
  - cbn [foldl]. rewrite IH by (intros; apply Hin; by right).
    assert (score_step (question_marks_of rows) (answered_questions_of sas)
                       (c, o) q
            = if spec_credited sas q
              then (c + 1, fadd o (effective_marks rows q))
              else (c, o)) as ->.
    { unfold score_step, spec_credited, effective_marks.
      destruct (question_marks_is_Some rows q) as [m ->]; [apply Hin; left|].
      rewrite answered_questions_lookup.
      destruct (spec_submitted_answer sas (eq_question_id q)) as [a|]; [|done].
      by destruct (truthy (sa_is_correct a)). }
    rewrite filter_cons.
    destruct (spec_credited sas q).
    + rewrite decide_True by done. cbn. f_equal. lia.
    + by rewrite decide_False by done.
Qed.

Lemma foldl_ext_in {A B} (f g : B → A → B) (l : list A) (b : B) :
  (∀ b x, x ∈ l → f b x = g b x) → foldl f b l = foldl g b l.
Proof.
  revert b. induction l as [|x l IH]; intros b Hfg; [done|].
  cbn [foldl]. rewrite Hfg by left. apply IH.
  intros b' y Hy. apply Hfg. by right.
Qed.

(** [compute_score] against the formula.  The obtained marks are those of
    the formula as soon as no question has two exam-question rows. *)
Lemma compute_score_formula (max_questions : Z) rows sas :
  let sc := compute_score max_questions rows sas in
  sc_total_questions sc = max_questions
  ∧ sc_max_marks sc = spec_max_marks_for_attempt rows max_questions
  ∧ sc_correct_answers sc = spec_correct_answers rows sas
  ∧ (NoDup (eq_question_id <$> rows) →
     sc_obtained_marks sc = spec_obtained_marks rows sas
     ∧ sc_score_percentage sc = spec_score_percentage rows sas max_questions
     ∧ sc_passed_status sc = spec_passed rows sas max_questions).
Proof.
  unfold compute_score. rewrite score_loop by done.
  assert (match rows with
          | [] => of_int 0
          | _ :: _ => fdiv (total_possible_marks_of rows)
                           (of_int (Z.of_nat (length rows)))
          end = spec_average_mark_per_question rows) as ->.
  { unfold spec_average_mark_per_question. by destruct rows. }
  fold (spec_max_marks_for_attempt rows max_questions).
  cbn. do 3 (split; [done|]). intros Hnd.
  assert (foldl (λ a q, if spec_credited sas q
                        then fadd a (effective_marks rows q) else a)
                (of_int 0) rows
          = spec_obtained_marks rows sas) as ->.
  { apply foldl_ext_in. intros a q Hq. unfold effective_marks.
    by rewrite question_marks_own. }
  unfold spec_passed, spec_score_percentage.
  destruct (fltb _ _); [done|]. by rewrite round2_zero.
Qed.


End ScoringFormula.

(** * Completion *)
Section Completion.

Context {F : Type} `{PyFloat F}.

Implicit Types (db : DB F).

(** A completion goes through as soon as the session and its exam exist and
    the exam has its [max_questions]; the status of the session plays no
    part. *)
Lemma complete_student_exam_success db id i se j exam tq :
  get_student_exam db id = Some (i, se) →
  get_exam db (se_exam_id se) = Some (j, exam) →
  max_questions exam = Some tq →
  complete_student_exam id db
  = (with_student_exams
       (with_exam_results db
          (exam_results db
           ++ [result_row db id tq
                 (compute_score tq (exam_questions_of db exam)
                                (get_student_answers db id))]))
       (<[i := set_status completed se]> (student_exams db)),
     inr (set_status completed se)).
Proof.
  intros Hse Hex Htq. unfold complete_student_exam.
  rewrite Hse, Hex, Htq. reflexivity.
Qed.

Lemma complete_student_exam_inv db id db' se' :
  complete_student_exam id db = (db', inr se') →
  ∃ i se j exam tq,
    get_student_exam db id = Some (i, se)
    ∧ get_exam db (se_exam_id se) = Some (j, exam)
    ∧ max_questions exam = Some tq.
Proof.
  unfold complete_student_exam.
  destruct (get_student_exam db id) as [[i se]|]; [|by inversion 1].
  destruct (get_exam db (se_exam_id se)) as [[j exam]|] eqn:Hex;
    [|by inversion 1].
  destruct (max_questions exam) as [tq|] eqn:Htq; [|by inversion 1].
  intros _. by exists i, se, j, exam, tq.
Qed.

(** A completion that fails leaves the store as it was. *)
Lemma complete_student_exam_failure db id db' e :
  complete_student_exam id db = (db', inl e) → db' = db.
Proof.
  unfold complete_student_exam.
  destruct (get_student_exam db id) as [[i se]|]; [|by inversion 1].
  destruct (get_exam db (se_exam_id se)) as [[j exam]|]; [|by inversion 1].
  destruct (max_questions exam) as [tq|]; by inversion 1.
Qed.

(** *** Attempt numbers *)

Lemma foldr_max_spec (n : Z) (ns : list Z) :
  foldr Z.max n ns ∈ n :: ns ∧ ∀ x, x ∈ n :: ns → x ≤ foldr Z.max n ns.
Proof.
  induction ns as [|k ns [IHin IHmax]]; cbn.
  - split; [left|]. intros x ->%list_elem_of_singleton. lia.
  - split.
    + destruct (Z.max_spec k (foldr Z.max n ns)) as [[_ ->]|[_ ->]].
      * apply elem_of_cons in IHin as [->|?]; [left|by do 2 right].
      * right; left.
    + intros x [->|[->|Hx]%elem_of_cons]%elem_of_cons.
      * specialize (IHmax n ltac:(left)). lia.
      * lia.
      * specialize (IHmax x ltac:(by right)). lia.
Qed.

(** The latest attempt number is the greatest one recorded. *)
Lemma latest_attempt_number_spec db id :
  match latest_attempt_number db id with
  | None => attempt_numbers_of db id = []
  | Some m => m ∈ attempt_numbers_of db id
              ∧ ∀ n, n ∈ attempt_numbers_of db id → n ≤ m
  end.
Proof.
  unfold latest_attempt_number.
  destruct (attempt_numbers_of db id) as [|n ns]; [done|].
  apply foldr_max_spec.
Qed.

Lemma next_attempt_number_gt db id n :
  n ∈ attempt_numbers_of db id → n < next_attempt_number db id.
Proof.
  intros Hn. unfold next_attempt_number.
  pose proof (latest_attempt_number_spec db id) as Hl.
  destruct (latest_attempt_number db id) as [m|].
  - destruct Hl as [_ Hmax]. specialize (Hmax n Hn). lia.
  - rewrite Hl in Hn. by apply elem_of_nil in Hn.
Qed.

(** *** The session row after an update in place *)

Lemma list_find_insert_same {A} (P : A → Prop) `{∀ x, Decision (P x)}
    (l : list A) (i : nat) (x y : A) :
  list_find P l = Some (i, x) → P y → list_find P (<[i := y]> l) = Some (i, y).
Proof.
  intros (Hi & Hx & Hbefore)%list_find_Some Hy. apply list_find_Some.
  split_and!.
  - apply list_lookup_insert_eq. by eapply lookup_lt_Some.
  - done.
  - intros j z Hj Hlt. rewrite list_lookup_insert_ne in Hj by lia. eauto.
Qed.

End Completion.

(** * Exact rational arithmetic: rounding to hundredths *)
Section RatFloatFacts.

Import RatFloat.
Local Open Scope Q_scope.









End RatFloatFacts.

(** * Claims on completion and scoring *)
Section CompletionClaims.

Context {F : Type} `{PyFloat F}.

Implicit Types (db : DB F).

(** Claim C7.  Every completion of a session appends one result row for that
    session; its attempt number is 1 when the session has no result yet, and
    otherwise 1 plus the greatest attempt number recorded for the session, so
    it is strictly greater than every attempt number the session had. *)
Theorem completion_numbers_attempts db (id : Z) db' se' :
  complete_student_exam id db = (db', inr se') →
  ∃ r, exam_results db' = exam_results db ++ [r]
       ∧ er_student_exam_id r = id
       ∧ (attempt_numbers_of db id = [] → attempt_number r = 1)
       ∧ (attempt_numbers_of db id ≠ [] →
          ∃ m, m ∈ attempt_numbers_of db id
               ∧ (∀ n, n ∈ attempt_numbers_of db id → n ≤ m)
               ∧ attempt_number r = m + 1)
       ∧ (∀ n, n ∈ attempt_numbers_of db id → n < attempt_number r)
       ∧ attempt_numbers_of db' id
         = attempt_numbers_of db id ++ [attempt_number r].
Proof.
  intros Hc.
  destruct (complete_student_exam_inv _ _ _ _ Hc)
    as (i & se & j & exam & tq & Hse & Hex & Htq).
  rewrite (complete_student_exam_success _ _ _ _ _ _ _ Hse Hex Htq) in Hc.
  injection Hc as <- <-. eexists. split; [reflexivity|]. cbn.
  pose proof (latest_attempt_number_spec db id) as Hl.
  split_and!.
  - done.
  - intros Hnone. unfold next_attempt_number.
    destruct (latest_attempt_number db id) as [m|]; [|done].
    destruct Hl as [Hm _]. rewrite Hnone in Hm. by apply elem_of_nil in Hm.
  - intros Hsome. unfold next_attempt_number.
    destruct (latest_attempt_number db id) as [m|]; [|done].
    exists m. by destruct Hl.
  - apply next_attempt_number_gt.
  - unfold attempt_numbers_of. cbn.
    rewrite filter_app, fmap_app, filter_cons_True by done. done.
Qed.

(** Claim C1 (amended).  For every completed session the result row holds
    the configured [max_questions], the rounded [max_marks_for_attempt] of the
    formula and the number of exam-questions whose submitted answer is
    correct; when no question has two exam-question rows in the exam, the
    obtained marks, the percentage and the verdict are those of the formula
    too. *)
Theorem completion_scores_by_formula db (id : Z) db' se' :
  complete_student_exam id db = (db', inr se') →
  ∃ i se j exam tq r,
    get_student_exam db id = Some (i, se)
    ∧ get_exam db (se_exam_id se) = Some (j, exam)
    ∧ max_questions exam = Some tq
    ∧ exam_results db' = exam_results db ++ [r]
    ∧ total_questions r = tq
    ∧ max_marks r
      = round2 (round2 (spec_max_marks_for_attempt (exam_questions_of db exam) tq))
    ∧ correct_answers r
      = spec_correct_answers (exam_questions_of db exam)
                             (get_student_answers db id)
    ∧ (NoDup (eq_question_id <$> exam_questions_of db exam) →
       obtained_marks r
       = round2 (round2 (spec_obtained_marks (exam_questions_of db exam)
                                             (get_student_answers db id)))
       ∧ score_percentage r
         = round2 (spec_score_percentage (exam_questions_of db exam)
                                         (get_student_answers db id) tq)
       ∧ passed_status r
         = spec_passed (exam_questions_of db exam)
                       (get_student_answers db id) tq).
Proof.
  intros Hc.
  destruct (complete_student_exam_inv _ _ _ _ Hc)
    as (i & se & j & exam & tq & Hse & Hex & Htq).
  rewrite (complete_student_exam_success _ _ _ _ _ _ _ Hse Hex Htq) in Hc.
  injection Hc as <- <-.
  exists i, se, j, exam, tq. eexists. do 3 (split; [done|]).
  split; [reflexivity|]. cbn.
  destruct (compute_score_formula tq (exam_questions_of db exam)
              (get_student_answers db id)) as (_ & -> & -> & Hnd).
  do 3 (split; [done|]). intros Hdistinct.
  by destruct (Hnd Hdistinct) as (-> & -> & ->).
Qed.

(** Claim C8 (amended).  Completion does not look at the status of the
    session: whenever the session and its exam exist and the exam has its
    [max_questions], completing succeeds whatever the status [se_status se]
    the session is in, [not_started] included, and leaves the session
    [completed]. *)
Theorem completion_from_any_status db (id : Z) i se j exam tq :
  get_student_exam db id = Some (i, se) →
  get_exam db (se_exam_id se) = Some (j, exam) →
  max_questions exam = Some tq →
  ∃ db', complete_student_exam id db = (db', inr (set_status completed se))
         ∧ get_student_exam db' id = Some (i, set_status completed se)
         ∧ se_status (set_status completed se) = completed.
Proof.
  intros Hse Hex Htq.
  rewrite (complete_student_exam_success _ _ _ _ _ _ _ Hse Hex Htq).
  eexists. split; [reflexivity|]. split; [|done].
  unfold get_student_exam in *. cbn.
  eapply list_find_insert_same; [done|].
  by apply list_find_Some in Hse as (_ & Hid & _).
Qed.

End CompletionClaims.

(** * Result rows under exact arithmetic *)
Section ResultRowBounds.

Local Open Scope Q_scope.


End ResultRowBounds.

(** * Starting a session *)
Section Start.

Context {F : Type} `{PyFloat F}.

Implicit Types (db : DB F).

(** A start that succeeds has found the session, put it [in_progress] in
    place, kept the answers as [kept_answers] says and rewritten the ledger;
    no other table changes. *)
Lemma start_student_exam_inv commit_ok now id db db' se' :
  start_student_exam commit_ok now id db = (db', inr se') →
  ∃ i se attempts,
    get_student_exam db id = Some (i, se)
    ∧ se' = set_status in_progress se
    ∧ db' = with_exam_attempts
              (with_student_exams
                 (with_student_answers db (kept_answers db id se))
                 (<[i := se']> (student_exams db)))
              attempts.
Proof.
  unfold start_student_exam, raise, ret, kept_answers. intros Hs.
  repeat case_match; simplify_eq;
    (do 3 eexists; do 2 (split; [reflexivity|]);
     repeat match goal with Hd : decide _ = _ |- _ => rewrite ?Hd; clear Hd end;
     reflexivity).
Qed.

(** A start that is refused leaves the store as it was. *)
Lemma start_student_exam_failure commit_ok now id db db' e :
  start_student_exam commit_ok now id db = (db', inl e) → db' = db.
Proof.
  unfold start_student_exam, raise, ret. intros Hs.
  repeat case_match; by simplify_eq.
Qed.

(** Claim C6.  A start that succeeds on a session whose status is not
    [not_started] leaves no submitted answer of that session, keeps the
    answers of every other session, and leaves the result table as it was:
    the attempt numbers recorded for the session are the same, and so is the
    number its next completion will get. *)
Theorem retake_clears_answers_keeps_results commit_ok now (id : Z) db db' se'
    i se :
  get_student_exam db id = Some (i, se) →
  se_status se ≠ not_started →
  start_student_exam commit_ok now id db = (db', inr se') →
  get_student_answers db' id = []
  ∧ (∀ id', id' ≠ id →
       get_student_answers db' id' = get_student_answers db id')
  ∧ exam_results db' = exam_results db
  ∧ attempt_numbers_of db' id = attempt_numbers_of db id
  ∧ next_attempt_number db' id = next_attempt_number db id.
Proof.
  intros Hse Hstatus Hs.
  destruct (start_student_exam_inv _ _ _ _ _ _ Hs)
    as (i' & se0 & attempts & Hse' & -> & ->).
  rewrite Hse in Hse'. injection Hse' as <- <-.
  unfold get_student_answers, kept_answers, delete_answers_of. cbn.
  rewrite decide_True by done. split_and!; try done.
  - rewrite list_filter_filter. apply filter_none. intros a _ [? ?]. done.
  - intros id' Hne. rewrite list_filter_filter.
    apply list_filter_iff. intros a. split; [by intros [? _]|].
    intros Ha. split; [done|]. by rewrite Ha.
Qed.

(** *** The ledger during starts *)

(** The ledger query of [start_student_exam] is that of [get_exam_attempt]. *)
Lemma start_ledger_query db (exam_id user_subscription_id : Z) :
  list_find (λ ea, ea_exam_id ea = exam_id
                   ∧ ea_user_subscription_id ea = user_subscription_id)
            (exam_attempts db)
  = get_exam_attempt db user_subscription_id exam_id.
Proof. apply list_find_ext. intros ea. tauto. Qed.

Lemma start_student_exam_success now id db i se j exam us pkg sub l ea :
  get_student_exam db id = Some (i, se) →
  get_exam db (se_exam_id se) = Some (j, exam) →
  can_start_at db (se_student_id se) us exam now →
  subscription_plan_package us = Some pkg →
  subscription pkg = Some sub →
  get_exam_attempt db (us_id us) (se_exam_id se) = Some (l, ea) →
  0 < remaining_attempts ea →
  start_student_exam true now id db
  = (with_exam_attempts
       (with_student_exams
          (with_student_answers db (kept_answers db id se))
          (<[i := set_status in_progress se]> (student_exams db)))
       (<[l := set_remaining (remaining_attempts ea - 1) ea]>
          (exam_attempts db)),
     inr (set_status in_progress se)).
Proof.
  intros Hse Hex (Hb & Ha & k & Hus) Hpkg Hsub Hea Hpos.
  unfold start_student_exam.
  rewrite Hse, Hex, Hb, Ha, Hus, Hpkg, Hsub, start_ledger_query, Hea.
  by rewrite decide_False by lia.
Qed.



(** *** Creating a session *)

Lemma next_id_fresh (ids : list Z) (x : Z) : x ∈ ids → x < next_id ids.
Proof.
  unfold next_id. induction ids as [|y ids IH]; [by intros ?%elem_of_nil|].
  intros [->|Hx]%elem_of_cons; cbn; [lia|]. specialize (IH Hx). lia.
Qed.





End Start.

(** * Refusals and the attempts endpoint *)
Section Refusals.

Context {F : Type} `{PyFloat F}.

Implicit Types (db : DB F).

(** A start request that is refused, at the endpoint or below it and for
    whatever reason, leaves the store as it was. *)
Theorem refused_start_changes_nothing commit_ok now (user id : Z) db db' e :
  route_start_student_exam commit_ok now user id db = (db', inl e) → db' = db.
Proof.
  unfold route_start_student_exam, raise, ret.
  destruct (get_student_exam db id) as [[i se]|]; [|by intros [= <- _]].
  case_decide; [by intros [= <- _]|].
  destruct (start_student_exam commit_ok now id db) as [db1 [e1|se1]] eqn:Hs;
    [|done].
  apply start_student_exam_failure in Hs as ->.
  destruct e1; by intros [= <- _].
Qed.

(** A start on a session whose ledger row holds no attempt is refused. *)
Theorem exhausted_start_is_refused commit_ok now (id : Z) db i se j exam
    k us pkg sub l ea :
  get_student_exam db id = Some (i, se) →
  get_exam db (se_exam_id se) = Some (j, exam) →
  active_subscription_of db (se_student_id se) now = Some (k, us) →
  subscription_plan_package us = Some pkg →
  subscription pkg = Some sub →
  get_exam_attempt db (us_id us) (se_exam_id se) = Some (l, ea) →
  remaining_attempts ea ≤ 0 →
  ∃ e, start_student_exam commit_ok now id db = (db, inl (ValueError e))
       ∧ (before_start now exam = false → after_end now exam = false →
          e = NoRemainingAttempts).
Proof.
  intros Hse Hex Hus Hpkg Hsub Hea Hrem. unfold start_student_exam.
  rewrite Hse, Hex.
  destruct (before_start now exam); [by eexists|].
  destruct (after_end now exam); [by eexists|].
  rewrite Hus, Hpkg, Hsub, start_ledger_query, Hea.
  rewrite decide_True by done. by eexists.
Qed.

(** The attempts endpoint answers the stored [remaining_attempts] when the
    ledger has a row for the pair, and the plan's maximum when it has none;
    the CRUD function of the same name answers the stored value in the first
    case. *)
Theorem endpoint_remaining_attempts now (user exam_id : Z) db k us pkg sub :
  active_subscription_of db user now = Some (k, us) →
  subscription_plan_package us = Some pkg →
  subscription pkg = Some sub →
  ∃ r, route_get_remaining_attempts now user exam_id db = inr r
       ∧ rar_max_attempts r = max_exams_or_1 sub
       ∧ match get_exam_attempt db (us_id us) exam_id with
         | Some (_, ea) =>
           rar_remaining_attempts r = remaining_attempts ea
           ∧ get_remaining_attempts db (us_id us) exam_id
             = remaining_attempts ea
         | None => rar_remaining_attempts r = max_exams_or_1 sub
         end.
Proof.
  intros Hus Hpkg Hsub. unfold route_get_remaining_attempts, get_remaining_attempts.
  rewrite Hus, Hpkg, Hsub, start_ledger_query.
  destruct (get_exam_attempt db (us_id us) exam_id) as [[l ea]|];
    by eexists.
Qed.

End Refusals.

(** * The expiry sweeper *)
Section Sweeper.

Local Open Scope nat_scope.

Implicit Types (t : list UserSubscription)
  (batch : list (nat * UserSubscription)).

(** The rows of the query, by position. *)
Lemma elem_of_expired_subscriptions now t (i : nat) us :
  (i, us) ∈ expired_subscriptions_of now t
  ↔ t !! i = Some us ∧ us_status us = active ∧ (us_end_date us < now)%Z.
Proof.
  unfold expired_subscriptions_of. rewrite list_elem_of_filter. cbn.
  rewrite elem_of_lookup_imap. split.
  - intros ([? ?] & j & y & [= -> ->] & Hj). done.
  - intros (? & ? & ?). split; [done|]. by exists i, us.
Qed.

Lemma NoDup_fmap_filter {A B} (f : A → B) (P : A → Prop)
    `{∀ x, Decision (P x)} (l : list A) :
  NoDup (f <$> l) → NoDup (f <$> filter P l).
Proof.
  induction l as [|x l IH]; [done|]. rewrite fmap_cons, NoDup_cons.
  intros [Hx Hl]. rewrite filter_cons. case_decide; [|by apply IH].
  rewrite fmap_cons. apply NoDup_cons. split; [|by apply IH].
  intros (y & Hy & [_ ?]%list_elem_of_filter)%list_elem_of_fmap.
  apply Hx. rewrite Hy. by apply list_elem_of_fmap_2.
Qed.

Lemma expired_subscriptions_NoDup now t :
  NoDup ((expired_subscriptions_of now t).*1).
Proof.
  unfold expired_subscriptions_of. apply NoDup_fmap_filter.
  rewrite fmap_imap.
  rewrite (imap_ext _ (λ i _, i)) by done.
  rewrite (imap_seq_0 t (λ i, i)), list_fmap_id. apply NoDup_seq.
Qed.

(** *** Batches *)

Lemma concat_batches_prefix {A} (l : list A) (c : nat) :
  concat ((λ k, take batch_size (drop (k * batch_size) l)) <$> seq 0 c)
  = take (c * batch_size) l.
Proof.
  induction c as [|c IH]; [done|].
  rewrite seq_S, fmap_app, concat_app, IH. cbn [fmap list_fmap concat].
  rewrite app_nil_r, take_take_drop. f_equal. lia.
Qed.

Lemma concat_batches {A} (l : list A) : concat (batches l) = l.
Proof.
  unfold batches. rewrite concat_batches_prefix. apply take_ge.
  unfold batch_size.
  pose proof (Nat.div_mod (length l + 100 - 1) 100 ltac:(done)).
  pose proof (Nat.mod_upper_bound (length l + 100 - 1) 100 ltac:(done)).
  lia.
Qed.

Lemma batches_lookup {A} (l : list A) (k : nat) (b : list A) :
  batches l !! k = Some b →
  b = take batch_size (drop (k * batch_size) l) ∧ k * batch_size < length l.
Proof.
  unfold batches. rewrite list_lookup_fmap.
  intros (k' & [-> Hk]%lookup_seq & ->)%fmap_Some. split; [done|].
  unfold batch_size in *.
  pose proof (Nat.div_mod (length l + 100 - 1) 100 ltac:(done)).
  pose proof (Nat.mod_upper_bound (length l + 100 - 1) 100 ltac:(done)).
  lia.
Qed.

(** Every batch holds between 1 and [batch_size] rows. *)
Lemma batches_size {A} (l : list A) (b : list A) :
  b ∈ batches l → 0 < length b ≤ batch_size.
Proof.
  intros [k Hk]%list_elem_of_lookup_1.
  apply batches_lookup in Hk as [-> Hlt].
  rewrite length_take, length_drop. unfold batch_size in *. lia.
Qed.

(** The [j]-th row of the query is in batch [j / batch_size]. *)
Lemma batches_member {A} (l : list A) (j : nat) (x : A) :
  l !! j = Some x →
  ∃ b, batches l !! (j / batch_size) = Some b ∧ x ∈ b.
Proof.
  intros Hj. pose proof (lookup_lt_Some _ _ _ Hj) as Hlt.
  unfold batches, batch_size in *.
  pose proof (Nat.div_mod j 100 ltac:(done)).
  pose proof (Nat.mod_upper_bound j 100 ltac:(done)).
  eexists. split.
  - rewrite list_lookup_fmap, lookup_seq_lt; [reflexivity|].
    apply Nat.Div0.div_lt_upper_bound.
    pose proof (Nat.div_mod (length l + 100 - 1) 100 ltac:(done)).
    pose proof (Nat.mod_upper_bound (length l + 100 - 1) 100 ltac:(done)).
    lia.
  - cbv beta. rewrite Nat.add_0_l.
    apply (list_elem_of_lookup_2 _ (j mod 100)).
    rewrite lookup_take_lt by done. rewrite lookup_drop, <- Hj. f_equal. lia.
Qed.

(** *** Marking and committing *)

Lemma mark_batch_lookup batch t (i : nat) :
  mark_batch batch t !! i
  = if decide (i ∈ batch.*1)
    then set_subscription_status expired <$> t !! i
    else t !! i.
Proof.
  unfold mark_batch. revert t. induction batch as [|[j us] batch IH]; intros t.
  - cbn. rewrite decide_False; [done|]. apply not_elem_of_nil.
  - cbn [foldl fmap list_fmap fst]. rewrite IH.
    destruct (decide (i = j)) as [->|Hne].
    + rewrite list_lookup_alter_eq, (decide_True (P:=j ∈ j :: _)) by left.
      case_decide; [|done]. by destruct (t !! j).
    + rewrite list_lookup_alter_ne by done.
      destruct (decide (i ∈ batch.*1)).
      * by rewrite decide_True by (by right).
      * rewrite decide_False; [done|]. by intros [?|?]%elem_of_cons.
Qed.

Lemma mark_batch_length batch t : length (mark_batch batch t) = length t.
Proof.
  unfold mark_batch. revert t. induction batch as [|p batch IH]; intros t;
    [done|].
  cbn [foldl]. by rewrite IH, length_alter.
Qed.

Lemma sweep_batches_spec commit_fails (k : nat)
    (bs : list (list (nat * UserSubscription))) t (count : Z) :
  NoDup ((concat bs).*1) →
  (∀ i us, (i, us) ∈ concat bs → t !! i = Some us) →
  length (sweep_batches commit_fails k bs t count).1 = length t
  ∧ (∀ m b i us, bs !! m = Some b → (i, us) ∈ b →
       (sweep_batches commit_fails k bs t count).1 !! i
       = Some (if commit_fails (k + m)
               then us else set_subscription_status expired us))
  ∧ (∀ i, i ∉ (concat bs).*1 →
       (sweep_batches commit_fails k bs t count).1 !! i = t !! i)
  ∧ (sweep_batches commit_fails k bs t count).2
    = (count + Z.of_nat (length (concat bs)))%Z.
Proof.
  revert k t count. induction bs as [|batch bs IH]; intros k t count Hnd Hin.
  - cbn. split_and!; try done. lia.
  - cbn [concat] in Hnd, Hin. rewrite fmap_app in Hnd.
    apply NoDup_app in Hnd as (Hnd1 & Hdisj & Hnd2).
    cbn [sweep_batches].
    set (t1 := if commit_fails k then t else mark_batch batch t).
    assert ((if commit_fails k
             then sweep_batches commit_fails (S k) bs t
                    (count + Z.of_nat (length batch))
             else sweep_batches commit_fails (S k) bs (mark_batch batch t)
                    (count + Z.of_nat (length batch)))
            = sweep_batches commit_fails (S k) bs t1
                (count + Z.of_nat (length batch))) as ->.
    { subst t1. by destruct (commit_fails k). }
    assert (∀ i, i ∉ batch.*1 → t1 !! i = t !! i) as Hout.
    { intros i Hi. subst t1. destruct (commit_fails k); [done|].
      by rewrite mark_batch_lookup, decide_False. }
    assert (∀ i us, (i, us) ∈ batch →
              t1 !! i = Some (if commit_fails k
                              then us else set_subscription_status expired us))
      as Hbatch.
    { intros i us Hi. subst t1. destruct (commit_fails k).
      - apply Hin, elem_of_app. by left.
      - rewrite mark_batch_lookup, decide_True.
        + rewrite (Hin i us); [done|]. apply elem_of_app. by left.
        + by apply (list_elem_of_fmap_2 fst _ (i, us)). }
    destruct (IH (S k) t1 (count + Z.of_nat (length batch))%Z Hnd2)
      as (Hlen & Hmem & Hrest & Hcount).
    { intros i us Hi. rewrite Hout.
      - apply Hin, elem_of_app. by right.
      - intros Hi'. apply (Hdisj i Hi').
        by apply (list_elem_of_fmap_2 fst _ (i, us)). }
    split_and!.
    + rewrite Hlen. subst t1. destruct (commit_fails k); [done|].
      apply mark_batch_length.
    + intros [|m] b i us Hb Hi.
      * injection Hb as <-. rewrite Hrest, Nat.add_0_r; [by apply Hbatch|].
        intros Hi'. apply (Hdisj i); [|done].
        by apply (list_elem_of_fmap_2 fst _ (i, us)).
      * replace (k + S m) with (S k + m) by lia. by eapply Hmem.
    + intros i Hi. cbn [concat] in Hi. rewrite fmap_app, elem_of_app in Hi.
      rewrite Hrest by tauto. apply Hout. tauto.
    + cbn [concat]. rewrite Hcount, length_app. lia.
Qed.

(** Claim C10.  One run of the sweeper takes the rows with
    [status == active] and [end_date < now] in batches of at most 100, in
    query order, with one commit per batch.  A row of a batch whose commit
    goes through ends [expired]; a batch whose commit fails is rolled back,
    its rows stay as they were, and the run goes on with the next batch; no
    other row and no other table changes.  With no failure every eligible
    row ends [expired].  With 150 eligible rows and a failure in the second
    batch, the first 100 rows end [expired] and the last 50 stay [active]. *)
Theorem sweeper_expires_by_batches :
  (∀ (F : Type) (commit_fails : nat → bool) (now : Z) (db : DB F),
     (∀ i us, (i, us) ∈ expired_subscriptions_of now (user_subscriptions db)
              ↔ user_subscriptions db !! i = Some us
                ∧ us_status us = active ∧ (us_end_date us < now)%Z)
     ∧ concat (batches (expired_subscriptions_of now (user_subscriptions db)))
       = expired_subscriptions_of now (user_subscriptions db)
     ∧ (∀ b, b ∈ batches (expired_subscriptions_of now (user_subscriptions db))
             → 0 < length b ≤ 100)
     ∧ (∀ j i us,
          expired_subscriptions_of now (user_subscriptions db) !! j
          = Some (i, us) →
          user_subscriptions (update_expired_subscriptions commit_fails now db).1
            !! i
          = Some (if commit_fails (j / 100)
                  then us else set_subscription_status expired us))
     ∧ (∀ i, i ∉ (expired_subscriptions_of now (user_subscriptions db)).*1 →
          user_subscriptions (update_expired_subscriptions commit_fails now db).1
            !! i
          = user_subscriptions db !! i)
     ∧ ((∀ k, commit_fails k = false) →
        ∀ i us, (i, us) ∈ expired_subscriptions_of now (user_subscriptions db) →
          user_subscriptions (update_expired_subscriptions commit_fails now db).1
            !! i
          = Some (set_subscription_status expired us))
     ∧ length (user_subscriptions
                 (update_expired_subscriptions commit_fails now db).1)
       = length (user_subscriptions db)
     ∧ exam_attempts (update_expired_subscriptions commit_fails now db).1
       = exam_attempts db
     ∧ student_exams (update_expired_subscriptions commit_fails now db).1
       = student_exams db
     ∧ exam_results (update_expired_subscriptions commit_fails now db).1
       = exam_results db)
  ∧ us_status
      <$> user_subscriptions
            (update_expired_subscriptions Scenario.second_batch_fails 200
               (Scenario.db_stale (F:=spec_float))).1
    = replicate 100 expired ++ replicate 50 active
  ∧ us_status
      <$> user_subscriptions
            (update_expired_subscriptions (λ _, false) 200
               (Scenario.db_stale (F:=spec_float))).1
    = replicate 150 expired.
Proof.
  split; [|by vm_compute].
  intros F commit_fails now db.
  split; [apply elem_of_expired_subscriptions|].
  split; [apply concat_batches|].
  split; [apply batches_size|].
  set (E := expired_subscriptions_of now (user_subscriptions db)).
  assert (length (user_subscriptions
                    (update_expired_subscriptions commit_fails now db).1)
          = length (user_subscriptions db)
          ∧ (∀ j i us, E !! j = Some (i, us) →
               user_subscriptions
                 (update_expired_subscriptions commit_fails now db).1 !! i
               = Some (if commit_fails (j / 100)
                       then us else set_subscription_status expired us))
          ∧ (∀ i, i ∉ E.*1 →
               user_subscriptions
                 (update_expired_subscriptions commit_fails now db).1 !! i
               = user_subscriptions db !! i)
          ∧ exam_attempts (update_expired_subscriptions commit_fails now db).1
            = exam_attempts db
          ∧ student_exams (update_expired_subscriptions commit_fails now db).1
            = student_exams db
          ∧ exam_results (update_expired_subscriptions commit_fails now db).1
            = exam_results db) as (Hlen & Hrows & Hrest & ? & ? & ?).
  { unfold update_expired_subscriptions. fold E.
    destruct (sweep_batches_spec commit_fails 0 (batches E)
                (user_subscriptions db) 0%Z)
      as (Hlen & Hmem & Hrest & _).
    { rewrite concat_batches. apply expired_subscriptions_NoDup. }
    { rewrite concat_batches. intros i us Hi.
      by apply elem_of_expired_subscriptions in Hi as (? & _). }
    rewrite concat_batches in Hrest.
    destruct E as [|p E'] eqn:HE.
    - split_and!; try done; intros j i us Hj; by rewrite lookup_nil in Hj.
    - rewrite <- HE in *. clear HE.
      destruct (sweep_batches commit_fails 0 (batches E)
                  (user_subscriptions db) 0%Z) as [t' count].
      cbn in *. split_and!; try done.
      intros j i us Hj.
      destruct (batches_member E j (i, us) Hj) as (b & Hb & Hin).
      apply (Hmem _ _ _ _ Hb Hin). }
  split_and!; try done.
  intros Hok i us [j Hj]%list_elem_of_lookup_1.
  rewrite (Hrows j i us Hj). by rewrite Hok.
Qed.

End Sweeper.

(** * Worked sessions, evaluated

    The runs below are evaluated under IEEE binary64. *)
Section ScenarioRuns.

Import Scenario.

Local Abbreviation B := spec_float.

(** Claim C1, the normalisation scenario: [max_questions = 4], two rows worth
    10 marks each, both answered correctly.  The formula gives 20 obtained
    marks out of 40, that is 50.0 percent. *)
Lemma completion_scores_by_formula_witness :
  complete_student_exam 1 (db_normalised (F:=B))
  = ((complete_student_exam 1 (db_normalised (F:=B))).1,
     inr (session completed))
  ∧ ∃ r, exam_results (complete_student_exam 1 (db_normalised (F:=B))).1 = [r]
         ∧ total_questions r = 4
         ∧ correct_answers r = 2
         ∧ obtained_marks r = of_int 20
         ∧ max_marks r = of_int 40
         ∧ score_percentage r = of_int 50
         ∧ passed_status r = true.
Proof.
  assert (complete_student_exam 1 (db_normalised (F:=B))
          = ((complete_student_exam 1 (db_normalised (F:=B))).1,
             inr (session completed))) as Hc
    by (vm_compute; reflexivity).
  split; [exact Hc|].
  destruct (completion_scores_by_formula _ _ _ _ Hc)
    as (i & se & j & ex & tq & r & Hse & Hex & Htq & Hr & Ht & Hm & Hca & Hnd).
  vm_compute in Hse. injection Hse as <- <-.
  vm_compute in Hex. injection Hex as <- <-.
  vm_compute in Htq. injection Htq as <-.
  exists r. split; [exact Hr|]. split; [exact Ht|].
  destruct Hnd as (Ho & Hs & Hp).
  { apply (bool_decide_unpack _). vm_compute. reflexivity. }
  rewrite Hca, Ho, Hm, Hs, Hp. vm_compute. repeat split.
Defined.

(** Claim C1, counterexample.  Question 5 has two exam-question rows, worth 20
    and 10 marks, and its submitted answer is correct.  The configured marks
    of the credited rows add up to 30; the result row holds 20, the marks of
    the later row counted twice (40 with the rows in the other order). *)
Lemma twice_listed_question_counted_wrongly :
  (eq_question_id <$> exam_questions (db_twice (F:=B)) = [5; 5]
   ∧ (complete_student_exam 1 (db_twice (F:=B))).2 = inr (session completed)
   ∧ spec_obtained_marks (exam_questions (db_twice (F:=B)))
                         (student_answers (db_twice (F:=B))) = of_int 30
   ∧ obtained_marks <$> exam_results (complete_student_exam 1 (db_twice (F:=B))).1
     = [of_int 20])
  ∧ ((complete_student_exam 1 (db_twice_rev (F:=B))).2
     = inr (session completed)
     ∧ spec_obtained_marks (exam_questions (db_twice_rev (F:=B)))
                           (student_answers (db_twice_rev (F:=B))) = of_int 30
     ∧ obtained_marks
         <$> exam_results (complete_student_exam 1 (db_twice_rev (F:=B))).1
       = [of_int 40]).
Proof. vm_compute. repeat split. Qed.



(** Claim C7, an instance: the first completion of the worked session is
    attempt 1. *)
Lemma completion_numbers_attempts_witness :
  complete_student_exam 1 (answered (F:=B))
  = (finished (F:=B), inr (session completed))
  ∧ ∃ r, exam_results (finished (F:=B)) = [r] ∧ attempt_number r = 1.
Proof.
  assert (complete_student_exam 1 (answered (F:=B))
          = (finished (F:=B), inr (session completed))) as Hc
    by (vm_compute; reflexivity).
  split; [exact Hc|].
  destruct (completion_numbers_attempts _ _ _ _ Hc)
    as (r & Hr & _ & Hfirst & _).
  exists r. split; [exact Hr|]. apply Hfirst. vm_compute. reflexivity.
Defined.

(** Claim C8, counterexample.  The session the student has just created is
    [not_started]; the complete endpoint accepts it and leaves it
    [completed]. *)
Lemma completes_without_starting :
  get_student_exam (created (F:=B)) 1 = Some (0%nat, session not_started)
  ∧ (route_complete_student_exam 7 1 (created (F:=B))).2
    = inr (session completed)
  ∧ get_student_exam (route_complete_student_exam 7 1 (created (F:=B))).1 1
    = Some (0%nat, session completed).
Proof. vm_compute. repeat split. Qed.

(** Claim C8, an instance: completing the session just created. *)
Lemma completion_from_any_status_witness :
  ∃ db', complete_student_exam 1 (created (F:=B))
         = (db', inr (set_status completed (session not_started)))
         ∧ get_student_exam db' 1
           = Some (0%nat, set_status completed (session not_started))
         ∧ se_status (set_status completed (session not_started)) = completed.
Proof.
  apply (completion_from_any_status (created (F:=B)) 1 0
           (session not_started) 0 (exam 2) 2);
    vm_compute; reflexivity.
Defined.

(** Claim C2 (amended).  Plan with [max_exams = 2], no session and no ledger
    row yet.  Creating the session through the endpoint leaves the ledger at
    2 and the first start takes it to 1.  Both questions (50 marks each)
    answered correctly, the completion records 100 marks out of 100, 100.0
    percent, passed, attempt 1.  A second start on the session succeeds and
    takes the ledger to 0; the third is refused for want of attempts and
    changes nothing. *)
Theorem two_attempt_plan_session :
  (route_create_student_exam 10 10 7 new_session (db0 (F:=B))).2
  = inr (session not_started)
  ∧ remaining_attempts <$> exam_attempts (created (F:=B)) = [2]
  ∧ (route_start_student_exam true 11 7 1 (created (F:=B))).2
    = inr (session in_progress)
  ∧ remaining_attempts <$> exam_attempts (started (F:=B)) = [1]
  ∧ sa_is_correct <$> student_answers (answered (F:=B))
    = [Some true; Some true]
  ∧ (route_complete_student_exam 7 1 (answered (F:=B))).2
    = inr (session completed)
  ∧ exam_results (finished (F:=B))
    = [ {| er_student_exam_id := 1; attempt_number := 1;
           total_questions := 2; correct_answers := 2;
           score_percentage := of_int 100; obtained_marks := of_int 100;
           max_marks := of_int 100; passed_status := true |} ]
  ∧ (second_start (F:=B)).2 = inr (session in_progress)
  ∧ remaining_attempts <$> exam_attempts (second_start (F:=B)).1 = [0]
  ∧ (third_start (F:=B)).2 = inl (HTTPException 400 NoRemainingAttempts)
  ∧ (third_start (F:=B)).1 = (second_start (F:=B)).1.
Proof. vm_compute. repeat split. Qed.

(** Claim C2, counterexample.  After the completion the ledger still holds
    one attempt, and the second start call goes through. *)
Lemma second_start_goes_through :
  remaining_attempts <$> exam_attempts (finished (F:=B)) = [1]
  ∧ route_start_student_exam true 20 7 1 (finished (F:=B))
    = ((second_start (F:=B)).1, inr (session in_progress)).
Proof. vm_compute. repeat split. Qed.


(** Claim C3 as the specification words it fails where the pair already has a
    ledger row holding more than the plan gives.  The plan gives two attempts
    and the pair, which has no session yet, has a ledger row holding 4 (a
    retake leaves such a row without a session, and a plan can be changed
    after rows were written).  The create endpoint returns; the CRUD layer
    has appended its seed, 1; the ledger reads 4, not 2; and the third and
    fourth start succeed as well. *)
Theorem prior_ledger_row_outlives_create :
  (route_create_student_exam 10 10 7 new_session
     (with_exam_attempts (db0 (F:=B))
        [ {| ea_user_subscription_id := 1; ea_exam_id := 1;
             remaining_attempts := 4 |} ])).2
  = inr (session not_started)
  ∧ remaining_attempts
    <$> exam_attempts
          (route_create_student_exam 10 10 7 new_session
             (with_exam_attempts (db0 (F:=B))
                [ {| ea_user_subscription_id := 1; ea_exam_id := 1;
                     remaining_attempts := 4 |} ])).1
    = [4; 1]
  ∧ get_remaining_attempts
      (route_create_student_exam 10 10 7 new_session
         (with_exam_attempts (db0 (F:=B))
            [ {| ea_user_subscription_id := 1; ea_exam_id := 1;
                 remaining_attempts := 4 |} ])).1 1 1
    = 4
  ∧ (start_repeatedly [11; 12; 13; 14; 15] 7 1
       (route_create_student_exam 10 10 7 new_session
          (with_exam_attempts (db0 (F:=B))
             [ {| ea_user_subscription_id := 1; ea_exam_id := 1;
                  remaining_attempts := 4 |} ])).1).2
    = replicate 4 (inr (set_status in_progress (session not_started)))
      ++ [inl (HTTPException 400 NoRemainingAttempts)].
Proof. vm_compute. repeat split. Qed.

(** Claim C4, the failing run.  The subscription ends at instant 500.  The
    endpoint reads the clock at 500 and finds it active; the CRUD function
    commits the session row, reads the clock at 501 and raises.  The request
    is rejected with "No active subscription found", and the session row
    stays. *)
Theorem rejected_create_leaves_session_row :
  active_subscription_of (db0 (F:=B)) 7 501 = None
  ∧ create_student_exam 501 new_session (db0 (F:=B))
    = (with_student_exams db0 [session not_started],
       inl (ValueError NoActiveSubscription))
  ∧ route_create_student_exam 500 501 7 new_session (db0 (F:=B))
    = (with_student_exams db0 [session not_started],
       inl (HTTPException 400 NoActiveSubscription))
  ∧ student_exams (db0 (F:=B)) = [].
Proof. vm_compute. repeat split. Qed.

(** Claim C6, an instance: the retake of the worked session.  Its two
    answers are gone, its result row stays, and the next completion will be
    attempt 2. *)
Lemma retake_clears_answers_keeps_results_witness :
  length (get_student_answers (finished (F:=B)) 1) = 2%nat
  ∧ get_student_answers (second_start (F:=B)).1 1 = []
  ∧ exam_results (second_start (F:=B)).1 = exam_results (finished (F:=B))
  ∧ next_attempt_number (second_start (F:=B)).1 1 = 2.
Proof.
  destruct (retake_clears_answers_keeps_results true 20 1 (finished (F:=B))
              (second_start (F:=B)).1 (session in_progress)
              0%nat (session completed))
    as (Hans & _ & Hres & _ & Hnext); try (vm_compute; reflexivity).
  { by vm_compute. }
  split; [by vm_compute|]. split; [exact Hans|]. split; [exact Hres|].
  rewrite Hnext. by vm_compute.
Defined.

(** Claim C9, the failing call.  No ledger row exists for subscription 1 and
    exam 1, and the plan allows 2 attempts: [get_remaining_attempts] of the
    CRUD layer answers 0, the endpoint of the same name answers 2. *)
Theorem remaining_attempts_without_ledger_row :
  get_exam_attempt (db0 (F:=B)) 1 1 = None
  ∧ max_exams_or_1 plan = 2
  ∧ get_remaining_attempts (db0 (F:=B)) 1 1 = 0
  ∧ route_get_remaining_attempts 10 7 1 (db0 (F:=B))
    = inr {| rar_remaining_attempts := 2; rar_max_attempts := 2;
             rar_exam_id := 1; rar_student_id := 7 |}.
Proof. vm_compute. repeat split. Qed.

(** A refused start, an instance: the third start of the worked session. *)
Lemma refused_start_changes_nothing_witness :
  route_start_student_exam true 21 7 1 (second_start (F:=B)).1
  = ((second_start (F:=B)).1, inl (HTTPException 400 NoRemainingAttempts))
  ∧ (second_start (F:=B)).1 = (second_start (F:=B)).1.
Proof.
  assert (route_start_student_exam true 21 7 1 (second_start (F:=B)).1
          = ((second_start (F:=B)).1,
             inl (HTTPException 400 NoRemainingAttempts))) as Hs
    by (vm_compute; reflexivity).
  split; [exact Hs|].
  exact (refused_start_changes_nothing _ _ _ _ _ _ _ Hs).
Defined.

(** An exhausted ledger, an instance: the worked session after two starts. *)
Lemma exhausted_start_is_refused_witness :
  ∃ e, start_student_exam true 21 1 (second_start (F:=B)).1
       = ((second_start (F:=B)).1, inl (ValueError e))
       ∧ (before_start 21 (exam 2) = false → after_end 21 (exam 2) = false →
          e = NoRemainingAttempts).
Proof.
  apply (exhausted_start_is_refused true 21 1 (second_start (F:=B)).1
           0%nat (session in_progress) 0%nat (exam 2) 0%nat
           {| us_id := 1; us_user_id := 7;
              subscription_plan_package := Some {| subscription := Some plan |};
              us_end_date := 500; us_status := active |}
           {| subscription := Some plan |} plan 0%nat
           {| ea_user_subscription_id := 1; ea_exam_id := 1;
              remaining_attempts := 0 |});
    first [by vm_compute | vm_compute; reflexivity].
Defined.

(** The attempts endpoint, an instance: before and after the first start. *)
Lemma endpoint_remaining_attempts_witness :
  (∃ r, route_get_remaining_attempts 10 7 1 (db0 (F:=B)) = inr r
        ∧ rar_remaining_attempts r = 2)
  ∧ (∃ r, route_get_remaining_attempts 12 7 1 (started (F:=B)) = inr r
          ∧ rar_remaining_attempts r = 1).
Proof.
  split.
  - destruct (endpoint_remaining_attempts 10 7 1 (db0 (F:=B)) 0%nat
                {| us_id := 1; us_user_id := 7;
                   subscription_plan_package :=
                     Some {| subscription := Some plan |};
                   us_end_date := 500; us_status := active |}
                {| subscription := Some plan |} plan)
      as (r & Hr & _ & Hrem); try (vm_compute; reflexivity).
    exists r. split; [exact Hr|]. vm_compute in Hrem. exact Hrem.
  - destruct (endpoint_remaining_attempts 12 7 1 (started (F:=B)) 0%nat
                {| us_id := 1; us_user_id := 7;
                   subscription_plan_package :=
                     Some {| subscription := Some plan |};
                   us_end_date := 500; us_status := active |}
                {| subscription := Some plan |} plan)
      as (r & Hr & _ & Hrem); try (vm_compute; reflexivity).
    exists r. split; [exact Hr|]. vm_compute in Hrem. exact (proj1 Hrem).
Defined.

End ScenarioRuns.

(** * The ledger functions and the retake endpoint *)
Section Ledger.

Context {F : Type} `{PyFloat F}.

Implicit Types (db : DB F).

(** *** Queries on a table that changed at rows the query does not select *)

Lemma list_find_unselected {A} (P : A → Prop) `{∀ x, Decision (P x)}
    (l l' : list A) :
  Forall2 (λ x y, x = y ∨ (¬ P x ∧ ¬ P y)) l l' →
  list_find P l' = list_find P l.
Proof.
  induction 1 as [|x y l l' Hxy _ IH]; [done|]. cbn.
  destruct Hxy as [->|[Hx Hy]].
  - by rewrite IH.
  - by rewrite !decide_False, IH by done.
Qed.

Lemma Forall2_insert_r_same {A} (R : A → A → Prop) (l : list A) (i : nat)
    (x y : A) :
  (∀ z, R z z) → l !! i = Some x → R x y → Forall2 R l (<[i := y]> l).
Proof.
  intros Hrefl Hi Hxy. apply Forall2_same_length_lookup_2.
  - by rewrite length_insert.
  - intros j a b Ha Hb. destruct (decide (j = i)) as [->|Hne].
    + rewrite list_lookup_insert_eq in Hb by (by eapply lookup_lt_Some).
      by simplify_eq.
    + rewrite list_lookup_insert_ne in Hb by done. by simplify_eq.
Qed.

Lemma list_find_insert_unselected {A} (P : A → Prop) `{∀ x, Decision (P x)}
    (l : list A) (i : nat) (x y : A) :
  l !! i = Some x → ¬ P x → ¬ P y →
  list_find P (<[i := y]> l) = list_find P l.
Proof.
  intros Hi Hx Hy. apply list_find_unselected.
  eapply Forall2_insert_r_same; [by left|done|by right].
Qed.

Lemma list_find_snoc_unselected {A} (P : A → Prop) `{∀ x, Decision (P x)}
    (l : list A) (y : A) :
  ¬ P y → list_find P (l ++ [y]) = list_find P l.
Proof.
  intros Hy. destruct (list_find P l) as [[i x]|] eqn:Hfind.
  - by apply list_find_app_l.
  - rewrite list_find_app_r by done. cbn. by rewrite decide_False.
Qed.

Lemma list_find_snoc_selected {A} (P : A → Prop) `{∀ x, Decision (P x)}
    (l : list A) (y : A) :
  list_find P l = None → P y → list_find P (l ++ [y]) = Some (length l, y).
Proof.
  intros Hnone Hy. rewrite list_find_app_r by done. cbn.
  rewrite decide_True by done. cbn. repeat f_equal. all: lia.
Qed.

(** *** [create_or_update_exam_attempt] *)

Lemma create_or_update_frame db (usid eid m : Z) :
  exams (create_or_update_exam_attempt db usid eid m).1 = exams db
  ∧ exam_questions (create_or_update_exam_attempt db usid eid m).1
    = exam_questions db
  ∧ answers (create_or_update_exam_attempt db usid eid m).1 = answers db
  ∧ student_exams (create_or_update_exam_attempt db usid eid m).1
    = student_exams db
  ∧ student_answers (create_or_update_exam_attempt db usid eid m).1
    = student_answers db
  ∧ exam_results (create_or_update_exam_attempt db usid eid m).1
    = exam_results db
  ∧ user_subscriptions (create_or_update_exam_attempt db usid eid m).1
    = user_subscriptions db.
Proof.
  unfold create_or_update_exam_attempt.
  destruct (get_exam_attempt db usid eid) as [[l ea]|]; [case_decide|]; done.
Qed.

(** What the ledger holds for the pair after the call, and where. *)
Lemma create_or_update_lookup db (usid eid m : Z) :
  get_exam_attempt (create_or_update_exam_attempt db usid eid m).1 usid eid
  = Some (position_of_exam_attempt db usid eid,
          (create_or_update_exam_attempt db usid eid m).2)
  ∧ remaining_attempts (create_or_update_exam_attempt db usid eid m).2
    = match get_exam_attempt db usid eid with
      | Some (_, ea) => Z.max (remaining_attempts ea) m
      | None => m
      end.
Proof.
  unfold create_or_update_exam_attempt, position_of_exam_attempt.
  destruct (get_exam_attempt db usid eid) as [[l ea]|] eqn:Hfind.
  - case_decide; cbn.
    + split; [|lia]. unfold get_exam_attempt in *. cbn.
      eapply list_find_insert_same; [done|].
      by apply list_find_Some in Hfind as (_ & ? & _).
    + split; [done|lia].
  - cbn. split; [|done]. unfold get_exam_attempt in *. cbn.
    by apply list_find_snoc_selected.
Qed.

(** X4.  [create_or_update_exam_attempt] never lowers a ledger row: after the
    call the pair holds the greater of what it held and [max_attempts], or
    [max_attempts] if it had no row; the row returned is the one stored; the
    rows of every other pair are as they were; and the same call made again
    changes nothing. *)
Theorem create_or_update_never_lowers db (usid eid max_attempts : Z) :
  get_remaining_attempts
    (create_or_update_exam_attempt db usid eid max_attempts).1 usid eid
  = match get_exam_attempt db usid eid with
    | Some (_, ea) => Z.max (remaining_attempts ea) max_attempts
    | None => max_attempts
    end
  ∧ (∃ j, get_exam_attempt
            (create_or_update_exam_attempt db usid eid max_attempts).1 usid eid
          = Some (j, (create_or_update_exam_attempt db usid eid max_attempts).2))
  ∧ (∀ usid' eid', (usid', eid') ≠ (usid, eid) →
       get_exam_attempt
         (create_or_update_exam_attempt db usid eid max_attempts).1 usid' eid'
       = get_exam_attempt db usid' eid')
  ∧ create_or_update_exam_attempt
      (create_or_update_exam_attempt db usid eid max_attempts).1
      usid eid max_attempts
    = create_or_update_exam_attempt db usid eid max_attempts.
Proof.
  destruct (create_or_update_lookup db usid eid max_attempts) as [Hlook Hrem].
  split_and!.
  - unfold get_remaining_attempts. by rewrite Hlook, Hrem.
  - by eexists.
  - intros usid' eid' Hne. unfold create_or_update_exam_attempt.
    destruct (get_exam_attempt db usid eid) as [[l ea]|] eqn:Hfind;
      [case_decide|]; try done; unfold get_exam_attempt in *; cbn.
    + apply list_find_Some in Hfind as (Hl & [? ?] & _).
      eapply list_find_insert_unselected; [done|..]; cbn;
        intros [? ?]; apply Hne; congruence.
    + apply list_find_snoc_unselected. cbn.
      intros [? ?]; apply Hne; congruence.
  - unfold create_or_update_exam_attempt at 1.
    rewrite Hlook, Hrem.
    destruct (get_exam_attempt db usid eid) as [[l ea]|]; cbn;
      rewrite decide_False by lia; by destruct (create_or_update_exam_attempt _ _ _ _).
Qed.

(** X5.  [update_remaining_attempts] and [get_remaining_attempts]: when the
    pair has a row and the integer column takes the value, the value written
    is the value read back, and the row is returned; when the column does not
    take it, the commit raises and the store is as it was; when the pair has
    no row, nothing is stored, nothing is returned, whatever the value, and
    the value read stays 0.  The rows of every other pair are as they
    were. *)
Theorem update_remaining_attempts_read_back (column_takes : Z → bool) db
    (usid eid n : Z) :
  match get_exam_attempt db usid eid with
  | Some (j, ea) =>
    if column_takes n
    then
      get_remaining_attempts
        (update_remaining_attempts column_takes db usid eid n).1 usid eid
      = n
      ∧ (update_remaining_attempts column_takes db usid eid n).2
        = inr (Some (set_remaining n ea))
      ∧ get_exam_attempt
          (update_remaining_attempts column_takes db usid eid n).1 usid eid
        = Some (j, set_remaining n ea)
    else
      update_remaining_attempts column_takes db usid eid n
      = (db, inl IntegerOutOfRange)
  | None =>
    update_remaining_attempts column_takes db usid eid n = (db, inr None)
    ∧ get_remaining_attempts db usid eid = 0
  end
  ∧ ∀ usid' eid', (usid', eid') ≠ (usid, eid) →
      get_exam_attempt
        (update_remaining_attempts column_takes db usid eid n).1 usid' eid'
      = get_exam_attempt db usid' eid'.
Proof.
  unfold update_remaining_attempts, get_remaining_attempts.
  destruct (get_exam_attempt db usid eid) as [[l ea]|] eqn:Hfind; [|done].
  destruct (column_takes n); [|done].
  unfold get_exam_attempt in *. cbn.
  pose proof Hfind as (Hl & [? ?] & _)%list_find_Some.
  assert (list_find
            (λ ea0, ea_user_subscription_id ea0 = usid ∧ ea_exam_id ea0 = eid)
            (<[l := set_remaining n ea]> (exam_attempts db))
          = Some (l, set_remaining n ea)) as Hnew.
  { by eapply list_find_insert_same. }
  rewrite Hnew. split; [done|].
  intros usid' eid' Hne.
  eapply list_find_insert_unselected; [done|..]; cbn;
    intros [? ?]; apply Hne; congruence.
Qed.

(** *** [retake_exam] *)

Lemma retake_exam_with_row now (user eid : Z) db k us pkg sub l ea :
  active_subscription_of db user now = Some (k, us) →
  subscription_plan_package us = Some pkg →
  subscription pkg = Some sub →
  get_exam_attempt db (us_id us) eid = Some (l, ea) →
  retake_exam now user eid db
  = if decide (remaining_attempts ea ≤ 0)
    then (db, inl (HTTPException 403 NoRemainingAttempts))
    else (with_exam_attempts db
            (<[l := set_remaining (remaining_attempts ea - 1) ea]>
               (exam_attempts db)),
          inr {| rar_remaining_attempts := remaining_attempts ea - 1;
                 rar_max_attempts := max_exams_or_1 sub;
                 rar_exam_id := eid;
                 rar_student_id := user |}).
Proof.
  intros Hus Hpkg Hsub Hea. unfold retake_exam.
  rewrite Hus, Hpkg, Hsub, start_ledger_query, Hea. by case_decide.
Qed.

Lemma retake_exam_without_row now (user eid : Z) db k us pkg sub :
  active_subscription_of db user now = Some (k, us) →
  subscription_plan_package us = Some pkg →
  subscription pkg = Some sub →
  get_exam_attempt db (us_id us) eid = None →
  retake_exam now user eid db
  = let row := {| ea_user_subscription_id := us_id us; ea_exam_id := eid;
                  remaining_attempts := max_exams_or_1 sub |} in
    if decide (max_exams_or_1 sub ≤ 0)
    then (with_exam_attempts db (exam_attempts db ++ [row]),
          inl (HTTPException 403 NoRemainingAttempts))
    else (with_exam_attempts db
            (exam_attempts db
             ++ [set_remaining (max_exams_or_1 sub - 1) row]),
          inr {| rar_remaining_attempts := max_exams_or_1 sub - 1;
                 rar_max_attempts := max_exams_or_1 sub;
                 rar_exam_id := eid;
                 rar_student_id := user |}).
Proof.
  intros Hus Hpkg Hsub Hea. unfold retake_exam.
  rewrite Hus, Hpkg, Hsub, start_ledger_query, Hea.
  unfold create_or_update_exam_attempt, position_of_exam_attempt.
  rewrite Hea. cbn.
  unfold get_exam_attempt in *. cbn.
  rewrite list_find_snoc_selected by done.
  case_decide; [done|]. cbn.
  by rewrite insert_app_r_alt, Nat.sub_diag by done.
Qed.

(** X6.  A retake request under an active subscription with a plan.  The
    attempts the pair has are those of its ledger row, or the plan's maximum
    if it has no row.  If there is one to take, the request succeeds, the
    ledger holds one less afterwards, the response reports that value, and
    no session, answer or result is touched.  If there is none, the request
    is refused, and the store is as it was whenever the pair had a row. *)
Theorem retake_takes_one_attempt now (user eid : Z) db k us pkg sub :
  active_subscription_of db user now = Some (k, us) →
  subscription_plan_package us = Some pkg →
  subscription pkg = Some sub →
  let before :=
    match get_exam_attempt db (us_id us) eid with
    | Some (_, ea) => remaining_attempts ea
    | None => max_exams_or_1 sub
    end in
  (0 < before →
   ∃ r, (retake_exam now user eid db).2 = inr r
        ∧ rar_remaining_attempts r = before - 1
        ∧ rar_max_attempts r = max_exams_or_1 sub
        ∧ get_remaining_attempts (retake_exam now user eid db).1 (us_id us) eid
          = before - 1)
  ∧ (before ≤ 0 →
     (retake_exam now user eid db).2
     = inl (HTTPException 403 NoRemainingAttempts)
     ∧ (is_Some (get_exam_attempt db (us_id us) eid) →
        (retake_exam now user eid db).1 = db))
  ∧ student_exams (retake_exam now user eid db).1 = student_exams db
  ∧ student_answers (retake_exam now user eid db).1 = student_answers db
  ∧ exam_results (retake_exam now user eid db).1 = exam_results db
  ∧ user_subscriptions (retake_exam now user eid db).1 = user_subscriptions db.
Proof.
  intros Hus Hpkg Hsub.
  destruct (get_exam_attempt db (us_id us) eid) as [[l ea]|] eqn:Hea; cbn zeta.
  - rewrite (retake_exam_with_row _ _ _ _ _ _ _ _ _ _ Hus Hpkg Hsub Hea).
    pose proof Hea as (Hl & [? ?] & _)%list_find_Some.
    case_decide; cbn; (split_and!; try done; try lia).
    intros _. eexists. split; [done|]. split_and!; try done.
    unfold get_remaining_attempts, get_exam_attempt in *. cbn.
    by rewrite (list_find_insert_same _ _ _ _ _ Hea).
  - rewrite (retake_exam_without_row _ _ _ _ _ _ _ _ Hus Hpkg Hsub Hea).
    cbn zeta. case_decide; cbn; (split_and!; try done; try lia).
    intros _. eexists. split; [done|]. split_and!; try done.
    unfold get_remaining_attempts, get_exam_attempt in *. cbn.
    by rewrite list_find_snoc_selected.
Qed.

(** X7.  The retake endpoint and the start endpoint charge the same ledger
    row: a retake request followed by the start of the session leaves the
    pair with two attempts less, while the session has been started once. *)
Theorem retake_then_start_takes_two now1 now2 (id : Z) db i se j exam k us
    pkg sub l ea :
  get_student_exam db id = Some (i, se) →
  get_exam db (se_exam_id se) = Some (j, exam) →
  active_subscription_of db (se_student_id se) now1 = Some (k, us) →
  can_start_at db (se_student_id se) us exam now2 →
  subscription_plan_package us = Some pkg →
  subscription pkg = Some sub →
  get_exam_attempt db (us_id us) (se_exam_id se) = Some (l, ea) →
  2 ≤ remaining_attempts ea →
  ∃ db' se',
    route_start_student_exam true now2 (se_student_id se) id
      (retake_exam now1 (se_student_id se) (se_exam_id se) db).1
    = (db', inr se')
    ∧ se_status se' = in_progress
    ∧ get_remaining_attempts db' (us_id us) (se_exam_id se)
      = remaining_attempts ea - 2.
Proof.
  intros Hse Hex Hus1 (Hb & Ha & k2 & Hus2) Hpkg Hsub Hea Hrem.
  rewrite (retake_exam_with_row _ _ _ _ _ _ _ _ _ _ Hus1 Hpkg Hsub Hea).
  rewrite decide_False by lia. cbn [fst].
  set (ea1 := set_remaining (remaining_attempts ea - 1) ea).
  set (db1 := with_exam_attempts db (<[l := ea1]> (exam_attempts db))).
  pose proof Hea as (Hl & [? ?] & _)%list_find_Some.
  assert (get_exam_attempt db1 (us_id us) (se_exam_id se) = Some (l, ea1))
    as Hea1.
  { unfold get_exam_attempt in *. cbn. by eapply list_find_insert_same. }
  unfold route_start_student_exam.
  change (get_student_exam db1 id) with (get_student_exam db id).
  rewrite Hse, decide_False by (by intros ?).
  rewrite (start_student_exam_success now2 id db1 i se j exam us pkg sub l ea1);
    try done.
  - cbn [ret]. eexists _, _. split; [done|]. split; [done|].
    unfold get_remaining_attempts, get_exam_attempt. cbn.
    rewrite list_insert_insert_eq.
    rewrite (list_find_insert_same _ _ _ _ _ Hea) by done. cbn. lia.
  - split_and!; try done. by exists k2.
  - cbn. lia.
Qed.

End Ledger.

(** * Subscriptions: the sweeper, the lazy expiry and cancellation *)
Section Subscriptions.

Context {F : Type} `{PyFloat F}.

Implicit Types (db : DB F) (t : list UserSubscription).

(** A query on a table whose rows changed, against another query on the table
    before the change. *)
Lemma list_find_related {A} (P Q : A → Prop) `{∀ x, Decision (P x)}
    `{∀ x, Decision (Q x)} (l l' : list A) :
  Forall2 (λ x y, (Q x ∧ P y ∧ x = y) ∨ (¬ Q x ∧ ¬ P y)) l l' →
  list_find P l' = list_find Q l.
Proof.
  induction 1 as [|x y l l' Hxy _ IH]; [done|]. cbn.
  destruct Hxy as [(Hx & Hy & ->)|[Hx Hy]].
  - by rewrite !decide_True by done.
  - by rewrite !decide_False, IH by done.
Qed.

(** *** One run of the sweeper, row by row *)

Lemma update_expired_subscriptions_frame commit_fails now db :
  exams (update_expired_subscriptions commit_fails now db).1 = exams db
  ∧ exam_questions (update_expired_subscriptions commit_fails now db).1
    = exam_questions db
  ∧ answers (update_expired_subscriptions commit_fails now db).1 = answers db
  ∧ student_exams (update_expired_subscriptions commit_fails now db).1
    = student_exams db
  ∧ student_answers (update_expired_subscriptions commit_fails now db).1
    = student_answers db
  ∧ exam_results (update_expired_subscriptions commit_fails now db).1
    = exam_results db
  ∧ exam_attempts (update_expired_subscriptions commit_fails now db).1
    = exam_attempts db.
Proof.
  unfold update_expired_subscriptions.
  destruct (expired_subscriptions_of now (user_subscriptions db)); [done|].
  by destruct (sweep_batches _ _ _ _ _).
Qed.

Lemma update_expired_subscriptions_row commit_fails now db (i : nat) us :
  user_subscriptions db !! i = Some us →
  ∃ failed : bool,
    user_subscriptions (update_expired_subscriptions commit_fails now db).1 !! i
    = Some (if decide (us_status us = active ∧ us_end_date us < now)
            then if failed then us else set_subscription_status expired us
            else us)
    ∧ ((∀ k, commit_fails k = false) → failed = false)
    ∧ ((∀ k, commit_fails k = true) → failed = true).
Proof.
  intros Hi. unfold update_expired_subscriptions.
  set (E := expired_subscriptions_of now (user_subscriptions db)).
  destruct (sweep_batches_spec commit_fails 0 (batches E)
              (user_subscriptions db) 0)
    as (_ & Hmem & Hrest & _).
  { rewrite concat_batches. apply expired_subscriptions_NoDup. }
  { rewrite concat_batches. intros j x Hj.
    by apply elem_of_expired_subscriptions in Hj as (? & _). }
  rewrite concat_batches in Hrest.
  destruct (decide (us_status us = active ∧ us_end_date us < now))
    as [Hel|Hnot].
  - assert ((i, us) ∈ E) as Hin.
    { apply elem_of_expired_subscriptions. tauto. }
    apply list_elem_of_lookup_1 in Hin as [j Hj].
    destruct (batches_member E j (i, us) Hj) as (b & Hb & Hib).
    exists (commit_fails (0 + j / batch_size)%nat).
    split; [|split; intros Hall; apply Hall].
    destruct E as [|p E'] eqn:HE; [by rewrite lookup_nil in Hj|].
    rewrite <- HE in *.
    specialize (Hmem _ _ _ _ Hb Hib).
    by destruct (sweep_batches commit_fails 0 (batches E)
                   (user_subscriptions db) 0).
  - exists (commit_fails 0%nat). split; [|split; intros Hall; apply Hall].
    assert (i ∉ E.*1) as Hout.
    { intros ([i' x] & Heq & Hx)%list_elem_of_fmap. cbn in Heq. subst i'.
      apply elem_of_expired_subscriptions in Hx as (Hx & ? & ?).
      rewrite Hi in Hx. injection Hx as <-. tauto. }
    destruct E as [|p E'] eqn:HE; [done|].
    rewrite <- HE in *. specialize (Hrest i Hout).
    destruct (sweep_batches commit_fails 0 (batches E)
                (user_subscriptions db) 0).
    cbn in *. by rewrite Hrest.
Qed.

Lemma update_expired_subscriptions_length commit_fails now db :
  length (user_subscriptions (update_expired_subscriptions commit_fails now db).1)
  = length (user_subscriptions db).
Proof.
  unfold update_expired_subscriptions.
  set (E := expired_subscriptions_of now (user_subscriptions db)).
  destruct (sweep_batches_spec commit_fails 0 (batches E)
              (user_subscriptions db) 0)
    as (Hlen & _).
  { rewrite concat_batches. apply expired_subscriptions_NoDup. }
  { rewrite concat_batches. intros j x Hj.
    by apply elem_of_expired_subscriptions in Hj as (? & _). }
  destruct E; [done|].
  by destruct (sweep_batches _ _ _ _ _).
Qed.

(** How the sweeper relates the table it finds to the table it leaves. *)
Lemma update_expired_subscriptions_rows commit_fails now db :
  Forall2 (λ us us',
             us' = us
             ∨ (us_status us = active ∧ us_end_date us < now
                ∧ us' = set_subscription_status expired us))
          (user_subscriptions db)
          (user_subscriptions
             (update_expired_subscriptions commit_fails now db).1).
Proof.
  apply Forall2_same_length_lookup_2.
  - by rewrite update_expired_subscriptions_length.
  - intros i us us' Hi Hi'.
    destruct (update_expired_subscriptions_row commit_fails now db i us Hi)
      as (failed & Hrow & _).
    rewrite Hrow in Hi'. injection Hi' as <-.
    case_decide; [|by left]. destruct failed; [by left|right; tauto].
Qed.

(** X8.  The sweeper never takes away an entitlement that still holds: at any
    instant not earlier than the sweeper's clock reading, the active
    subscription resolved for a user after the run is the one resolved
    before it, whatever batches failed. *)
Theorem sweeper_keeps_entitlements commit_fails (now now' user : Z) db :
  now ≤ now' →
  active_subscription_of (update_expired_subscriptions commit_fails now db).1
    user now'
  = active_subscription_of db user now'.
Proof.
  intros Hle. unfold active_subscription_of.
  apply list_find_unselected.
  eapply Forall2_impl; [apply update_expired_subscriptions_rows|].
  intros us us' [->|(Hact & Hend & ->)]; [by left|right].
  cbn. split; intros (_ & ? & ?); [lia|done].
Qed.

(** X9.  The number the sweeper returns is the number of rows its query
    found, whatever became of the commits: rows of batches that were rolled
    back are counted too.  If every commit fails the table is left as it was
    and that number is still returned. *)
Theorem sweeper_counts_rolled_back_rows commit_fails (now : Z) db :
  (update_expired_subscriptions commit_fails now db).2
  = Z.of_nat (length (expired_subscriptions_of now (user_subscriptions db)))
  ∧ ((∀ k, commit_fails k = true) →
     user_subscriptions (update_expired_subscriptions commit_fails now db).1
     = user_subscriptions db).
Proof.
  split.
  - unfold update_expired_subscriptions.
    set (E := expired_subscriptions_of now (user_subscriptions db)).
    destruct (sweep_batches_spec commit_fails 0 (batches E)
                (user_subscriptions db) 0)
      as (_ & _ & _ & Hcount).
    { rewrite concat_batches. apply expired_subscriptions_NoDup. }
    { rewrite concat_batches. intros j x Hj.
      by apply elem_of_expired_subscriptions in Hj as (? & _). }
    rewrite concat_batches in Hcount.
    destruct E as [|p E'] eqn:HE; [done|]. rewrite <- HE in *.
    destruct (sweep_batches _ _ _ _ _). cbn in *. lia.
  - intros Hall. apply list_eq_same_length with
      (length (user_subscriptions db));
      [done|by rewrite update_expired_subscriptions_length|].
    intros i us' us _ Hi' Hi.
    destruct (update_expired_subscriptions_row commit_fails now db i us Hi)
      as (failed & Hrow & _ & Hfailed).
    rewrite Hrow, (Hfailed Hall) in Hi'. injection Hi' as <-.
    by case_decide.
Qed.

(** X10.  After a run in which every commit went through, no row is left for
    the sweeper: a second run, at the same reading or an earlier one, finds
    nothing, returns 0 and leaves the store as it is. *)
Theorem sweeper_run_twice commit_fails commit_fails' (now now' : Z) db :
  (∀ k, commit_fails k = false) →
  now' ≤ now →
  update_expired_subscriptions commit_fails' now'
    (update_expired_subscriptions commit_fails now db).1
  = ((update_expired_subscriptions commit_fails now db).1, 0).
Proof.
  intros Hok Hle.
  set (db' := (update_expired_subscriptions commit_fails now db).1).
  assert (expired_subscriptions_of now' (user_subscriptions db') = []) as HE.
  { apply filter_none. intros [i us'] Hin [Hact Hend]. cbn in *.
    apply elem_of_lookup_imap in Hin as (i' & x & [= <- <-] & Hi').
    destruct (lookup_lt_is_Some_2 (user_subscriptions db) i) as [us Hi].
    { unfold db' in Hi'. apply lookup_lt_Some in Hi'.
      by rewrite update_expired_subscriptions_length in Hi'. }
    destruct (update_expired_subscriptions_row commit_fails now db i us Hi)
      as (failed & Hrow & Hfailed & _).
    unfold db' in Hi'. rewrite Hrow, (Hfailed Hok) in Hi'.
    injection Hi' as <-. case_decide as Hd; [done|].
    apply Hd. split; [done|lia]. }
  unfold update_expired_subscriptions at 1. by rewrite HE.
Qed.

(** *** The lazy expiry of [get_user_subscriptions] *)

(** What the loop leaves at a position. *)
Lemma check_user_subscriptions_fold (now : nat → Z)
    (subscriptions : list (nat * UserSubscription))
    (st : list UserSubscription * bool) :
  NoDup subscriptions.*1 →
  (∀ j us, (j, us) ∈ subscriptions → st.1 !! j = Some us) →
  let step := λ (st : list UserSubscription * bool)
                (p : nat * UserSubscription),
    if decide (us_status p.2 = active)
    then (<[p.1 := (check_subscription_status (now p.1) p.2).1]> st.1,
          st.2 || negb (check_subscription_status (now p.1) p.2).2)
    else st in
  (∀ i, (foldl step st subscriptions).1 !! i
        = if decide (i ∈ subscriptions.*1)
          then (λ us, if decide (us_status us = active
                                 ∧ us_end_date us < now i)
                      then set_subscription_status expired us else us)
               <$> st.1 !! i
          else st.1 !! i)
  ∧ ((foldl step st subscriptions).2 = false →
     (foldl step st subscriptions).1 = st.1).
Proof.
  intros Hnd Hin step. revert st Hnd Hin.
  induction subscriptions as [|[j us] subs IH]; intros st Hnd Hin.
  - cbn. split; [|done]. intros i. by rewrite decide_False by apply not_elem_of_nil.
  - cbn [foldl]. rewrite fmap_cons in Hnd. apply NoDup_cons in Hnd as [Hj Hnd].
    cbn [fst] in Hj.
    pose proof (Hin j us ltac:(left)) as Hjus.
    assert (∀ j' us', (j', us') ∈ subs → (step st (j, us)).1 !! j' = Some us')
      as Hin'.
    { intros j' us' Hin'. assert (j' ≠ j) as Hne.
      { intros ->. apply Hj. by apply (list_elem_of_fmap_2 fst _ (j, us')). }
      unfold step. cbn [fst snd].
      destruct (decide (us_status us = active)); cbn [fst snd].
      - rewrite list_lookup_insert_ne by done. apply Hin. by right.
      - apply Hin. by right. }
    destruct (IH (step st (j, us)) Hnd Hin') as [IHrow IHflag].
    assert ((step st (j, us)).1 !! j
            = Some (if decide (us_status us = active ∧ us_end_date us < now j)
                    then set_subscription_status expired us else us)) as Hstep.
    { unfold step, check_subscription_status. cbn [fst snd].
      destruct (decide (us_status us = active)) as [Hact|Hact]; cbn [fst snd].
      - rewrite list_lookup_insert_eq by (by eapply lookup_lt_Some).
        f_equal.
        by destruct (decide (us_status us = active ∧ us_end_date us < now j)).
      - rewrite Hjus. f_equal. rewrite decide_False; [done|]. tauto. }
    split.
    + intros i. rewrite IHrow. cbn [fmap list_fmap fst].
      destruct (decide (i = j)) as [->|Hne].
      * rewrite (decide_False (P:=j ∈ subs.*1)) by done.
        rewrite (decide_True (P:=j ∈ j :: subs.*1)) by left.
        rewrite Hjus. exact Hstep.
      * assert ((step st (j, us)).1 !! i = st.1 !! i) as ->.
        { unfold step. cbn [fst snd].
          destruct (decide (us_status us = active)); [|done]. cbn [fst].
          by rewrite list_lookup_insert_ne. }
        destruct (decide (i ∈ subs.*1)).
        -- by rewrite decide_True by (by right).
        -- rewrite decide_False; [done|]. by intros [?|?]%elem_of_cons.
    + intros Hflag. rewrite (IHflag Hflag).
      assert ((foldl step (step st (j, us)) subs).2 = false
              → (step st (j, us)).2 = false) as Hmono.
      { clear. generalize (step st (j, us)). induction subs as [|p subs IH];
          intros st'; [done|]. cbn [foldl]. intros Hf%IH. revert Hf.
        unfold step. cbn [fst snd].
        destruct (decide (us_status p.2 = active)); [|done]. cbn [fst snd].
        by intros [? _]%orb_false_iff. }
      specialize (Hmono Hflag). revert Hmono.
      unfold step, check_subscription_status. cbn [fst snd].
      destruct (decide (us_status us = active)); [|done].
      destruct (decide (us_status us = active ∧ us_end_date us < now j));
        cbn [fst snd negb].
      * by rewrite orb_true_r.
      * intros _. by apply list_insert_id.
Qed.

Lemma get_user_subscriptions_row commit_ok (now : nat → Z) (user : Z) db
    (i : nat) us :
  user_subscriptions db !! i = Some us →
  user_subscriptions (get_user_subscriptions commit_ok now user db).1 !! i
  = Some (if decide (us_user_id us = user ∧ us_status us = active
                     ∧ us_end_date us < now i)
          then if commit_ok then set_subscription_status expired us else us
          else us).
Proof.
  intros Hi. unfold get_user_subscriptions, check_user_subscriptions.
  set (subs := filter (λ p, us_user_id p.2 = user)
                 (imap (λ i us, (i, us)) (user_subscriptions db))).
  destruct (check_user_subscriptions_fold now subs (user_subscriptions db, false))
    as [Hrow Hflag].
  { unfold subs. apply NoDup_fmap_filter. rewrite fmap_imap.
    rewrite (imap_ext _ (λ i _, i)) by done.
    rewrite (imap_seq_0 (user_subscriptions db) (λ i, i)), list_fmap_id.
    apply NoDup_seq. }
  { intros j x [_ Hin]%list_elem_of_filter. cbn.
    by apply elem_of_lookup_imap in Hin as (j' & y & [= <- <-] & ?). }
  cbn [fst snd] in *.
  match goal with
  | |- context [foldl ?f ?s subs] => set (st := foldl f s subs) in *
  end.
  assert (i ∈ subs.*1 ↔ us_user_id us = user) as Hmem.
  { split.
    - intros ([i' x] & Heq & [Hu Hin]%list_elem_of_filter)%list_elem_of_fmap.
      cbn in *. subst i'.
      apply elem_of_lookup_imap in Hin as (j' & y & [= <- <-] & Hy).
      rewrite Hi in Hy. by injection Hy as <-.
    - intros Hu. apply (list_elem_of_fmap_2 fst _ (i, us)).
      apply list_elem_of_filter. split; [done|].
      apply elem_of_lookup_imap. by exists i, us. }
  assert (st.1 !! i
          = Some (if decide (us_user_id us = user ∧ us_status us = active
                             ∧ us_end_date us < now i)
                  then set_subscription_status expired us else us)) as Hst.
  { rewrite Hrow, Hi. cbn. case_decide as Hd.
    - apply Hmem in Hd. f_equal. by repeat case_decide; try tauto.
    - rewrite decide_False; [done|]. rewrite Hmem in Hd. tauto. }
  destruct (st.2) eqn:Hf; cbn.
  - destruct commit_ok; cbn; [done|]. rewrite Hi. by case_decide.
  - rewrite (Hflag eq_refl) in Hst. cbn in Hst. rewrite Hst.
    f_equal. case_decide; [|done]. destruct commit_ok; [done|].
    rewrite Hi in Hst. by injection Hst.
Qed.

Lemma get_user_subscriptions_length commit_ok (now : nat → Z) (user : Z) db :
  length (user_subscriptions (get_user_subscriptions commit_ok now user db).1)
  = length (user_subscriptions db).
Proof.
  apply Nat.le_antisymm.
  - apply Nat.nlt_ge. intros Hlt.
    destruct (lookup_lt_is_Some_2
                (user_subscriptions
                   (get_user_subscriptions commit_ok now user db).1)
                (length (user_subscriptions db))) as [x Hx]; [lia|].
    unfold get_user_subscriptions in Hx. cbn in Hx.
    match type of Hx with
    | context [if ?b then _ else _] => destruct b eqn:Hb
    end; cbn in Hx.
    + unfold check_user_subscriptions in Hx.
      match type of Hx with
      | context [foldl ?f ?s ?l] =>
        assert (∀ l' st, length (foldl f st l').1 = length st.1) as Hlen
      end.
      { clear. induction l' as [|p l' IH]; intros st; [done|].
        cbn [foldl]. rewrite IH. case_decide; [|done]. cbn.
        by rewrite length_insert. }
      apply lookup_lt_Some in Hx. rewrite Hlen in Hx. cbn in Hx. lia.
    + apply lookup_lt_Some in Hx. lia.
  - apply Nat.nlt_ge. intros Hlt.
    destruct (lookup_lt_is_Some_2 (user_subscriptions db)
                (length (user_subscriptions
                           (get_user_subscriptions commit_ok now user db).1)))
      as [x Hx]; [lia|].
    pose proof (get_user_subscriptions_row commit_ok now user db _ x Hx) as Hr.
    apply lookup_lt_Some in Hr. lia.
Qed.

(** X11.  [get_user_subscriptions] expires lazily: with the commit going
    through, a row of the user that is [active] with its [end_date] before
    the reading taken for it becomes [expired], and every other row of the
    table stays as it is; with the commit failing the table is left as it
    was.  The rows returned are the user's rows of the table so left.  No
    entitlement that still holds at or after the readings is taken away. *)
Theorem listing_expires_lazily commit_ok (now : nat → Z) (user : Z) db :
  (∀ i us, user_subscriptions db !! i = Some us →
     user_subscriptions (get_user_subscriptions commit_ok now user db).1 !! i
     = Some (if decide (us_user_id us = user ∧ us_status us = active
                        ∧ us_end_date us < now i)
             then if commit_ok then set_subscription_status expired us else us
             else us))
  ∧ (get_user_subscriptions commit_ok now user db).2
    = filter (λ us, us_user_id us = user)
        (user_subscriptions (get_user_subscriptions commit_ok now user db).1)
  ∧ (∀ u now', (∀ i, now i ≤ now') →
       active_subscription_of (get_user_subscriptions commit_ok now user db).1
         u now'
       = active_subscription_of db u now').
Proof.
  split; [apply get_user_subscriptions_row|]. split; [done|].
  intros u now' Hnow. unfold active_subscription_of.
  apply list_find_unselected, Forall2_same_length_lookup_2.
  - by rewrite get_user_subscriptions_length.
  - intros i us us' Hi Hi'.
    rewrite (get_user_subscriptions_row commit_ok now user db i us Hi) in Hi'.
    injection Hi' as <-. case_decide as Hd; [|by left].
    destruct commit_ok; [|by left]. right. destruct Hd as (_ & ? & ?).
    specialize (Hnow i). cbn. split; intros (_ & ? & ?); [lia|done].
Qed.

(** *** Cancellation *)

(** X12.  Once a subscription is cancelled it is never resolved as an
    entitlement again: with unique subscription ids, the active subscription
    of any user at any instant is, after the cancellation, the one the store
    before it gives when the cancelled row is passed over. *)
Theorem cancelled_subscription_is_passed_over (id user now : Z) db i us :
  NoDup (us_id <$> user_subscriptions db) →
  get_user_subscription db id = Some (i, us) →
  (cancel_user_subscription id db).2 = Some (set_subscription_status cancelled us)
  ∧ active_subscription_of (cancel_user_subscription id db).1 user now
    = list_find (λ us, (us_user_id us = user ∧ us_status us = active
                        ∧ now ≤ us_end_date us) ∧ us_id us ≠ id)
                (user_subscriptions db).
Proof.
  intros Hnd Hget. unfold cancel_user_subscription. rewrite Hget.
  split; [done|]. cbn. unfold active_subscription_of. cbn.
  pose proof Hget as (Hi & Hid & _)%list_find_Some.
  apply list_find_related, Forall2_same_length_lookup_2.
  - by rewrite length_insert.
  - intros j x y Hx Hy. destruct (decide (j = i)) as [->|Hne].
    + rewrite list_lookup_insert_eq in Hy by (by eapply lookup_lt_Some).
      simplify_eq. right. cbn. split; [tauto|]. by intros (_ & ? & _).
    + rewrite list_lookup_insert_ne in Hy by done. simplify_eq.
      assert (us_id x ≠ us_id us) as Hneq.
      { intros Heq. apply Hne.
        eapply (NoDup_lookup _ _ _ (us_id us) Hnd);
          rewrite list_lookup_fmap.
        - by rewrite Hx; cbn; rewrite Heq.
        - by rewrite Hi. }
      destruct (decide (us_user_id x = user ∧ us_status x = active
                        ∧ now ≤ us_end_date x)); [left|right]; tauto.
Qed.

End Subscriptions.

(** * Sessions, answers and results at the endpoints *)
Section Results.

Context {F : Type} `{PyFloat F}.

Implicit Types (db : DB F) (rows : list (ExamQuestion F))
  (sas : list StudentAnswer).

(** *** Creating a session twice *)

(** A create request that returns a session has either found it or added it
    as the last row of the table, under the next id. *)
Lemma route_create_student_exam_inv now_route now_crud (user : Z) sec db db'
    se :
  route_create_student_exam now_route now_crud user sec db = (db', inr se) →
  sec_student_id sec = user
  ∧ is_Some (get_exam db (sec_exam_id sec))
  ∧ exams db' = exams db
  ∧ ((∃ p, list_find (λ se, se_student_id se = sec_student_id sec
                            ∧ se_exam_id se = sec_exam_id sec)
                     (student_exams db) = Some (p, se))
       ∧ db' = db
     ∨ list_find (λ se, se_student_id se = sec_student_id sec
                        ∧ se_exam_id se = sec_exam_id sec)
                 (student_exams db) = None
       ∧ student_exams db' = student_exams db ++ [se]
       ∧ se = {| se_id := next_id (se_id <$> student_exams db);
                 se_student_id := sec_student_id sec;
                 se_exam_id := sec_exam_id sec;
                 se_status := sec_status sec |}).
Proof.
  unfold route_create_student_exam, create_student_exam, raise, ret.
  intros Hc.
  destruct (decide (sec_student_id sec ≠ user)) as [|Heq%dec_stable];
    [done|].
  destruct (get_exam db (sec_exam_id sec)) as [[j exam]|]; [|done].
  split; [done|]. split; [done|].
  destruct (list_find _ (student_exams db)) as [[p existing]|] eqn:Hfind.
  { simplify_eq. split; [done|]. left. split; [by exists p|done]. }
  repeat case_match; simplify_eq.
  match goal with
  | |- context [create_or_update_exam_attempt ?d ?u ?e ?m] =>
    destruct (create_or_update_frame d u e m)
      as (Hexams & _ & _ & Hsessions & _)
  end.
  split; [by rewrite Hexams|]. right. split; [done|].
  by rewrite Hsessions.
Qed.

(** X13.  Creating a session is idempotent: once a create request has
    returned a session, any later create request of the same student for the
    same exam returns that session and leaves the store as it is, whatever
    its clock readings, its [status] field and the state of the
    subscription. *)
Theorem create_session_twice now_route now_crud now_route' now_crud'
    (user : Z) sec sec' db db' se :
  route_create_student_exam now_route now_crud user sec db = (db', inr se) →
  sec_student_id sec' = sec_student_id sec →
  sec_exam_id sec' = sec_exam_id sec →
  route_create_student_exam now_route' now_crud' user sec' db' = (db', inr se).
Proof.
  intros (Huser & [je Hexam] & Hexams & Hcase)%route_create_student_exam_inv
    Hs He.
  unfold route_create_student_exam.
  rewrite Hs, He, decide_False by (by intros ?).
  unfold get_exam in *. rewrite Hexams, Hexam. destruct je as [j exam].
  destruct Hcase as [[[p Hfind] ->]|(Hnone & Hsessions & Hse)].
  - by rewrite Hfind.
  - rewrite Hsessions, (list_find_snoc_selected _ _ _ Hnone); [done|].
    by rewrite Hse.
Qed.

(** *** Submitting an answer again *)

Lemma answered_questions_snoc sas (a : StudentAnswer) :
  answered_questions_of (sas ++ [a])
  = <[sa_question_id a := a]> (answered_questions_of sas).
Proof. unfold answered_questions_of. by rewrite foldl_app. Qed.

Lemma answered_questions_without sas (q : Z) :
  answered_questions_of (filter (λ b, sa_question_id b ≠ q) sas)
  = delete q (answered_questions_of sas).
Proof.
  apply map_eq. intros k. unfold answered_questions_of.
  rewrite (dict_comprehension_lookup sa_question_id id), list_filter_filter.
  destruct (decide (k = q)) as [->|Hne].
  - rewrite lookup_delete_eq, filter_none; [done|]. by intros b _ [? ?].
  - rewrite lookup_delete_ne by done.
    rewrite (dict_comprehension_lookup sa_question_id id).
    erewrite (list_filter_iff _ (λ b, sa_question_id b = k)); [done|].
    intros b. split; [by intros [? _]|]. intros Hb. split; [done|].
    by rewrite Hb.
Qed.

(** The score depends on the answers only through the last answer of each
    question. *)
Lemma compute_score_last_answer (tq : Z) rows sas (a : StudentAnswer) :
  compute_score tq rows (sas ++ [a])
  = compute_score tq rows
      (filter (λ b, sa_question_id b ≠ sa_question_id a) sas ++ [a]).
Proof.
  unfold compute_score.
  by rewrite !answered_questions_snoc, answered_questions_without,
    insert_delete_eq.
Qed.

(** X14.  Submitting an answer never replaces a row, it adds one, and the
    last answer of a question is the one that counts: after an answer has
    been accepted, the score of the session is what it would be had the
    earlier answers to the same question never been submitted.  Whether the
    new answer is correct is read from the [Answer] table; the flag sent
    with the request plays no part. *)
Theorem resubmitted_answer_replaces (user id tq : Z) sac rows db db' a :
  route_create_student_answer user id sac db = (db', inr a) →
  get_student_answers db' id = get_student_answers db id ++ [a]
  ∧ sa_question_id a = sac_question_id sac
  ∧ compute_score tq rows (get_student_answers db' id)
    = compute_score tq rows
        (filter (λ b, sa_question_id b ≠ sac_question_id sac)
                (get_student_answers db id) ++ [a])
  ∧ ∀ flag,
      route_create_student_answer user id
        {| sac_student_exam_id := sac_student_exam_id sac;
           sac_question_id := sac_question_id sac;
           sac_answer_id := sac_answer_id sac;
           sac_is_correct := flag |} db
      = (db', inr a).
Proof.
  unfold route_create_student_answer, create_student_answer, raise, ret.
  destruct (get_student_exam db id) as [[i se]|]; [|done].
  case_decide; [done|]. case_decide as Hid; [done|].
  intros [= <- <-].
  match goal with
  | |- context [student_answers db ++ [?row]] => set (new := row)
  end.
  assert (get_student_answers
            (with_student_answers db (student_answers db ++ [new])) id
          = get_student_answers db id ++ [new]) as Hnew.
  { unfold get_student_answers. cbn. rewrite filter_app, filter_cons.
    by rewrite decide_True by done. }
  rewrite Hnew. split_and!; try done.
  - apply compute_score_last_answer.
  - intros flag. cbn. by rewrite decide_False by (by intros ?).
Qed.

(** *** Reading a result *)

Lemma no_result_no_attempt db (id : Z) :
  get_exam_result_by_student_exam db id = None →
  next_attempt_number db id = 1.
Proof.
  intros Hnone. unfold next_attempt_number, latest_attempt_number,
    attempt_numbers_of.
  rewrite filter_none; [done|]. intros r Hr Hid.
  apply list_find_None in Hnone. rewrite Forall_forall in Hnone.
  by apply (Hnone r).
Qed.

Lemma read_exam_result_allowed (user : Z) (role : UserRole) (se : StudentExam) :
  se_student_id se = user ∨ is_staff role = true →
  bool_decide (se_student_id se ≠ user) && negb (is_staff role) = false.
Proof.
  intros [Hu| ->]; [|by rewrite andb_false_r].
  by rewrite bool_decide_eq_false_2 by (by intros ?).
Qed.

(** X15.  The result endpoint returns the first result row of the session.
    When the session already has a result, that row is what a plain read
    returns, with the store untouched; and that same row is what a read with
    [recalculate] returns, although the recalculation has completed the
    session once more: a new result row with the next attempt number has
    been added and the session has been put to [completed], whatever its
    status was. *)
Theorem recalculation_returns_first_result (user : Z) (role : UserRole)
    (id : Z) db i se p r0 j exam tq :
  get_student_exam db id = Some (i, se) →
  se_student_id se = user ∨ is_staff role = true →
  get_exam_result_by_student_exam db id = Some (p, r0) →
  get_exam db (se_exam_id se) = Some (j, exam) →
  max_questions exam = Some tq →
  read_exam_result user role id false db = (db, inr r0)
  ∧ ∃ db',
      read_exam_result user role id true db = (db', inr r0)
      ∧ exam_results db'
        = exam_results db
          ++ [result_row db id tq
                (compute_score tq (exam_questions_of db exam)
                   (get_student_answers db id))]
      ∧ student_exams db' = <[i := set_status completed se]> (student_exams db).
Proof.
  intros Hse Hperm Hres Hex Htq. unfold read_exam_result.
  rewrite Hse, (read_exam_result_allowed _ _ _ Hperm), Hres.
  split; [done|].
  rewrite (complete_student_exam_success _ _ _ _ _ _ _ Hse Hex Htq).
  eexists. split.
  - unfold get_exam_result_by_student_exam in *. cbn.
    by rewrite (list_find_app_l _ _ _ _ _ Hres).
  - done.
Qed.

(** X16.  Reading the result of a session that has none.  If the session is
    not [completed] and no recalculation is asked for, the request is
    refused and nothing changes.  If the session is [completed], or a
    recalculation is asked for, the endpoint completes the session itself:
    it returns the row of that completion, which is attempt number 1, and
    leaves the session [completed] even when it was [not_started] or
    [in_progress]. *)
Theorem reading_a_missing_result (user : Z) (role : UserRole) (id : Z)
    (recalculate : bool) db i se j exam tq :
  get_student_exam db id = Some (i, se) →
  se_student_id se = user ∨ is_staff role = true →
  get_exam_result_by_student_exam db id = None →
  get_exam db (se_exam_id se) = Some (j, exam) →
  max_questions exam = Some tq →
  if bool_decide (se_status se = completed) || recalculate
  then
    ∃ db' r,
      read_exam_result user role id recalculate db = (db', inr r)
      ∧ r = result_row db id tq
              (compute_score tq (exam_questions_of db exam)
                 (get_student_answers db id))
      ∧ attempt_number r = 1
      ∧ exam_results db' = exam_results db ++ [r]
      ∧ student_exams db' = <[i := set_status completed se]> (student_exams db)
  else
    read_exam_result user role id recalculate db
    = (db, inl ExamMustBeCompletedFirst).
Proof.
  intros Hse Hperm Hres Hex Htq. unfold read_exam_result.
  rewrite Hse, (read_exam_result_allowed _ _ _ Hperm), Hres.
  destruct (bool_decide (se_status se = completed) || recalculate); [|done].
  rewrite (complete_student_exam_success _ _ _ _ _ _ _ Hse Hex Htq).
  eexists _, _. split.
  - unfold get_exam_result_by_student_exam in *. cbn.
    by rewrite (list_find_snoc_selected _ _ _ Hres).
  - split_and!; try done. cbn. by apply no_result_no_attempt.
Qed.

(** *** All attempts of an exam *)

Lemma insert_by_attempt_number_perm (r : ExamResult F) (l : list (ExamResult F)) :
  insert_by_attempt_number r l ≡ₚ r :: l.
Proof.
  induction l as [|x l IH]; [done|]. cbn. case_decide; [done|].
  by rewrite IH, Permutation_swap.
Qed.

Lemma sort_by_attempt_number_perm (l : list (ExamResult F)) :
  sort_by_attempt_number l ≡ₚ l.
Proof.
  induction l as [|x l IH]; [done|]. cbn.
  by rewrite insert_by_attempt_number_perm, IH.
Qed.

Lemma insert_by_attempt_number_sorted (r : ExamResult F)
    (l : list (ExamResult F)) :
  StronglySorted (λ x y, attempt_number x ≤ attempt_number y) l →
  StronglySorted (λ x y, attempt_number x ≤ attempt_number y)
    (insert_by_attempt_number r l).
Proof.
  induction 1 as [|x l Hl IH Hx]; cbn.
  - by repeat constructor.
  - case_decide as Hle.
    + constructor; [by constructor|]. constructor; [done|].
      eapply Forall_impl; [exact Hx|]. cbn. intros y ?. lia.
    + constructor; [done|].
      rewrite insert_by_attempt_number_perm. constructor; [lia|done].
Qed.

Lemma sort_by_attempt_number_sorted (l : list (ExamResult F)) :
  StronglySorted (λ x y, attempt_number x ≤ attempt_number y)
    (sort_by_attempt_number l).
Proof.
  induction l as [|x l IH]; [constructor|]. cbn.
  by apply insert_by_attempt_number_sorted.
Qed.

(** The results of several sessions, one session after the other, against
    one pass over the table. *)
Lemma results_by_session (ids : list Z) (l : list (ExamResult F)) :
  NoDup ids →
  ids ≫= (λ id, filter (λ r, er_student_exam_id r = id) l)
  ≡ₚ filter (λ r, er_student_exam_id r ∈ ids) l.
Proof.
  induction 1 as [|id ids Hid Hnd IH].
  - cbn. rewrite filter_none; [done|]. intros r _ ?%elem_of_nil. done.
  - rewrite bind_cons, IH. clear IH.
    induction l as [|r l IHl]; [done|].
    rewrite !filter_cons.
    destruct (decide (er_student_exam_id r = id)) as [Heq|Hne].
    + rewrite decide_False by (by rewrite Heq).
      rewrite decide_True by (rewrite Heq; left). cbn. by rewrite IHl.
    + destruct (decide (er_student_exam_id r ∈ ids)) as [Hin|Hout].
      * rewrite decide_True by (by right).
        by rewrite <- Permutation_middle, IHl.
      * rewrite decide_False; [done|]. by intros [?|?]%elem_of_cons.
Qed.

(** X17.  The attempts listing of an exam returns the result rows of the
    caller's sessions on that exam, each row once, in ascending order of
    attempt number. *)
Theorem all_attempts_in_order (user eid : Z) db :
  NoDup (se_id <$> student_exams db) →
  is_Some (get_exam db eid) →
  ∃ l,
    get_all_exam_attempts user eid db = inr l
    ∧ StronglySorted (λ x y, attempt_number x ≤ attempt_number y) l
    ∧ l ≡ₚ filter
             (λ r, er_student_exam_id r
                   ∈ se_id <$> filter (λ se, se_exam_id se = eid
                                             ∧ se_student_id se = user)
                                      (student_exams db))
             (exam_results db).
Proof.
  intros Hnd [[j exam] Hex]. unfold get_all_exam_attempts. rewrite Hex.
  set (sessions := filter (λ se, se_exam_id se = eid ∧ se_student_id se = user)
                          (student_exams db)).
  set (results := sessions ≫= (λ student_exam,
          sort_by_attempt_number
            (filter (λ r, er_student_exam_id r = se_id student_exam)
                    (exam_results db)))).
  assert (results
          ≡ₚ filter (λ r, er_student_exam_id r ∈ se_id <$> sessions)
               (exam_results db)) as Hperm.
  { rewrite <- results_by_session
      by (by apply NoDup_fmap_filter).
    unfold results. clear. induction sessions as [|se l IH]; [done|].
    rewrite fmap_cons, !bind_cons, IH.
    by rewrite sort_by_attempt_number_perm. }
  assert (∃ l, match sessions with
               | [] => inr []
               | _ => match results with
                      | [] => inr []
                      | _ => inr (sort_by_attempt_number results)
                      end
               end = inr (B:=list (ExamResult F)) (A:=Exception) l
               ∧ l = sort_by_attempt_number results) as (l & -> & ->).
  { destruct sessions; [by eexists|]. destruct results; by eexists. }
  eexists. split; [done|]. split; [apply sort_by_attempt_number_sorted|].
  by rewrite sort_by_attempt_number_perm.
Qed.

(** *** The answers of all attempts *)

Lemma foldl_skip {A V} (key : A → Z) (val : A → V) (c : Z) (l : list A)
    (d : gmap Z V) :
  foldl (λ d x, if decide (key x = c) then d else <[key x := val x]> d) d l
  = foldl (λ d x, <[key x := val x]> d) d (filter (λ x, key x ≠ c) l).
Proof.
  revert d. induction l as [|x l IH]; intros d; [done|].
  cbn [foldl]. rewrite filter_cons, IH.
  destruct (decide (key x = c)) as [Heq|Hne].
  - by rewrite decide_False by (by intros ?).
  - by rewrite decide_True by done.
Qed.

(** The greatest attempt number of the sorted results is the latest attempt
    number of the session. *)
Lemma max_of_sorted_results db (id : Z) (r : ExamResult F)
    (rs : list (ExamResult F)) :
  sort_by_attempt_number
    (filter (λ r, er_student_exam_id r = id) (exam_results db)) = r :: rs →
  latest_attempt_number db id
  = Some (foldr Z.max (attempt_number r) (attempt_number <$> rs)).
Proof.
  intros Hsorted.
  assert (attempt_number r :: (attempt_number <$> rs)
          ≡ₚ attempt_numbers_of db id) as Hperm.
  { unfold attempt_numbers_of. rewrite <- fmap_cons, <- Hsorted.
    by rewrite sort_by_attempt_number_perm. }
  pose proof (latest_attempt_number_spec db id) as Hl.
  destruct (latest_attempt_number db id) as [m|].
  - destruct Hl as [Hin Hmax].
    destruct (foldr_max_spec (attempt_number r) (attempt_number <$> rs))
      as [Hin' Hmax'].
    f_equal. apply Z.le_antisymm.
    + apply Hmax'. by rewrite Hperm.
    + apply Hmax. by rewrite <- Hperm.
  - rewrite Hl in Hperm. by apply Permutation_nil_r in Hperm.
Qed.

(** X18.  What [get_student_answers_all_attempts] reports for a session with
    results.  The current attempt is the latest attempt number, or the one
    after it when the session is [in_progress].  Under that number the
    dictionary holds the answers at hand, or nothing at all when there are
    none: the result numbered as the current attempt is left out either way.
    Under any other number it holds the figures of the result so numbered,
    if there is one. *)
Theorem attempts_report_entries (id : Z) db i se :
  get_student_exam db id = Some (i, se) →
  get_exam_result_by_student_exam db id ≠ None →
  let current_attempt :=
    if decide (se_status se = in_progress)
    then next_attempt_number db id else next_attempt_number db id - 1 in
  ∃ d,
    get_student_answers_all_attempts db id = Some d
    ∧ d !! current_attempt
      = match get_student_answers db id with
        | [] => None
        | _ => Some (CurrentAnswers (get_student_answers db id))
        end
    ∧ ∀ n, n ≠ current_attempt →
        d !! n
        = PastAttempt
          <$> last (filter (λ r, attempt_number r = n)
                      (sort_by_attempt_number
                         (filter (λ r, er_student_exam_id r = id)
                                 (exam_results db)))).
Proof.
  intros Hse Hres. unfold get_student_answers_all_attempts. rewrite Hse.
  destruct (sort_by_attempt_number _) as [|r rs] eqn:Hsorted.
  { exfalso. apply Hres. apply list_find_None, Forall_forall. intros x Hx Hid.
    assert (x ∈ sort_by_attempt_number
                  (filter (λ r, er_student_exam_id r = id) (exam_results db)))
      as Hin.
    { rewrite sort_by_attempt_number_perm. by apply list_elem_of_filter. }
    rewrite Hsorted in Hin. by apply elem_of_nil in Hin. }
  unfold next_attempt_number. rewrite (max_of_sorted_results _ _ _ _ Hsorted).
  set (max_attempt := foldr Z.max (attempt_number r) (attempt_number <$> rs)).
  cbn zeta.
  assert ((if decide (se_status se = in_progress)
           then max_attempt + 1 else max_attempt + 1 - 1)
          = (if decide (se_status se = in_progress)
             then max_attempt + 1 else max_attempt)) as ->.
  { case_decide; lia. }
  set (current_attempt := if decide (se_status se = in_progress)
                          then max_attempt + 1 else max_attempt).
  eexists. split; [reflexivity|].
  rewrite (foldl_skip attempt_number PastAttempt).
  split.
  - rewrite (dict_comprehension_lookup attempt_number PastAttempt).
    rewrite list_filter_filter, filter_none by (by intros x _ [? ?]).
    cbn. destruct (get_student_answers db id); [done|].
    by rewrite lookup_singleton_eq.
  - intros n Hn.
    rewrite (dict_comprehension_lookup attempt_number PastAttempt).
    rewrite list_filter_filter.
    rewrite (list_filter_iff _ (λ r, attempt_number r = n))
      by (intros x; split; [by intros [? _]|intros <-; by split]).
    destruct (last _) as [x|]; [done|]. cbn.
    destruct (get_student_answers db id); [done|].
    by rewrite lookup_singleton_ne.
Qed.

(** *** [check_exam_access] against the attempts endpoint *)

(** X19.  [check_exam_access] and the attempts endpoint read the ledger
    alike: when access is granted for an id under a plan whose [max_exams]
    is not negative, the endpoint reports at least one remaining attempt for
    that id; when access is denied for want of attempts, the endpoint
    reports none; and whenever access is granted the subscription returned
    is the active one. *)
Theorem access_agrees_with_attempts_endpoint (now user eid : Z) db k us pkg
    sub :
  active_subscription_of db user now = Some (k, us) →
  subscription_plan_package us = Some pkg →
  subscription pkg = Some sub →
  1 ≤ max_exams_or_1 sub →
  ∃ r, route_get_remaining_attempts now user eid db = inr r
       ∧ (check_exam_access now db user eid = inr (true, AccessGranted, Some us)
          → 0 < rar_remaining_attempts r)
       ∧ (check_exam_access now db user eid
          = inr (false, NoRemainingAttemptsForThisExam, None)
          → rar_remaining_attempts r ≤ 0)
       ∧ (∀ message sub', check_exam_access now db user eid
                          = inr (true, message, sub') →
            message = AccessGranted ∧ sub' = Some us).
Proof.
  intros Hus Hpkg Hsub Hmax.
  unfold route_get_remaining_attempts, check_exam_access.
  rewrite Hus, Hpkg, Hsub, start_ledger_query.
  destruct (get_exam_attempt db (us_id us) eid) as [[l ea]|];
    destruct (get_student_exam db eid) as [[i se]|];
    try case_decide; eexists; (split; [reflexivity|]); cbn;
    split_and!; try done; try lia; intros; simplify_eq; try done;
    cbn in *; try done.
Qed.

End Results.

(** * The exam-question rows a completion reads *)
Section ExamQuestions.

Context {F : Type} `{PyFloat F}.

Implicit Types (db : DB F) (rows : list (ExamQuestion F)).

Lemma filter_fmap_commute {A} (f : A → A) (P : A → Prop)
    `{∀ x, Decision (P x)} (l : list A) :
  (∀ x, P (f x) ↔ P x) → filter P (f <$> l) = f <$> filter P l.
Proof.
  intros Hf. induction l as [|x l IH]; [done|].
  rewrite fmap_cons, !filter_cons, IH.
  destruct (decide (P x)) as [Hx|Hx].
  - by rewrite decide_True by (by apply Hf).
  - by rewrite decide_False by (by rewrite Hf).
Qed.

Lemma filter_all {A} (P : A → Prop) `{∀ x, Decision (P x)} (l : list A) :
  (∀ x, x ∈ l → P x) → filter P l = l.
Proof.
  induction l as [|x l IH]; [done|]. intros Hall.
  rewrite filter_cons, decide_True by (apply Hall; left).
  f_equal. apply IH. intros y Hy. apply Hall. by right.
Qed.

(** No row of the pair in the table: the pair is not among the keys. *)
Lemma get_exam_question_None db (e q : Z) :
  get_exam_question db e q = None
  ↔ (e, q) ∉ (λ r, (eq_exam_id r, eq_question_id r)) <$> exam_questions db.
Proof.
  unfold get_exam_question. rewrite list_find_None, Forall_forall. split.
  - intros Hall (r & [= -> ->] & Hr)%list_elem_of_fmap. by apply (Hall r).
  - intros Hout r Hr [<- <-]. apply Hout.
    by apply (list_elem_of_fmap_2 (λ r, (eq_exam_id r, eq_question_id r))).
Qed.

Lemma add_question_one_row (exam_question : ExamQuestionCreate F) db :
  one_row_per_question db →
  one_row_per_question (add_question_to_exam exam_question db).1.
Proof.
  unfold add_question_to_exam, one_row_per_question.
  destruct (get_exam_question db _ _) as [[i row]|] eqn:Hfind; [done|].
  cbn. intros Hnd. rewrite fmap_app. apply NoDup_app.
  split; [done|]. split; [|apply NoDup_singleton].
  intros k Hk ->%list_elem_of_singleton.
  by apply get_exam_question_None in Hfind.
Qed.

(** X20.  [add_question_to_exam] adds a question once: after the call the
    exam has a row for the question, and it is the row returned; a second
    call for the same question, whatever marks it carries, returns that row
    and changes nothing, the marks of the row included; and a table with one
    row per question still has one row per question. *)
Theorem adding_a_question_twice (exam_question : ExamQuestionCreate F)
    (marks' : F) db :
  (∃ j, get_exam_question (add_question_to_exam exam_question db).1
          (eqc_exam_id exam_question) (eqc_question_id exam_question)
        = Some (j, (add_question_to_exam exam_question db).2))
  ∧ add_question_to_exam
      {| eqc_exam_id := eqc_exam_id exam_question;
         eqc_question_id := eqc_question_id exam_question;
         eqc_marks := marks' |}
      (add_question_to_exam exam_question db).1
    = add_question_to_exam exam_question db
  ∧ (one_row_per_question db →
     one_row_per_question (add_question_to_exam exam_question db).1).
Proof.
  assert (∃ j, get_exam_question (add_question_to_exam exam_question db).1
                 (eqc_exam_id exam_question) (eqc_question_id exam_question)
               = Some (j, (add_question_to_exam exam_question db).2))
    as [j Hj].
  { unfold add_question_to_exam.
    destruct (get_exam_question db _ _) as [[j row]|] eqn:Hfind; cbn.
    - by exists j.
    - eexists. unfold get_exam_question in *. cbn.
      by apply list_find_snoc_selected. }
  split; [by exists j|]. split.
  - unfold add_question_to_exam at 1. cbn. rewrite Hj.
    by destruct (add_question_to_exam exam_question db).
  - apply add_question_one_row.
Qed.

(** *** [bulk_add_questions_to_exam] *)

Lemma bulk_add_loop (e : Z) (marks : F)
    (existing_questions : gmap Z (nat * ExamQuestion F)) (ids : list Z)
    (st : list (ExamQuestion F) * list nat) :
  (foldl (λ (st : list (ExamQuestion F) * list nat) question_id,
            match existing_questions !! question_id with
            | Some existing => (st.1, st.2 ++ [existing.1])
            | None =>
              (st.1 ++ [{| eq_exam_id := e; eq_question_id := question_id;
                           eq_marks := marks |}],
               st.2 ++ [length st.1])
            end) st ids).1
  = st.1 ++ ((λ q, {| eq_exam_id := e; eq_question_id := q;
                      eq_marks := marks |})
             <$> filter (λ q, existing_questions !! q = None) ids).
Proof.
  revert st. induction ids as [|q ids IH]; intros st.
  - cbn. by rewrite app_nil_r.
  - cbn [foldl]. rewrite IH, filter_cons.
    destruct (existing_questions !! q) as [row|] eqn:Hq; cbn [fst].
    + by rewrite decide_False by done.
    + rewrite decide_True by done. by rewrite fmap_cons, <- app_assoc.
Qed.

Lemma existing_questions_None db (e q : Z) :
  foldl (λ (d : gmap Z (nat * ExamQuestion F)) r,
           <[eq_question_id r.2 := r]> d) ∅
        (filter (λ r, eq_exam_id r.2 = e) (imap pair (exam_questions db)))
  !! q = None
  ↔ get_exam_question db e q = None.
Proof.
  rewrite (dict_comprehension_lookup (λ r, eq_question_id r.2) id),
    list_filter_filter.
  unfold get_exam_question. rewrite list_find_None, Forall_forall. split.
  - intros Hlast r Hr [He Hq].
    destruct (last (filter _ (imap pair (exam_questions db)))) eqn:Hl; [done|].
    apply last_None in Hl.
    apply list_elem_of_lookup in Hr as [i Hi].
    assert ((i, r) ∈ filter (λ r : nat * ExamQuestion F,
                               eq_question_id r.2 = q ∧ eq_exam_id r.2 = e)
                            (imap pair (exam_questions db))) as Hin.
    { apply list_elem_of_filter. split; [done|].
      apply list_elem_of_lookup. exists i.
      by rewrite list_lookup_imap, Hi. }
    rewrite Hl in Hin. by apply elem_of_nil in Hin.
  - intros Hall. rewrite filter_none; [done|].
    intros [i r] Hr [? ?].
    apply list_elem_of_lookup in Hr as [i' Hi'].
    rewrite list_lookup_imap in Hi'.
    destruct (exam_questions db !! i') as [r'|] eqn:Hr'; [|done].
    injection Hi' as <- <-.
    apply (Hall r'); [by eapply list_elem_of_lookup_2|done].
Qed.

Lemma bulk_add_rows (bulk_create : BulkExamQuestionCreate F) db :
  exam_questions (bulk_add_questions_to_exam bulk_create db).1
  = exam_questions db
    ++ ((λ q, {| eq_exam_id := bulk_exam_id bulk_create;
                 eq_question_id := q;
                 eq_marks := bulk_marks bulk_create |})
        <$> filter (λ q, get_exam_question db (bulk_exam_id bulk_create) q
                         = None)
                   (bulk_question_ids bulk_create)).
Proof.
  unfold bulk_add_questions_to_exam.
  cbn [fst exam_questions with_exam_questions].
  rewrite bulk_add_loop. cbn [fst]. do 2 f_equal.
  apply list_filter_iff. intros q. apply existing_questions_None.
Qed.

Lemma bulk_add_one_row (bulk_create : BulkExamQuestionCreate F) db :
  NoDup (bulk_question_ids bulk_create) →
  one_row_per_question db →
  one_row_per_question (bulk_add_questions_to_exam bulk_create db).1.
Proof.
  intros Hids Hnd. unfold one_row_per_question in *.
  rewrite bulk_add_rows, fmap_app, <- list_fmap_compose. apply NoDup_app.
  split; [done|]. split.
  - intros k Hk (q & -> & [Hq _]%list_elem_of_filter)%list_elem_of_fmap.
    cbn in Hk. by apply get_exam_question_None in Hq.
  - apply NoDup_fmap_2_strong; [|by apply NoDup_filter].
    intros q q' _ _ [= ->]. done.
Qed.

(** X21.  [bulk_add_questions_to_exam] adds one row for every id of the
    request that the exam did not hold before the call, in the order of the
    request, and touches no other row: an id the request names twice gets
    two rows.  If the request names no question twice, a table with one row
    per question still has one row per question. *)
Theorem bulk_add_adds_the_missing_questions
    (bulk_create : BulkExamQuestionCreate F) db :
  exam_questions (bulk_add_questions_to_exam bulk_create db).1
  = exam_questions db
    ++ ((λ q, {| eq_exam_id := bulk_exam_id bulk_create;
                 eq_question_id := q;
                 eq_marks := bulk_marks bulk_create |})
        <$> filter (λ q, get_exam_question db (bulk_exam_id bulk_create) q
                         = None)
                   (bulk_question_ids bulk_create))
  ∧ (NoDup (bulk_question_ids bulk_create) →
     one_row_per_question db →
     one_row_per_question (bulk_add_questions_to_exam bulk_create db).1).
Proof. split; [apply bulk_add_rows|apply bulk_add_one_row]. Qed.

Lemma update_marks_one_row (e q : Z) (marks : F) db :
  one_row_per_question db →
  one_row_per_question (update_exam_question_marks e q marks db).1.
Proof.
  unfold update_exam_question_marks, one_row_per_question.
  destruct (get_exam_question db e q) as [[i row]|] eqn:Hget; [|done].
  cbn. apply list_find_Some in Hget as (Hi & _ & _).
  rewrite list_fmap_insert. cbn.
  rewrite list_insert_id; [done|]. by rewrite list_lookup_fmap, Hi.
Qed.

Lemma remove_question_one_row (e q : Z) db :
  one_row_per_question db →
  one_row_per_question (remove_question_from_exam e q db).1.
Proof.
  unfold remove_question_from_exam, one_row_per_question.
  destruct (get_exam_question db e q) as [[i row]|]; [|done].
  cbn. rewrite list_fmap_delete. intros Hnd.
  eapply sublist_NoDup; [exact Hnd|apply sublist_delete].
Qed.

(** *** [update_exam_question_marks] and the marks the scorer uses *)

(** X22.  With one row per question, marks set by
    [update_exam_question_marks] are the marks a completion uses: in the
    dictionary the scorer builds for the exam, the question now maps to the
    new marks and every other question maps to what it did; the rows of the
    other exams are as they were. *)
Theorem updated_marks_reach_the_scorer (e q : Z) (marks : F) db i row :
  one_row_per_question db →
  get_exam_question db e q = Some (i, row) →
  (∀ exam, exam_id exam = e →
     question_marks_of
       (exam_questions_of (update_exam_question_marks e q marks db).1 exam)
     = <[q := marks]> (question_marks_of (exam_questions_of db exam)))
  ∧ (∀ exam, exam_id exam ≠ e →
       exam_questions_of (update_exam_question_marks e q marks db).1 exam
       = exam_questions_of db exam)
  ∧ one_row_per_question (update_exam_question_marks e q marks db).1.
Proof.
  intros Hnd Hget. unfold update_exam_question_marks. rewrite Hget.
  cbn [fst]. pose proof Hget as (Hi & [He Hq] & _)%list_find_Some.
  set (f := λ r : ExamQuestion F,
         if decide (eq_exam_id r = e ∧ eq_question_id r = q)
         then set_marks marks r else r).
  assert (<[i := set_marks marks row]> (exam_questions db)
          = f <$> exam_questions db) as Hmap.
  { apply list_eq. intros j. rewrite list_lookup_fmap.
    destruct (decide (j = i)) as [->|Hne].
    - rewrite list_lookup_insert_eq by (by eapply lookup_lt_Some).
      rewrite Hi. cbn. unfold f. by rewrite decide_True.
    - rewrite list_lookup_insert_ne by done.
      destruct (exam_questions db !! j) as [r|] eqn:Hj; [|done]. cbn.
      unfold f. rewrite decide_False; [done|]. intros [He' Hq'].
      apply Hne. unfold one_row_per_question in Hnd.
      eapply (NoDup_lookup _ _ _ (e, q) Hnd); rewrite list_lookup_fmap.
      + by rewrite Hj; cbn; rewrite He', Hq'.
      + by rewrite Hi; cbn; rewrite He, Hq. }
  assert (∀ r, eq_exam_id (f r) = eq_exam_id r
               ∧ eq_question_id (f r) = eq_question_id r) as Hkeys.
  { intros r. unfold f. by case_decide. }
  split_and!.
  - intros exam Hexam. unfold exam_questions_of.
    cbn [exam_questions with_exam_questions]. rewrite Hmap.
    rewrite filter_fmap_commute
      by (intros r; by destruct (Hkeys r) as [-> _]).
    apply map_eq. intros k. rewrite question_marks_lookup.
    rewrite filter_fmap_commute
      by (intros r; by destruct (Hkeys r) as [_ ->]).
    rewrite fmap_last, <- option_fmap_compose.
    destruct (decide (k = q)) as [->|Hne].
    + rewrite lookup_insert_eq.
      destruct (last (filter _ (filter _ (exam_questions db)))) as [r|] eqn:Hl.
      * apply last_Some_elem_of in Hl.
        apply list_elem_of_filter in Hl as [Hq' [He' _]%list_elem_of_filter].
        cbn. unfold f. rewrite decide_True; [done|]. by rewrite He', Hexam.
      * apply last_None in Hl.
        assert (row ∈ filter (λ r, eq_question_id r = q)
                        (filter (λ r, eq_exam_id r = exam_id exam)
                                (exam_questions db))) as Hin.
        { apply list_elem_of_filter. split; [done|].
          apply list_elem_of_filter. split; [by rewrite Hexam|].
          by eapply list_elem_of_lookup_2. }
        rewrite Hl in Hin. by apply elem_of_nil in Hin.
    + rewrite lookup_insert_ne by done. rewrite question_marks_lookup.
      destruct (last (filter _ (filter _ (exam_questions db)))) as [r|] eqn:Hl;
        [|done].
      apply last_Some_elem_of in Hl.
      apply list_elem_of_filter in Hl as [Hq' _].
      cbn. unfold f. rewrite decide_False; [done|]. intros [_ ?]. congruence.
  - intros exam Hexam. unfold exam_questions_of.
    cbn [exam_questions with_exam_questions]. rewrite Hmap.
    rewrite filter_fmap_commute
      by (intros r; by destruct (Hkeys r) as [-> _]).
    rewrite <- (list_fmap_id (filter _ (exam_questions db))) at 2.
    apply list_fmap_ext. intros j r [Hr _]%list_elem_of_lookup_2%list_elem_of_filter.
    unfold f. rewrite decide_False; [done|]. intros [? _]. congruence.
  - pose proof (update_marks_one_row e q marks db Hnd) as Hone.
    unfold update_exam_question_marks in Hone. by rewrite Hget in Hone.
Qed.

(** X23.  With one row per question, [remove_question_from_exam] leaves the
    exam without the question and every other row in place. *)
Theorem removed_question_is_gone (e q : Z) db i row :
  one_row_per_question db →
  get_exam_question db e q = Some (i, row) →
  get_exam_question (remove_question_from_exam e q db).1 e q = None
  ∧ (remove_question_from_exam e q db).2 = Some row
  ∧ exam_questions (remove_question_from_exam e q db).1
    = filter (λ r, ¬ (eq_exam_id r = e ∧ eq_question_id r = q))
             (exam_questions db)
  ∧ one_row_per_question (remove_question_from_exam e q db).1.
Proof.
  intros Hnd Hget. unfold remove_question_from_exam. rewrite Hget. cbn [fst snd].
  pose proof Hget as (Hi & [He Hq] & _)%list_find_Some.
  assert (delete i (exam_questions db)
          = filter (λ r, ¬ (eq_exam_id r = e ∧ eq_question_id r = q))
                   (exam_questions db)) as Hdel.
  { rewrite delete_take_drop.
    rewrite <- (take_drop_middle _ _ _ Hi) at 3.
    rewrite filter_app, filter_cons, decide_False by tauto.
    assert (∀ j r, j ≠ i → exam_questions db !! j = Some r →
                   ¬ (eq_exam_id r = e ∧ eq_question_id r = q)) as Hother.
    { intros j r Hne Hj [He' Hq']. apply Hne. unfold one_row_per_question in Hnd.
      eapply (NoDup_lookup _ _ _ (e, q) Hnd); rewrite list_lookup_fmap.
      - by rewrite Hj; cbn; rewrite He', Hq'.
      - by rewrite Hi; cbn; rewrite He, Hq. }
    f_equal; symmetry; apply filter_all.
    - intros r [j Hj]%list_elem_of_lookup_1.
      pose proof (lookup_lt_Some _ _ _ Hj) as Hlt.
      rewrite length_take in Hlt. rewrite lookup_take_lt in Hj by lia.
      apply (Hother j); [lia|done].
    - intros r [j Hj]%list_elem_of_lookup_1. rewrite lookup_drop in Hj.
      apply (Hother (S i + j)%nat); [lia|done]. }
  rewrite Hdel. split_and!; try done.
  - unfold get_exam_question. cbn. apply list_find_None, Forall_forall.
    by intros r [? _]%list_elem_of_filter.
  - rewrite <- Hdel.
    pose proof (remove_question_one_row e q db Hnd) as Hone.
    unfold remove_question_from_exam in Hone. by rewrite Hget in Hone.
Qed.

End ExamQuestions.

(** * Sequences of requests *)
Section Requests.

Context {F : Type} `{PyFloat F}.

Implicit Types (db : DB F) (request : Request F)
  (requests : list (Request F)).

(** *** The store each operation leaves *)

Lemma start_student_exam_effect commit_ok now (id : Z) db :
  (start_student_exam commit_ok now id db).1 = db
  ∨ ∃ i se attempts,
      get_student_exam db id = Some (i, se)
      ∧ (start_student_exam commit_ok now id db).1
        = with_exam_attempts
            (with_student_exams
               (with_student_answers db (kept_answers db id se))
               (<[i := set_status in_progress se]> (student_exams db)))
            attempts.
Proof.
  destruct (start_student_exam commit_ok now id db) as [db' [e|se']] eqn:Hs.
  - left. by apply start_student_exam_failure in Hs.
  - right. apply start_student_exam_inv in Hs as (i & se & attempts & ? & -> & ->).
    by exists i, se, attempts.
Qed.

Lemma route_start_student_exam_store commit_ok now (user id : Z) db :
  (route_start_student_exam commit_ok now user id db).1 = db
  ∨ (route_start_student_exam commit_ok now user id db).1
    = (start_student_exam commit_ok now id db).1.
Proof.
  unfold route_start_student_exam, raise, ret.
  destruct (get_student_exam db id) as [[i se]|]; [|by left].
  case_decide; [by left|]. right.
  destruct (start_student_exam commit_ok now id db) as [db' [[]|]]; done.
Qed.

Lemma complete_student_exam_effect (id : Z) db :
  (complete_student_exam id db).1 = db
  ∨ ∃ i se tq sc,
      get_student_exam db id = Some (i, se)
      ∧ (complete_student_exam id db).1
        = with_student_exams
            (with_exam_results db
               (exam_results db ++ [result_row db id tq sc]))
            (<[i := set_status completed se]> (student_exams db)).
Proof.
  destruct (complete_student_exam id db) as [db' [e|se']] eqn:Hc.
  - left. by apply complete_student_exam_failure in Hc.
  - right. pose proof Hc as (i & se & j & exam & tq & Hse & Hex & Htq)
      %complete_student_exam_inv.
    rewrite (complete_student_exam_success _ _ _ _ _ _ _ Hse Hex Htq) in Hc.
    injection Hc as <- _. by eexists i, se, tq, _.
Qed.

Lemma route_complete_student_exam_store (user id : Z) db :
  (route_complete_student_exam user id db).1 = db
  ∨ (route_complete_student_exam user id db).1
    = (complete_student_exam id db).1.
Proof.
  unfold route_complete_student_exam, raise.
  destruct (get_student_exam db id) as [[i se]|]; [|by left].
  case_decide; [by left|by right].
Qed.

Lemma read_exam_result_store (user : Z) (role : UserRole) (id : Z)
    (recalculate : bool) db :
  (read_exam_result user role id recalculate db).1 = db
  ∨ (read_exam_result user role id recalculate db).1
    = (complete_student_exam id db).1.
Proof.
  unfold read_exam_result.
  destruct (get_student_exam db id) as [[i se]|]; [|by left].
  destruct (_ && _); [by left|].
  destruct (get_exam_result_by_student_exam db id) as [[p r]|].
  - destruct recalculate; [|by left]. right.
    destruct (complete_student_exam id db) as [db' [e|se']]; [done|].
    by destruct (get_exam_result_by_student_exam db' id) as [[? ?]|].
  - destruct (_ || _); [|by left]. right.
    destruct (complete_student_exam id db) as [db' [e|se']]; [done|].
    by destruct (get_exam_result_by_student_exam db' id) as [[? ?]|].
Qed.

Lemma route_create_student_exam_effect now_route now_crud (user : Z) sec db :
  exams (route_create_student_exam now_route now_crud user sec db).1
  = exams db
  ∧ exam_questions (route_create_student_exam now_route now_crud user sec db).1
    = exam_questions db
  ∧ answers (route_create_student_exam now_route now_crud user sec db).1
    = answers db
  ∧ student_answers (route_create_student_exam now_route now_crud user sec db).1
    = student_answers db
  ∧ exam_results (route_create_student_exam now_route now_crud user sec db).1
    = exam_results db
  ∧ user_subscriptions
      (route_create_student_exam now_route now_crud user sec db).1
    = user_subscriptions db
  ∧ (student_exams (route_create_student_exam now_route now_crud user sec db).1
     = student_exams db
     ∨ list_find (λ se, se_student_id se = sec_student_id sec
                        ∧ se_exam_id se = sec_exam_id sec)
                 (student_exams db) = None
       ∧ student_exams
           (route_create_student_exam now_route now_crud user sec db).1
         = student_exams db
           ++ [{| se_id := next_id (se_id <$> student_exams db);
                  se_student_id := sec_student_id sec;
                  se_exam_id := sec_exam_id sec;
                  se_status := sec_status sec |}]).
Proof.
  unfold route_create_student_exam, raise, ret.
  case_decide; [by auto 10|].
  destruct (get_exam db (sec_exam_id sec)) as [[j exam]|]; [|by auto 10].
  destruct (list_find _ (student_exams db)) as [[p existing]|] eqn:Hfind;
    [by auto 10|].
  destruct (active_subscription_of db user now_route) as [[k us]|];
    [|by auto 10].
  destruct (subscription_plan_package us) as [pkg|]; [|by auto 10].
  destruct (subscription pkg) as [sub|]; [|by auto 10].
  unfold create_student_exam, raise, ret.
  change (active_subscription_of (with_student_exams db ?t))
    with (active_subscription_of db).
  destruct (active_subscription_of db (sec_student_id sec) now_crud)
    as [[k' us']|]; [|cbn; by auto 10].
  destruct (subscription_plan_package us') as [pkg'|]; [|cbn; by auto 10].
  destruct (subscription pkg') as [sub'|]; [|cbn; by auto 10].
  cbn [fst].
  match goal with
  | |- context [create_or_update_exam_attempt ?d ?u ?e ?m] =>
    destruct (create_or_update_frame d u e m)
      as (-> & -> & -> & -> & -> & -> & ->)
  end.
  cbn. by auto 10.
Qed.

Lemma retake_exam_frame now (user eid : Z) db :
  exams (retake_exam now user eid db).1 = exams db
  ∧ exam_questions (retake_exam now user eid db).1 = exam_questions db
  ∧ answers (retake_exam now user eid db).1 = answers db
  ∧ student_exams (retake_exam now user eid db).1 = student_exams db
  ∧ student_answers (retake_exam now user eid db).1 = student_answers db
  ∧ exam_results (retake_exam now user eid db).1 = exam_results db
  ∧ user_subscriptions (retake_exam now user eid db).1 = user_subscriptions db.
Proof.
  unfold retake_exam, raise, ret.
  destruct (active_subscription_of db user now) as [[k us]|]; [|done].
  destruct (subscription_plan_package us) as [pkg|]; [|done].
  destruct (subscription pkg) as [sub|]; [|done].
  destruct (list_find _ (exam_attempts db)) as [[j ea]|].
  - by case_decide.
  - destruct (create_or_update_frame db (us_id us) eid (max_exams_or_1 sub))
      as (? & ? & ? & ? & ? & ? & ?).
    by case_decide.
Qed.

Lemma route_create_student_answer_frame (user id : Z) sac db :
  exams (route_create_student_answer user id sac db).1 = exams db
  ∧ exam_questions (route_create_student_answer user id sac db).1
    = exam_questions db
  ∧ answers (route_create_student_answer user id sac db).1 = answers db
  ∧ student_exams (route_create_student_answer user id sac db).1
    = student_exams db
  ∧ exam_results (route_create_student_answer user id sac db).1
    = exam_results db
  ∧ user_subscriptions (route_create_student_answer user id sac db).1
    = user_subscriptions db
  ∧ exam_attempts (route_create_student_answer user id sac db).1
    = exam_attempts db.
Proof.
  unfold route_create_student_answer, create_student_answer, raise, ret.
  destruct (get_student_exam db id) as [[i se]|]; [|done].
  by repeat case_decide.
Qed.

Lemma get_user_subscriptions_frame commit_ok (now : nat → Z) (user : Z) db :
  exams (get_user_subscriptions commit_ok now user db).1 = exams db
  ∧ exam_questions (get_user_subscriptions commit_ok now user db).1
    = exam_questions db
  ∧ answers (get_user_subscriptions commit_ok now user db).1 = answers db
  ∧ student_exams (get_user_subscriptions commit_ok now user db).1
    = student_exams db
  ∧ student_answers (get_user_subscriptions commit_ok now user db).1
    = student_answers db
  ∧ exam_results (get_user_subscriptions commit_ok now user db).1
    = exam_results db
  ∧ exam_attempts (get_user_subscriptions commit_ok now user db).1
    = exam_attempts db.
Proof.
  unfold get_user_subscriptions. cbn [fst]. by destruct (_ && _).
Qed.

Lemma cancel_user_subscription_frame (id : Z) db :
  exams (cancel_user_subscription id db).1 = exams db
  ∧ exam_questions (cancel_user_subscription id db).1 = exam_questions db
  ∧ answers (cancel_user_subscription id db).1 = answers db
  ∧ student_exams (cancel_user_subscription id db).1 = student_exams db
  ∧ student_answers (cancel_user_subscription id db).1 = student_answers db
  ∧ exam_results (cancel_user_subscription id db).1 = exam_results db
  ∧ exam_attempts (cancel_user_subscription id db).1 = exam_attempts db.
Proof.
  unfold cancel_user_subscription.
  by destruct (get_user_subscription db id) as [[i us]|].
Qed.

(** The four functions on exam questions write the exam-question table
    only. *)
Lemma exam_question_requests_frame request db :
  match request with
  | AddQuestion _ | BulkAddQuestions _ | RemoveQuestion _ _
  | UpdateQuestionMarks _ _ _ =>
    exams (handle request db) = exams db
    ∧ answers (handle request db) = answers db
    ∧ student_exams (handle request db) = student_exams db
    ∧ student_answers (handle request db) = student_answers db
    ∧ exam_results (handle request db) = exam_results db
    ∧ user_subscriptions (handle request db) = user_subscriptions db
    ∧ exam_attempts (handle request db) = exam_attempts db
  | _ => True
  end.
Proof.
  destruct request as
    [now_route now_crud current_user student_exam
    |commit_ok now current_user student_exam_id
    |current_user student_exam_id student_answer
    |current_user student_exam_id
    |now current_user exam_id
    |current_user role student_exam_id recalculate
    |commit_fails now
    |commit_ok now user_id
    |user_subscription_id
    |exam_question
    |bulk_create
    |exam_id question_id
    |exam_id question_id marks];
    try done; cbn [handle].
  - unfold add_question_to_exam. by destruct (get_exam_question _ _ _) as [[??]|].
  - unfold remove_question_from_exam.
    by destruct (get_exam_question _ _ _) as [[??]|].
  - unfold update_exam_question_marks.
    by destruct (get_exam_question _ _ _) as [[??]|].
Qed.

(** *** The result table *)

(** A request leaves the result table as it was or adds the row of one
    completion to it. *)
Lemma handle_exam_results request db :
  exam_results (handle request db) = exam_results db
  ∨ ∃ id tq sc,
      exam_results (handle request db)
      = exam_results db ++ [result_row db id tq sc].
Proof.
  assert (∀ id, exam_results (complete_student_exam id db).1 = exam_results db
                ∨ ∃ id' tq sc,
                    exam_results (complete_student_exam id db).1
                    = exam_results db ++ [result_row db id' tq sc]) as Hcomplete.
  { intros id.
    destruct (complete_student_exam_effect id db)
      as [->|(i & se & tq & sc & _ & ->)]; [by left|right].
    by exists id, tq, sc. }
  destruct request as
    [now_route now_crud current_user student_exam
    |commit_ok now current_user student_exam_id
    |current_user student_exam_id student_answer
    |current_user student_exam_id
    |now current_user exam_id
    |current_user role student_exam_id recalculate
    |commit_fails now
    |commit_ok now user_id
    |user_subscription_id
    |exam_question
    |bulk_create
    |exam_id question_id
    |exam_id question_id marks];
    cbn [handle].
  - left. apply route_create_student_exam_effect.
  - left. destruct (route_start_student_exam_store commit_ok now current_user
                      student_exam_id db) as [->| ->]; [done|].
    by destruct (start_student_exam_effect commit_ok now student_exam_id db)
      as [->|(i & se & attempts & _ & ->)].
  - left. apply route_create_student_answer_frame.
  - destruct (route_complete_student_exam_store current_user student_exam_id db)
      as [->| ->]; [by left|apply Hcomplete].
  - left. apply retake_exam_frame.
  - destruct (read_exam_result_store current_user role student_exam_id
                recalculate db) as [->| ->]; [by left|apply Hcomplete].
  - left. apply update_expired_subscriptions_frame.
  - left. apply get_user_subscriptions_frame.
  - left. apply cancel_user_subscription_frame.
  - left. apply (exam_question_requests_frame (AddQuestion exam_question)).
  - left. apply (exam_question_requests_frame (BulkAddQuestions bulk_create)).
  - left. apply (exam_question_requests_frame
                   (RemoveQuestion exam_id question_id)).
  - left. apply (exam_question_requests_frame
                   (UpdateQuestionMarks exam_id question_id marks)).
Qed.

(** X24.  Results are only ever added: whatever requests are served, in
    whatever order, the result table before them is a prefix of the result
    table after them.  No request changes or removes a result row. *)
Theorem results_are_append_only requests db :
  exam_results db `prefix_of` exam_results (run requests db).
Proof.
  unfold run. revert db. induction requests as [|request requests IH];
    intros db; [done|]. cbn [foldl].
  etrans; [|apply IH].
  destruct (handle_exam_results request db) as [->|(id & tq & sc & ->)];
    [done|]. by apply prefix_app_r.
Qed.

Lemma next_attempt_number_seqZ db (id : Z) (n : nat) :
  attempt_numbers_of db id = seqZ 1 (Z.of_nat n) →
  next_attempt_number db id = Z.of_nat n + 1.
Proof.
  intros Hseq. unfold next_attempt_number.
  pose proof (latest_attempt_number_spec db id) as Hl.
  destruct (latest_attempt_number db id) as [m|].
  - destruct Hl as [Hin Hmax]. rewrite Hseq in Hin, Hmax.
    apply elem_of_seqZ in Hin.
    specialize (Hmax (Z.of_nat n)). rewrite elem_of_seqZ in Hmax. lia.
  - rewrite Hl in Hseq. destruct n; [done|].
    rewrite seqZ_cons in Hseq by lia. done.
Qed.

Lemma handle_attempts_numbered request db :
  attempts_numbered_from_one db → attempts_numbered_from_one (handle request db).
Proof.
  intros Hinv id'. unfold attempt_numbers_of at 1 2.
  destruct (handle_exam_results request db) as [->|(id & tq & sc & ->)];
    [apply Hinv|].
  rewrite filter_app, fmap_app, length_app, filter_cons. cbn [er_student_exam_id result_row].
  fold (attempt_numbers_of db id').
  destruct (decide (id = id')) as [->|Hne]; cbn.
  - rewrite Nat.add_1_r, seqZ_S, <- Hinv. f_equal.
    rewrite (next_attempt_number_seqZ db id' _ (Hinv id')). f_equal. lia.
  - rewrite app_nil_r, Nat.add_0_r. apply Hinv.
Qed.

(** X25.  Attempt numbers count completions: if the attempt numbers of every
    session are 1, 2, ... in table order, as they are in a store without
    results, they still are after any sequence of requests.  No number is
    skipped or given twice within a session. *)
Theorem attempts_stay_numbered_from_one requests db :
  attempts_numbered_from_one db →
  attempts_numbered_from_one (run requests db).
Proof.
  unfold run. revert db. induction requests as [|request requests IH];
    intros db Hinv; [done|]. cbn [foldl].
  by apply IH, handle_attempts_numbered.
Qed.

(** *** The session table *)

(** A request leaves the identity of every session row as it was, or adds
    one row under the next id for a pair that had none. *)
Lemma handle_student_exams request db :
  session_key <$> student_exams (handle request db)
  = session_key <$> student_exams db
  ∨ ∃ new,
      student_exams (handle request db) = student_exams db ++ [new]
      ∧ se_id new = next_id (se_id <$> student_exams db)
      ∧ list_find (λ se, se_student_id se = se_student_id new
                         ∧ se_exam_id se = se_exam_id new)
                  (student_exams db) = None.
Proof.
  assert (∀ i se s, student_exams db !! i = Some se →
            session_key <$> <[i := set_status s se]> (student_exams db)
            = session_key <$> student_exams db) as Hset.
  { intros i se s Hi. rewrite list_fmap_insert.
    apply list_insert_id. by rewrite list_lookup_fmap, Hi. }
  assert (∀ id, session_key <$> student_exams (complete_student_exam id db).1
                = session_key <$> student_exams db) as Hcomplete.
  { intros id.
    destruct (complete_student_exam_effect id db)
      as [->|(i & se & tq & sc & (Hi & _)%list_find_Some & ->)]; [done|].
    by apply Hset. }
  destruct request as
    [now_route now_crud current_user student_exam
    |commit_ok now current_user student_exam_id
    |current_user student_exam_id student_answer
    |current_user student_exam_id
    |now current_user exam_id
    |current_user role student_exam_id recalculate
    |commit_fails now
    |commit_ok now user_id
    |user_subscription_id
    |exam_question
    |bulk_create
    |exam_id question_id
    |exam_id question_id marks];
    cbn [handle].
  - destruct (route_create_student_exam_effect now_route now_crud current_user
                student_exam db)
      as (_ & _ & _ & _ & _ & _ & [->|[Hnone ->]]); [by left|right].
    eexists. by split_and!.
  - left. destruct (route_start_student_exam_store commit_ok now current_user
                      student_exam_id db) as [->| ->]; [done|].
    destruct (start_student_exam_effect commit_ok now student_exam_id db)
      as [->|(i & se & attempts & (Hi & _)%list_find_Some & ->)]; [done|].
    by apply Hset.
  - left. f_equal. apply route_create_student_answer_frame.
  - left. destruct (route_complete_student_exam_store current_user
                      student_exam_id db) as [->| ->]; [done|apply Hcomplete].
  - left. f_equal. apply retake_exam_frame.
  - left. destruct (read_exam_result_store current_user role student_exam_id
                      recalculate db) as [->| ->]; [done|apply Hcomplete].
  - left. f_equal. apply update_expired_subscriptions_frame.
  - left. f_equal. apply get_user_subscriptions_frame.
  - left. f_equal. apply cancel_user_subscription_frame.
  - left. f_equal.
    apply (exam_question_requests_frame (AddQuestion exam_question)).
  - by left.
  - left. f_equal.
    apply (exam_question_requests_frame (RemoveQuestion exam_id question_id)).
  - left. f_equal.
    apply (exam_question_requests_frame
             (UpdateQuestionMarks exam_id question_id marks)).
Qed.

Lemma handle_one_session_per_pair request db :
  one_session_per_pair db → one_session_per_pair (handle request db).
Proof.
  unfold one_session_per_pair.
  assert (∀ l : list StudentExam,
            (λ se, (se_student_id se, se_exam_id se)) <$> l
            = (λ k : Z * Z * Z, (k.1.2, k.2)) <$> (session_key <$> l)) as Hpairs.
  { intros l. by rewrite <- list_fmap_compose. }
  assert (∀ l : list StudentExam,
            se_id <$> l = (λ k : Z * Z * Z, k.1.1) <$> (session_key <$> l))
    as Hids.
  { intros l. by rewrite <- list_fmap_compose. }
  intros [Hnd1 Hnd2].
  destruct (handle_student_exams request db)
    as [Hsame|(new & -> & Hid & Hnone)].
  - by rewrite Hpairs, Hids, Hsame, <- Hpairs, <- Hids.
  - rewrite !fmap_app. split; apply NoDup_app.
    + split; [done|]. split; [|apply NoDup_singleton].
      intros k (se & -> & Hse)%list_elem_of_fmap [= Hs He]%list_elem_of_singleton.
      apply list_find_None in Hnone. rewrite Forall_forall in Hnone.
      by apply (Hnone se).
    + split; [done|]. split; [|apply NoDup_singleton].
      intros k Hk ->%list_elem_of_singleton. cbn in Hk.
      apply next_id_fresh in Hk. lia.
Qed.

(** X26.  Sessions stay unique and are never removed: starting from a store
    in which no student has two sessions for one exam and no two sessions
    share an id, the same holds after any sequence of requests, and every
    session row present before is still there, at the same place, with the
    same id, student and exam. *)
Theorem sessions_stay_unique requests db :
  one_session_per_pair db →
  one_session_per_pair (run requests db)
  ∧ session_key <$> student_exams db
    `prefix_of` session_key <$> student_exams (run requests db).
Proof.
  unfold run. revert db. induction requests as [|request requests IH];
    intros db Hinv; [done|]. cbn [foldl].
  destruct (IH (handle request db)) as [Hone Hprefix];
    [by apply handle_one_session_per_pair|].
  split; [done|]. etrans; [|exact Hprefix].
  destruct (handle_student_exams request db) as [->|(new & -> & _)]; [done|].
  rewrite fmap_app. by apply prefix_app_r.
Qed.

(** *** The ledger *)

Lemma max_exams_or_1_positive (sub : Subscription) :
  (∀ n, max_exams sub = Some n → 0 ≤ n) → 1 ≤ max_exams_or_1 sub.
Proof.
  intros Hn. unfold max_exams_or_1. destruct (max_exams sub) as [n|]; [|done].
  specialize (Hn n eq_refl). case_decide; lia.
Qed.

Lemma active_plan_positive db (user now : Z) k us pkg sub :
  no_negative_plan db →
  active_subscription_of db user now = Some (k, us) →
  subscription_plan_package us = Some pkg →
  subscription pkg = Some sub →
  1 ≤ max_exams_or_1 sub.
Proof.
  intros Hplans (Hk & _)%list_find_Some Hpkg Hsub.
  apply max_exams_or_1_positive. intros n Hn.
  eapply Hplans; [|done..]. by eapply list_elem_of_lookup_2.
Qed.

Lemma create_or_update_Forall (P : ExamAttempt → Prop) db (usid eid m : Z) :
  Forall P (exam_attempts db) →
  (∀ ea, ea_user_subscription_id ea = usid → remaining_attempts ea = m →
         P ea) →
  Forall P (exam_attempts (create_or_update_exam_attempt db usid eid m).1).
Proof.
  intros Hinv Hm. unfold create_or_update_exam_attempt.
  destruct (get_exam_attempt db usid eid) as [[l ea]|] eqn:Hfind;
    [case_decide|]; cbn.
  - apply list_find_Some in Hfind as (_ & [? _] & _).
    apply Forall_insert; [done|]. by apply Hm.
  - done.
  - apply Forall_app. split; [done|]. apply Forall_singleton. by apply Hm.
Qed.

Lemma create_or_update_non_negative db (usid eid m : Z) :
  0 ≤ m →
  ledger_non_negative db →
  ledger_non_negative (create_or_update_exam_attempt db usid eid m).1.
Proof.
  intros Hm Hinv. apply create_or_update_Forall; [done|].
  intros ea _ ->. done.
Qed.

Lemma start_student_exam_non_negative commit_ok now (id : Z) db :
  no_negative_plan db →
  ledger_non_negative db →
  ledger_non_negative (start_student_exam commit_ok now id db).1.
Proof.
  intros Hplans Hinv. unfold start_student_exam, raise, ret.
  destruct (get_student_exam db id) as [[i se]|]; [|done].
  destruct (get_exam db (se_exam_id se)) as [[j exam]|]; [|done].
  destruct (before_start now exam); [done|].
  destruct (after_end now exam); [done|].
  destruct (active_subscription_of db (se_student_id se) now) as [[k us]|]
    eqn:Hus; [|done].
  destruct (subscription_plan_package us) as [pkg|] eqn:Hpkg; [|done].
  destruct (subscription pkg) as [sub|] eqn:Hsub; [|done].
  pose proof (active_plan_positive _ _ _ _ _ _ _ Hplans Hus Hpkg Hsub).
  destruct (list_find _ (exam_attempts db)) as [[l ea]|].
  - case_decide; [done|]. destruct commit_ok; [|done].
    unfold ledger_non_negative in *. cbn. apply Forall_insert; [done|]. cbn. lia.
  - destruct commit_ok; [|done].
    unfold ledger_non_negative in *. cbn. apply Forall_insert; [|cbn; lia].
    apply Forall_app. split; [done|]. apply Forall_singleton. cbn. lia.
Qed.

Lemma retake_exam_non_negative now (user eid : Z) db :
  no_negative_plan db →
  ledger_non_negative db →
  ledger_non_negative (retake_exam now user eid db).1.
Proof.
  intros Hplans Hinv. unfold retake_exam, raise, ret.
  destruct (active_subscription_of db user now) as [[k us]|] eqn:Hus; [|done].
  destruct (subscription_plan_package us) as [pkg|] eqn:Hpkg; [|done].
  destruct (subscription pkg) as [sub|] eqn:Hsub; [|done].
  pose proof (active_plan_positive _ _ _ _ _ _ _ Hplans Hus Hpkg Hsub).
  destruct (list_find _ (exam_attempts db)) as [[l ea]|].
  - case_decide; [done|].
    unfold ledger_non_negative in *. cbn. apply Forall_insert; [done|]. cbn. lia.
  - pose proof (create_or_update_non_negative db (us_id us) eid
                  (max_exams_or_1 sub) ltac:(lia) Hinv) as Hcreated.
    case_decide; [done|].
    unfold ledger_non_negative in *. cbn. apply Forall_insert; [done|]. cbn. lia.
Qed.

Lemma route_create_student_exam_non_negative now_route now_crud (user : Z)
    sec db :
  no_negative_plan db →
  ledger_non_negative db →
  ledger_non_negative
    (route_create_student_exam now_route now_crud user sec db).1.
Proof.
  intros Hplans Hinv. unfold route_create_student_exam, raise, ret.
  case_decide; [done|].
  destruct (get_exam db (sec_exam_id sec)) as [[j exam]|]; [|done].
  destruct (list_find _ (student_exams db)) as [[p existing]|]; [done|].
  destruct (active_subscription_of db user now_route) as [[k us]|] eqn:Hus;
    [|done].
  destruct (subscription_plan_package us) as [pkg|] eqn:Hpkg; [|done].
  destruct (subscription pkg) as [sub|] eqn:Hsub; [|done].
  pose proof (active_plan_positive _ _ _ _ _ _ _ Hplans Hus Hpkg Hsub).
  unfold create_student_exam, raise, ret.
  change (active_subscription_of (with_student_exams db ?t))
    with (active_subscription_of db).
  destruct (active_subscription_of db (sec_student_id sec) now_crud)
    as [[k' us']|] eqn:Hus'; [|done].
  destruct (subscription_plan_package us') as [pkg'|] eqn:Hpkg'; [|done].
  destruct (subscription pkg') as [sub'|] eqn:Hsub'; [|done].
  pose proof (active_plan_positive _ _ _ _ _ _ _ Hplans Hus' Hpkg' Hsub').
  cbn [fst]. apply create_or_update_non_negative; [lia|].
  unfold ledger_non_negative in *. cbn.
  apply Forall_app. split; [done|]. apply Forall_singleton. cbn. lia.
Qed.

(** The subscriptions keep their ids and their plans, row by row. *)
Lemma handle_plans request db :
  Forall2 (λ us us', us_id us' = us_id us
                     ∧ subscription_plan_package us'
                       = subscription_plan_package us)
          (user_subscriptions db) (user_subscriptions (handle request db)).
Proof.
  assert (∀ db', user_subscriptions db' = user_subscriptions db →
            Forall2 (λ us us', us_id us' = us_id us
                               ∧ subscription_plan_package us'
                                 = subscription_plan_package us)
                    (user_subscriptions db) (user_subscriptions db')) as Hsame.
  { intros db' ->. by apply Forall_Forall2_diag, Forall_true. }
  destruct request as
    [now_route now_crud current_user student_exam
    |commit_ok now current_user student_exam_id
    |current_user student_exam_id student_answer
    |current_user student_exam_id
    |now current_user exam_id
    |current_user role student_exam_id recalculate
    |commit_fails now
    |commit_ok now user_id
    |user_subscription_id
    |exam_question
    |bulk_create
    |exam_id question_id
    |exam_id question_id marks];
    cbn [handle].
  - apply Hsame, route_create_student_exam_effect.
  - apply Hsame.
    destruct (route_start_student_exam_store commit_ok now current_user
                student_exam_id db) as [->| ->]; [done|].
    by destruct (start_student_exam_effect commit_ok now student_exam_id db)
      as [->|(i & se & attempts & _ & ->)].
  - apply Hsame, route_create_student_answer_frame.
  - apply Hsame.
    destruct (route_complete_student_exam_store current_user student_exam_id db)
      as [->| ->]; [done|].
    by destruct (complete_student_exam_effect student_exam_id db)
      as [->|(i & se & tq & sc & _ & ->)].
  - apply Hsame, retake_exam_frame.
  - apply Hsame.
    destruct (read_exam_result_store current_user role student_exam_id
                recalculate db) as [->| ->]; [done|].
    by destruct (complete_student_exam_effect student_exam_id db)
      as [->|(i & se & tq & sc & _ & ->)].
  - eapply Forall2_impl; [apply update_expired_subscriptions_rows|].
    by intros us us' [->|(_ & _ & ->)].
  - apply Forall2_same_length_lookup_2.
    + by rewrite get_user_subscriptions_length.
    + intros i us us' Hi Hi'.
      rewrite (get_user_subscriptions_row _ _ _ _ _ _ Hi) in Hi'.
      injection Hi' as <-. case_decide; [|done]. by destruct commit_ok.
  - unfold cancel_user_subscription.
    destruct (get_user_subscription db user_subscription_id)
      as [[i us]|] eqn:Hget; [|by apply Hsame].
    apply list_find_Some in Hget as (Hi & _). cbn.
    eapply Forall2_insert_r_same; [done..|]. done.
  - apply Hsame.
    apply (exam_question_requests_frame (AddQuestion exam_question)).
  - apply Hsame.
    apply (exam_question_requests_frame (BulkAddQuestions bulk_create)).
  - apply Hsame.
    apply (exam_question_requests_frame (RemoveQuestion exam_id question_id)).
  - apply Hsame.
    apply (exam_question_requests_frame
             (UpdateQuestionMarks exam_id question_id marks)).
Qed.

Lemma handle_no_negative_plan request db :
  no_negative_plan db → no_negative_plan (handle request db).
Proof.
  intros Hplans us' pkg sub n [i Hi']%list_elem_of_lookup_1 Hpkg Hsub Hn.
  pose proof (handle_plans request db) as Hrows.
  destruct (Forall2_lookup_r _ _ _ _ _ Hrows Hi') as (us & Hi & _ & Heq).
  eapply (Hplans us pkg sub n); [by eapply list_elem_of_lookup_2| |done..].
  by rewrite <- Heq.
Qed.

Lemma handle_ledger_non_negative request db :
  no_negative_plan db →
  ledger_non_negative db →
  ledger_non_negative (handle request db).
Proof.
  intros Hplans Hinv.
  assert (∀ db', exam_attempts db' = exam_attempts db →
                 ledger_non_negative db') as Hsame.
  { intros db' Heq. unfold ledger_non_negative. by rewrite Heq. }
  destruct request as
    [now_route now_crud current_user student_exam
    |commit_ok now current_user student_exam_id
    |current_user student_exam_id student_answer
    |current_user student_exam_id
    |now current_user exam_id
    |current_user role student_exam_id recalculate
    |commit_fails now
    |commit_ok now user_id
    |user_subscription_id
    |exam_question
    |bulk_create
    |exam_id question_id
    |exam_id question_id marks];
    cbn [handle].
  - by apply route_create_student_exam_non_negative.
  - destruct (route_start_student_exam_store commit_ok now current_user
                student_exam_id db) as [->| ->]; [done|].
    by apply start_student_exam_non_negative.
  - apply Hsame, route_create_student_answer_frame.
  - apply Hsame.
    destruct (route_complete_student_exam_store current_user student_exam_id db)
      as [->| ->]; [done|].
    by destruct (complete_student_exam_effect student_exam_id db)
      as [->|(i & se & tq & sc & _ & ->)].
  - by apply retake_exam_non_negative.
  - apply Hsame.
    destruct (read_exam_result_store current_user role student_exam_id
                recalculate db) as [->| ->]; [done|].
    by destruct (complete_student_exam_effect student_exam_id db)
      as [->|(i & se & tq & sc & _ & ->)].
  - apply Hsame, update_expired_subscriptions_frame.
  - apply Hsame, get_user_subscriptions_frame.
  - apply Hsame, cancel_user_subscription_frame.
  - apply Hsame.
    apply (exam_question_requests_frame (AddQuestion exam_question)).
  - apply Hsame.
    apply (exam_question_requests_frame (BulkAddQuestions bulk_create)).
  - apply Hsame.
    apply (exam_question_requests_frame (RemoveQuestion exam_id question_id)).
  - apply Hsame.
    apply (exam_question_requests_frame
             (UpdateQuestionMarks exam_id question_id marks)).
Qed.

(** X27.  The ledger never goes negative: if no plan has a negative
    [max_exams] and no ledger row is negative, then no ledger row is negative
    after any sequence of requests; creating, starting and retaking stop at
    zero. *)
Theorem ledger_never_negative requests db :
  no_negative_plan db →
  ledger_non_negative db →
  ledger_non_negative (run requests db).
Proof.
  unfold run. revert db. induction requests as [|request requests IH];
    intros db Hplans Hinv; [done|]. cbn [foldl].
  apply IH; [by apply handle_no_negative_plan|].
  by apply handle_ledger_non_negative.
Qed.

(** *** The exam-question table *)

Lemma handle_one_row_per_question request db :
  names_no_question_twice request →
  one_row_per_question db →
  one_row_per_question (handle request db).
Proof.
  intros Hreq Hinv.
  assert (∀ db', exam_questions db' = exam_questions db →
                 one_row_per_question db') as Hsame.
  { intros db' Heq. unfold one_row_per_question. by rewrite Heq. }
  destruct request as
    [now_route now_crud current_user student_exam
    |commit_ok now current_user student_exam_id
    |current_user student_exam_id student_answer
    |current_user student_exam_id
    |now current_user exam_id
    |current_user role student_exam_id recalculate
    |commit_fails now
    |commit_ok now user_id
    |user_subscription_id
    |exam_question
    |bulk_create
    |exam_id question_id
    |exam_id question_id marks];
    cbn [handle].
  - apply Hsame, route_create_student_exam_effect.
  - apply Hsame.
    destruct (route_start_student_exam_store commit_ok now current_user
                student_exam_id db) as [->| ->]; [done|].
    by destruct (start_student_exam_effect commit_ok now student_exam_id db)
      as [->|(i & se & attempts & _ & ->)].
  - apply Hsame, route_create_student_answer_frame.
  - apply Hsame.
    destruct (route_complete_student_exam_store current_user student_exam_id db)
      as [->| ->]; [done|].
    by destruct (complete_student_exam_effect student_exam_id db)
      as [->|(i & se & tq & sc & _ & ->)].
  - apply Hsame, retake_exam_frame.
  - apply Hsame.
    destruct (read_exam_result_store current_user role student_exam_id
                recalculate db) as [->| ->]; [done|].
    by destruct (complete_student_exam_effect student_exam_id db)
      as [->|(i & se & tq & sc & _ & ->)].
  - apply Hsame, update_expired_subscriptions_frame.
  - apply Hsame, get_user_subscriptions_frame.
  - apply Hsame, cancel_user_subscription_frame.
  - by apply add_question_one_row.
  - by apply bulk_add_one_row.
  - by apply remove_question_one_row.
  - by apply update_marks_one_row.
Qed.

(** X28.  An exam keeps one row per question: starting from an
    exam-question table with one row per (exam, question), the table still
    has one row per pair after any sequence of requests in which no bulk
    request names a question twice. *)
Theorem questions_stay_single requests db :
  Forall names_no_question_twice requests →
  one_row_per_question db →
  one_row_per_question (run requests db).
Proof.
  unfold run. revert db. induction requests as [|request requests IH];
    intros db Hreqs Hinv; [done|]. cbn [foldl].
  apply Forall_cons in Hreqs as [Hreq Hreqs].
  by apply IH, handle_one_row_per_question.
Qed.

(** *** The ledger against the plans *)

Lemma within_plan_ext db db' (ea : ExamAttempt) :
  user_subscriptions db' = user_subscriptions db →
  within_plan db ea → within_plan db' ea.
Proof. unfold within_plan. by intros ->. Qed.

Lemma within_plan_lower db (ea : ExamAttempt) (n : Z) :
  n ≤ remaining_attempts ea → within_plan db ea →
  within_plan db (set_remaining n ea).
Proof.
  intros Hn Hea us pkg sub Hus Hid Hpkg Hsub.
  specialize (Hea us pkg sub Hus Hid Hpkg Hsub). cbn. lia.
Qed.

(** With unique subscription ids, a row of the active subscription is within
    the plan as soon as it is within the plan of that subscription. *)
Lemma within_active_plan db (user now : Z) k us pkg sub (ea : ExamAttempt) :
  unique_subscription_ids db →
  active_subscription_of db user now = Some (k, us) →
  subscription_plan_package us = Some pkg →
  subscription pkg = Some sub →
  ea_user_subscription_id ea = us_id us →
  remaining_attempts ea ≤ max_exams_or_1 sub →
  within_plan db ea.
Proof.
  intros Hnd (Hk & _)%list_find_Some Hpkg Hsub Hid Hrem
    us' pkg' sub' [k' Hk']%list_elem_of_lookup_1 Hid' Hpkg' Hsub'.
  assert (k' = k) as ->.
  { eapply (NoDup_lookup _ _ _ (us_id us) Hnd); rewrite list_lookup_fmap.
    - rewrite Hk'. cbn. by rewrite Hid', Hid.
    - by rewrite Hk. }
  by simplify_eq.
Qed.

Lemma start_student_exam_within_plans commit_ok now (id : Z) db :
  unique_subscription_ids db →
  ledger_within_plans db →
  ledger_within_plans (start_student_exam commit_ok now id db).1.
Proof.
  intros Hnd Hinv. unfold start_student_exam, raise, ret.
  destruct (get_student_exam db id) as [[i se]|]; [|done].
  destruct (get_exam db (se_exam_id se)) as [[j exam]|]; [|done].
  destruct (before_start now exam); [done|].
  destruct (after_end now exam); [done|].
  destruct (active_subscription_of db (se_student_id se) now) as [[k us]|]
    eqn:Hus; [|done].
  destruct (subscription_plan_package us) as [pkg|] eqn:Hpkg; [|done].
  destruct (subscription pkg) as [sub|] eqn:Hsub; [|done].
  destruct (list_find _ (exam_attempts db)) as [[l ea]|] eqn:Hfind.
  - case_decide; [done|]. destruct commit_ok; [|done].
    apply list_find_Some in Hfind as (Hl & _).
    unfold ledger_within_plans in *. cbn. apply Forall_insert.
    + eapply Forall_impl; [exact Hinv|]. intros ea'. by apply within_plan_ext.
    + apply (within_plan_ext db); [done|]. apply within_plan_lower; [lia|].
      by eapply Forall_lookup_1.
  - destruct commit_ok; [|done].
    unfold ledger_within_plans in *. cbn. apply Forall_insert.
    + apply Forall_app. split.
      * eapply Forall_impl; [exact Hinv|]. intros ea'. by apply within_plan_ext.
      * apply Forall_singleton. apply (within_plan_ext db); [done|].
        by apply (within_active_plan db _ _ _ _ _ _ _ Hnd Hus Hpkg Hsub).
    + apply (within_plan_ext db); [done|].
      apply (within_active_plan db _ _ _ _ _ _ _ Hnd Hus Hpkg Hsub); [done|].
      cbn. lia.
Qed.

Lemma retake_exam_within_plans now (user eid : Z) db :
  unique_subscription_ids db →
  ledger_within_plans db →
  ledger_within_plans (retake_exam now user eid db).1.
Proof.
  intros Hnd Hinv. unfold retake_exam, raise, ret.
  destruct (active_subscription_of db user now) as [[k us]|] eqn:Hus; [|done].
  destruct (subscription_plan_package us) as [pkg|] eqn:Hpkg; [|done].
  destruct (subscription pkg) as [sub|] eqn:Hsub; [|done].
  destruct (list_find _ (exam_attempts db)) as [[l ea]|] eqn:Hfind.
  - case_decide; [done|].
    apply list_find_Some in Hfind as (Hl & _).
    unfold ledger_within_plans in *. cbn. apply Forall_insert.
    + eapply Forall_impl; [exact Hinv|]. intros ea'. by apply within_plan_ext.
    + apply (within_plan_ext db); [done|]. apply within_plan_lower; [lia|].
      by eapply Forall_lookup_1.
  - destruct (create_or_update_frame db (us_id us) eid (max_exams_or_1 sub))
      as (_ & _ & _ & _ & _ & _ & Hsubs).
    destruct (create_or_update_lookup db (us_id us) eid (max_exams_or_1 sub))
      as [(Hl & [Hid _] & _)%list_find_Some Hrem].
    assert (Forall (within_plan db)
              (exam_attempts
                 (create_or_update_exam_attempt db (us_id us) eid
                    (max_exams_or_1 sub)).1)) as Hcreated.
    { apply create_or_update_Forall; [done|]. intros ea Hea Hm.
      apply (within_active_plan db _ _ _ _ _ _ _ Hnd Hus Hpkg Hsub);
        [done|lia]. }
    set (created := create_or_update_exam_attempt db (us_id us) eid
                      (max_exams_or_1 sub)) in *.
    unfold ledger_within_plans. case_decide.
    + cbn. eapply Forall_impl; [exact Hcreated|]. intros ea'.
      by apply within_plan_ext.
    + cbn. apply Forall_insert.
      * eapply Forall_impl; [exact Hcreated|]. intros ea'.
        by apply within_plan_ext.
      * apply (within_plan_ext db); [done|]. apply within_plan_lower; [lia|].
        by eapply Forall_lookup_1.
Qed.

Lemma route_create_student_exam_within_plans now_route now_crud (user : Z)
    sec db :
  unique_subscription_ids db →
  ledger_within_plans db →
  ledger_within_plans
    (route_create_student_exam now_route now_crud user sec db).1.
Proof.
  intros Hnd Hinv. unfold route_create_student_exam, raise, ret.
  case_decide; [done|].
  destruct (get_exam db (sec_exam_id sec)) as [[j exam]|]; [|done].
  destruct (list_find _ (student_exams db)) as [[p existing]|]; [done|].
  destruct (active_subscription_of db user now_route) as [[k us]|] eqn:Hus;
    [|done].
  destruct (subscription_plan_package us) as [pkg|] eqn:Hpkg; [|done].
  destruct (subscription pkg) as [sub|] eqn:Hsub; [|done].
  unfold create_student_exam, raise, ret.
  change (active_subscription_of (with_student_exams db ?t))
    with (active_subscription_of db).
  destruct (active_subscription_of db (sec_student_id sec) now_crud)
    as [[k' us']|] eqn:Hus'; [|done].
  destruct (subscription_plan_package us') as [pkg'|] eqn:Hpkg'; [|done].
  destruct (subscription pkg') as [sub'|] eqn:Hsub'; [|done].
  cbn [fst].
  match goal with
  | |- ledger_within_plans (create_or_update_exam_attempt ?d ?u ?e ?m).1 =>
    set (seeded := d);
    destruct (create_or_update_frame seeded u e m)
      as (_ & _ & _ & _ & _ & _ & Hsubs)
  end.
  unfold ledger_within_plans.
  eapply Forall_impl;
    [|intros ea'; apply within_plan_ext; exact Hsubs].
  apply create_or_update_Forall.
  - subst seeded. cbn. apply Forall_app. split.
    + eapply Forall_impl; [exact Hinv|]. intros ea'. by apply within_plan_ext.
    + apply Forall_singleton. apply (within_plan_ext db); [done|].
      apply (within_active_plan db _ _ _ _ _ _ _ Hnd Hus' Hpkg' Hsub');
        [done|]. cbn. lia.
  - intros ea Hea Hm. apply (within_plan_ext db); [done|].
    apply (within_active_plan db _ _ _ _ _ _ _ Hnd Hus Hpkg Hsub); [done|lia].
Qed.

Lemma handle_unique_subscription_ids request db :
  unique_subscription_ids db → unique_subscription_ids (handle request db).
Proof.
  unfold unique_subscription_ids.
  assert (us_id <$> user_subscriptions (handle request db)
          = us_id <$> user_subscriptions db) as ->; [|done].
  pose proof (handle_plans request db) as Hrows.
  induction Hrows as [|us us' l l' [Hid _] _ IH]; [done|].
  by rewrite !fmap_cons, Hid, IH.
Qed.

Lemma handle_ledger_within_plans request db :
  unique_subscription_ids db →
  ledger_within_plans db →
  ledger_within_plans (handle request db).
Proof.
  intros Hnd Hinv.
  assert (∀ db', exam_attempts db' = exam_attempts db →
                 user_subscriptions db' = user_subscriptions db →
                 ledger_within_plans db') as Hsame.
  { intros db' Heq Hsubs. unfold ledger_within_plans. rewrite Heq.
    eapply Forall_impl; [exact Hinv|]. intros ea. by apply within_plan_ext. }
  assert (exam_attempts (handle request db) = exam_attempts db →
          ledger_within_plans (handle request db)) as Hplans.
  { intros Heq. unfold ledger_within_plans. rewrite Heq.
    eapply Forall_impl; [exact Hinv|].
    intros ea Hea us' pkg sub [i Hi']%list_elem_of_lookup_1 Hid Hpkg Hsub.
    destruct (Forall2_lookup_r _ _ _ _ _ (handle_plans request db) Hi')
      as (us & Hi & Hid' & Heq').
    apply (Hea us pkg sub); [by eapply list_elem_of_lookup_2|congruence..|done]. }
  destruct request as
    [now_route now_crud current_user student_exam
    |commit_ok now current_user student_exam_id
    |current_user student_exam_id student_answer
    |current_user student_exam_id
    |now current_user exam_id
    |current_user role student_exam_id recalculate
    |commit_fails now
    |commit_ok now user_id
    |user_subscription_id
    |exam_question
    |bulk_create
    |exam_id question_id
    |exam_id question_id marks];
    cbn [handle] in *.
  - by apply route_create_student_exam_within_plans.
  - destruct (route_start_student_exam_store commit_ok now current_user
                student_exam_id db) as [->| ->]; [done|].
    by apply start_student_exam_within_plans.
  - apply Hsame; apply route_create_student_answer_frame.
  - destruct (route_complete_student_exam_store current_user student_exam_id db)
      as [->| ->]; [done|].
    by destruct (complete_student_exam_effect student_exam_id db)
      as [->|(i & se & tq & sc & _ & ->)]; [|apply Hsame].
  - by apply retake_exam_within_plans.
  - destruct (read_exam_result_store current_user role student_exam_id
                recalculate db) as [->| ->]; [done|].
    by destruct (complete_student_exam_effect student_exam_id db)
      as [->|(i & se & tq & sc & _ & ->)]; [|apply Hsame].
  - apply Hplans, update_expired_subscriptions_frame.
  - apply Hplans, get_user_subscriptions_frame.
  - apply Hplans, cancel_user_subscription_frame.
  - apply Hsame;
      apply (exam_question_requests_frame (AddQuestion exam_question)).
  - by apply Hsame.
  - apply Hsame;
      apply (exam_question_requests_frame (RemoveQuestion exam_id question_id)).
  - apply Hsame;
      apply (exam_question_requests_frame
               (UpdateQuestionMarks exam_id question_id marks)).
Qed.

(** X29.  The ledger never exceeds the plan: with unique subscription ids, if
    every ledger row holds at most the [max_exams or 1] of the plan of its
    subscription, it still does after any sequence of requests.  Seeding,
    topping up and creating on demand never put more than the plan's
    maximum into a row. *)
Theorem ledger_never_exceeds_plan requests db :
  unique_subscription_ids db →
  ledger_within_plans db →
  unique_subscription_ids (run requests db)
  ∧ ledger_within_plans (run requests db).
Proof.
  unfold run. revert db. induction requests as [|request requests IH];
    intros db Hnd Hinv; [done|]. cbn [foldl].
  apply IH; [by apply handle_unique_subscription_ids|].
  by apply handle_ledger_within_plans.
Qed.

(** *** The answers of a session *)

Lemma handle_student_answers (id : Z) request db :
  ¬ writes_answers_of id request →
  get_student_answers (handle request db) id = get_student_answers db id.
Proof.
  intros Hother.
  assert (∀ db', student_answers db' = student_answers db →
                 get_student_answers db' id = get_student_answers db id)
    as Hsame.
  { intros db' Heq. unfold get_student_answers. by rewrite Heq. }
  destruct request as
    [now_route now_crud current_user student_exam
    |commit_ok now current_user student_exam_id
    |current_user student_exam_id student_answer
    |current_user student_exam_id
    |now current_user exam_id
    |current_user role student_exam_id recalculate
    |commit_fails now
    |commit_ok now user_id
    |user_subscription_id
    |exam_question
    |bulk_create
    |exam_id question_id
    |exam_id question_id marks];
    cbn [handle writes_answers_of] in *.
  - apply Hsame, route_create_student_exam_effect.
  - destruct (route_start_student_exam_store commit_ok now current_user
                student_exam_id db) as [->| ->]; [done|].
    destruct (start_student_exam_effect commit_ok now student_exam_id db)
      as [->|(i & se & attempts & _ & ->)]; [done|].
    unfold get_student_answers, kept_answers, delete_answers_of. cbn.
    case_decide; [|done]. rewrite list_filter_filter.
    apply list_filter_iff. intros a. split; [by intros [? _]|].
    intros Ha. split; [done|]. by rewrite Ha.
  - unfold route_create_student_answer, create_student_answer, raise, ret.
    destruct (get_student_exam db student_exam_id) as [[i se]|]; [|done].
    case_decide; [done|]. case_decide as Hpath; [done|].
    unfold get_student_answers. cbn. rewrite filter_app, filter_cons. cbn.
    rewrite decide_False by (by rewrite <- Hpath).
    by rewrite app_nil_r.
  - destruct (route_complete_student_exam_store current_user student_exam_id db)
      as [->| ->]; [done|].
    by destruct (complete_student_exam_effect student_exam_id db)
      as [->|(i & se & tq & sc & _ & ->)].
  - apply Hsame, retake_exam_frame.
  - destruct (read_exam_result_store current_user role student_exam_id
                recalculate db) as [->| ->]; [done|].
    by destruct (complete_student_exam_effect student_exam_id db)
      as [->|(i & se & tq & sc & _ & ->)].
  - apply Hsame, update_expired_subscriptions_frame.
  - apply Hsame, get_user_subscriptions_frame.
  - apply Hsame, cancel_user_subscription_frame.
  - apply Hsame.
    apply (exam_question_requests_frame (AddQuestion exam_question)).
  - by apply Hsame.
  - apply Hsame.
    apply (exam_question_requests_frame (RemoveQuestion exam_id question_id)).
  - apply Hsame.
    apply (exam_question_requests_frame
             (UpdateQuestionMarks exam_id question_id marks)).
Qed.

(** X30.  The answers of a session are written by requests on that session
    only: after any sequence of requests none of which is a start of the
    session or a submission to it, the answers of the session are exactly
    what they were.  Requests on other sessions, retakes, completions,
    recalculations and the rest leave them alone. *)
Theorem answers_of_other_sessions_untouched (id : Z) requests db :
  Forall (λ request, ¬ writes_answers_of id request) requests →
  get_student_answers (run requests db) id = get_student_answers db id.
Proof.
  unfold run. revert db. induction requests as [|request requests IH];
    intros db Hreqs; [done|]. cbn [foldl].
  apply Forall_cons in Hreqs as [Hreq Hreqs].
  by rewrite IH, handle_student_answers.
Qed.

End Requests.

(** * Worked request sequences, evaluated

    The runs below are evaluated under IEEE binary64. *)
Section WalkthroughRuns.

Import Scenario Walkthrough.

Local Abbreviation B := spec_float.

(** A retake request on the session just created: one of the two attempts
    is taken. *)
Lemma retake_takes_one_attempt_witness :
  ∃ r, (retake_exam 12 7 1 (created (F:=B))).2 = inr r
       ∧ rar_remaining_attempts r = 1
       ∧ get_remaining_attempts (retake_exam 12 7 1 (created (F:=B))).1 1 1 = 1.
Proof.
  destruct (retake_takes_one_attempt 12 7 1 (created (F:=B)) 0%nat held
              {| subscription := Some plan |} plan)
    as [Hpos _]; try (vm_compute; reflexivity).
  destruct Hpos as (r & Hr & Hrem & _ & Hstored); [vm_compute; reflexivity|].
  exists r. split; [exact Hr|]. split; [exact Hrem|exact Hstored].
Defined.

(** A retake request and then the first start: the two attempts of the plan
    are gone after one start. *)
Lemma retake_then_start_takes_two_witness :
  ∃ db' se',
    route_start_student_exam true 12 7 1
      (retake_exam 11 7 1 (created (F:=B))).1 = (db', inr se')
    ∧ se_status se' = in_progress
    ∧ get_remaining_attempts db' 1 1 = 0.
Proof.
  apply (retake_then_start_takes_two 11 12 1 (created (F:=B)) 0%nat
           (session not_started) 0%nat (exam 2) 0%nat held
           {| subscription := Some plan |} plan 0%nat
           {| ea_user_subscription_id := 1; ea_exam_id := 1;
              remaining_attempts := 2 |});
    try (vm_compute; reflexivity).
  - split; [vm_compute; reflexivity|]. split; [vm_compute; reflexivity|].
    exists 0%nat. vm_compute. reflexivity.
  - vm_compute. discriminate.
Defined.

(** The sweeper at instant 400 and the entitlement of the student at 450. *)
Lemma sweeper_keeps_entitlements_witness :
  active_subscription_of
    (update_expired_subscriptions (λ _, false) 400 (started (F:=B))).1 7 450
  = active_subscription_of (started (F:=B)) 7 450.
Proof. apply sweeper_keeps_entitlements. lia. Defined.

(** The 150 stale subscriptions, swept at 200 and again at 150. *)
Lemma sweeper_run_twice_witness :
  update_expired_subscriptions second_batch_fails 150
    (update_expired_subscriptions (λ _, false) 200 (db_stale (F:=B))).1
  = ((update_expired_subscriptions (λ _, false) 200 (db_stale (F:=B))).1, 0).
Proof. apply sweeper_run_twice; [reflexivity|lia]. Defined.

(** The student's only subscription is cancelled: none is resolved. *)
Lemma cancelled_subscription_is_passed_over_witness :
  active_subscription_of (cancel_user_subscription 1 (created (F:=B))).1 7 12
  = None.
Proof.
  destruct (cancelled_subscription_is_passed_over 1 7 12 (created (F:=B))
              0%nat held) as [_ ->].
  - apply (bool_decide_unpack _). vm_compute. exact I.
  - vm_compute. reflexivity.
  - vm_compute. reflexivity.
Defined.

(** A second create request, sent after the subscription has ended and
    asking for status [completed]: the session of the first one comes
    back. *)
Lemma create_session_twice_witness :
  route_create_student_exam 900 900 7
    {| sec_student_id := 7; sec_exam_id := 1; sec_status := completed |}
    (created (F:=B))
  = (created (F:=B), inr (session not_started)).
Proof.
  apply (create_session_twice 10 10 900 900 7 new_session _ (db0 (F:=B)));
    vm_compute; reflexivity.
Defined.

(** Question 1 answered a second time. *)
Lemma resubmitted_answer_replaces_witness :
  get_student_answers
    (route_create_student_answer 7 1 (answer_to 1) (answered (F:=B))).1 1
  = get_student_answers (answered (F:=B)) 1 ++ [correct_answer 1].
Proof.
  assert (route_create_student_answer 7 1 (answer_to 1) (answered (F:=B))
          = ((route_create_student_answer 7 1 (answer_to 1)
                (answered (F:=B))).1,
             inr (correct_answer 1))) as Hs
    by (vm_compute; reflexivity).
  exact (proj1 (resubmitted_answer_replaces 7 1 2 (answer_to 1) []
                  (answered (F:=B)) _ _ Hs)).
Defined.

(** The finished session read with a recalculation: the row of the first
    completion comes back, and a second row is in the table. *)
Lemma recalculation_returns_first_result_witness :
  read_exam_result 7 student 1 false (finished (F:=B))
  = (finished (F:=B), inr first_result)
  ∧ ∃ db',
      read_exam_result 7 student 1 true (finished (F:=B))
      = (db', inr first_result)
      ∧ length (exam_results db') = 2%nat.
Proof.
  destruct (recalculation_returns_first_result 7 student 1 (finished (F:=B))
              0%nat (session completed) 0%nat first_result 0%nat (exam 2) 2)
    as [Hplain (db' & Hread & Hresults & _)];
    try (vm_compute; reflexivity).
  { left. reflexivity. }
  split; [exact Hplain|]. exists db'. split; [exact Hread|].
  rewrite Hresults. reflexivity.
Defined.

(** The session in progress has no result: a plain read is refused. *)
Lemma reading_a_missing_result_witness :
  read_exam_result 7 student 1 false (answered (F:=B))
  = (answered (F:=B), inl ExamMustBeCompletedFirst).
Proof.
  apply (reading_a_missing_result 7 student 1 false (answered (F:=B))
           0%nat (session in_progress) 0%nat (exam 2) 2);
    try (vm_compute; reflexivity).
  left. reflexivity.
Defined.

(** The attempts of the worked session after its second start. *)
Lemma all_attempts_in_order_witness :
  ∃ l,
    get_all_exam_attempts 7 1 (second_start (F:=B)).1 = inr l
    ∧ StronglySorted (λ x y, attempt_number x ≤ attempt_number y) l
    ∧ l ≡ₚ filter
             (λ r, er_student_exam_id r
                   ∈ se_id <$> filter (λ se, se_exam_id se = 1
                                             ∧ se_student_id se = 7)
                                      (student_exams (second_start (F:=B)).1))
             (exam_results (second_start (F:=B)).1).
Proof.
  apply all_attempts_in_order.
  - apply (bool_decide_unpack _). vm_compute. exact I.
  - exists (0%nat, exam 2). vm_compute. reflexivity.
Defined.

(** The answers of all attempts of the finished session: the current
    answers are filed under attempt 1. *)
Lemma attempts_report_entries_witness :
  ∃ d,
    get_student_answers_all_attempts (finished (F:=B)) 1 = Some d
    ∧ d !! 1
      = Some (CurrentAnswers [correct_answer 1; correct_answer 2]).
Proof.
  destruct (attempts_report_entries 1 (finished (F:=B)) 0%nat
              (session completed)) as (d & Hd & Hcurrent & _).
  - vm_compute. reflexivity.
  - vm_compute. discriminate.
  - exists d. split; [exact Hd|]. exact Hcurrent.
Defined.

(** Access and the attempts endpoint on the session just created. *)
Lemma access_agrees_with_attempts_endpoint_witness :
  ∃ r, route_get_remaining_attempts 12 7 1 (created (F:=B)) = inr r
       ∧ 0 < rar_remaining_attempts r.
Proof.
  destruct (access_agrees_with_attempts_endpoint 12 7 1 (created (F:=B))
              0%nat held {| subscription := Some plan |} plan)
    as (r & Hr & Hgranted & _); try (vm_compute; reflexivity).
  { vm_compute. discriminate. }
  exists r. split; [exact Hr|]. apply Hgranted. vm_compute. reflexivity.
Defined.

(** The marks of question 2 are set to 30. *)
Lemma updated_marks_reach_the_scorer_witness :
  question_marks_of
    (exam_questions_of
       (update_exam_question_marks 1 2 (of_int 30) (db0 (F:=B))).1 (exam 2))
  = <[2 := of_int 30]>
      (question_marks_of (exam_questions_of (db0 (F:=B)) (exam 2))).
Proof.
  destruct (updated_marks_reach_the_scorer 1 2 (of_int 30) (db0 (F:=B))
              1%nat (question 2 50)) as [Hmarks _].
  - apply (bool_decide_unpack _). vm_compute. exact I.
  - vm_compute. reflexivity.
  - apply Hmarks. reflexivity.
Defined.

(** Question 2 is removed. *)
Lemma removed_question_is_gone_witness :
  get_exam_question (remove_question_from_exam 1 2 (db0 (F:=B))).1 1 2 = None.
Proof.
  destruct (removed_question_is_gone 1 2 (db0 (F:=B)) 1%nat (question 2 50))
    as [Hgone _].
  - apply (bool_decide_unpack _). vm_compute. exact I.
  - vm_compute. reflexivity.
  - exact Hgone.
Defined.

(** The worked request sequence keeps the attempts numbered. *)
Lemma attempts_stay_numbered_from_one_witness :
  attempts_numbered_from_one (run lifecycle (db0 (F:=B))).
Proof.
  apply attempts_stay_numbered_from_one. intros id. reflexivity.
Defined.

Lemma sessions_stay_unique_witness :
  one_session_per_pair (run lifecycle (db0 (F:=B)))
  ∧ session_key <$> student_exams (db0 (F:=B))
    `prefix_of` session_key <$> student_exams (run lifecycle (db0 (F:=B))).
Proof.
  apply sessions_stay_unique. split; apply NoDup_nil_2.
Defined.

Lemma ledger_never_negative_witness :
  ledger_non_negative (run lifecycle (db0 (F:=B))).
Proof.
  apply ledger_never_negative.
  - intros us pkg sub n Hus Hpkg Hsub Hn.
    apply list_elem_of_singleton in Hus. subst us.
    injection Hpkg as <-. injection Hsub as <-. injection Hn as <-. lia.
  - apply Forall_nil_2.
Defined.

Lemma ledger_never_exceeds_plan_witness :
  unique_subscription_ids (run lifecycle (db0 (F:=B)))
  ∧ ledger_within_plans (run lifecycle (db0 (F:=B))).
Proof.
  apply ledger_never_exceeds_plan.
  - apply (bool_decide_unpack _). vm_compute. exact I.
  - apply Forall_nil_2.
Defined.

(** The edited exam keeps one row per question. *)
Lemma questions_stay_single_witness :
  one_row_per_question (run editing (db0 (F:=B))).
Proof.
  apply questions_stay_single.
  - repeat apply Forall_cons_2; try exact I; [|apply Forall_nil_2].
    apply (bool_decide_unpack _). vm_compute. exact I.
  - apply (bool_decide_unpack _). vm_compute. exact I.
Defined.

(** The answers of a second session while the first one runs its course. *)
Lemma answers_of_other_sessions_untouched_witness :
  get_student_answers
    (run lifecycle
       (store (F:=B) 2 [question 1 50; question 2 50] []
          [{| sa_student_exam_id := 2; sa_question_id := 1;
              sa_answer_id := Some 1; sa_is_correct := Some false |}])) 2
  = [{| sa_student_exam_id := 2; sa_question_id := 1;
        sa_answer_id := Some 1; sa_is_correct := Some false |}].
Proof.
  apply (answers_of_other_sessions_untouched 2 lifecycle).
  repeat apply Forall_cons_2; try apply Forall_nil_2;
    vm_compute; intros Hwrites; first [exact Hwrites|discriminate Hwrites].
Defined.

End WalkthroughRuns.
